(** * YapStocks: the Yahoo Finance resolvers of [yahoofinance.mjs]

    A shallow embedding of [plasmoid/contents/code/yahoofinance.mjs]: the
    helper [getRawValText] and the three resolvers [resolveChart],
    [resolveQuote] and [resolveProfile], over a model of the JavaScript
    values that [JSON.parse] produces, with the semantics of ECMA-262.

    - Numbers are IEEE 754 binary64 values (Rocq's primitive floats), so
      [-], [*] and [/] are the machine operations the script runs.
    - [Number.prototype.toFixed] and the conversion of a number to a
      string are computed exactly, on the integer mantissa and the
      exponent of the double.
    - Strings are Rocq strings, read as sequences of UTF-16 code units
      below 256: one character is one code unit, so [length] and an index
      count as the script does.  Texts with other characters are outside
      the model.
    - The conversion of an object or an array to a number or a string
      completes or throws a [TypeError] as ToPrimitive does on a value
      built by [JSON.parse] ([convertible], [coerce]).
    - A thrown exception, that is a rejected promise, is an explicit
      [Throw]; the resolvers are written in the error monad [result].
    - Objects are association lists in insertion order with distinct
      keys; an object literal defines its keys one after the other.
    - The request function, [JSON.parse], the reading of a string as a
      number and the printing of a date belong to the host and are
      parameters ([Host]).
    - [console.log] and [console.debug] only write diagnostics and are left
      out; the property reads they perform are kept, since a read can
      throw.

    The first part holds the definitions, the second the lemmas and the
    properties of the resolvers. *)

From Stdlib Require Import ZArith NArith List String Ascii Bool Lia.
From Stdlib Require Import PrimFloat FloatOps SpecFloat FloatAxioms Uint63.
From Stdlib Require Import DecimalPos DecimalN.
Import ListNotations.

#[local] Set Warnings "-register-all,-inexact-float".

Local Open Scope list_scope.
Local Open Scope string_scope.

(* ===================================================================== *)
(** ** Values and completions *)
(* ===================================================================== *)

(** What an expression of the script can evaluate to.  [VDate tv] is a
    [Date] object with time value [tv] (milliseconds since the epoch). *)
Inductive value : Type :=
| VUndefined
| VNull
| VBool (b : bool)
| VNum (n : float)
| VStr (s : string)
| VArr (elems : list value)
| VObj (props : list (string * value))
| VDate (tv : float).

(** The exceptions the script can meet.  The engine's own message of a
    [TypeError] or [RangeError] is not modelled; [Error message] is the
    object built by [new Error(...)]. *)
Inductive exn : Type :=
| TypeError
| RangeError
| SyntaxError
| Error (message : string)
| TransportError (reason : string).

(** Normal or abrupt completion; for a promise: fulfilled or rejected. *)
Inductive result (A : Type) : Type :=
| Ok (a : A)
| Throw (e : exn).

Arguments Ok {A} a.
Arguments Throw {A} e.

Definition bind {A B : Type} (r : result A) (k : A -> result B) : result B :=
  match r with
  | Ok a => k a
  | Throw e => Throw e
  end.

Declare Scope js_scope.
Delimit Scope js_scope with js.
Notation "x <- e ;; k" := (bind e (fun x => k))
  (at level 61, e at next level, right associativity) : js_scope.

(* ===================================================================== *)
(** ** Decimal digits *)
(* ===================================================================== *)

Module Digits.

Fixpoint uint_chars (d : Decimal.uint) : list ascii :=
  match d with
  | Decimal.Nil => []
  | Decimal.D0 d => "0"%char :: uint_chars d
  | Decimal.D1 d => "1"%char :: uint_chars d
  | Decimal.D2 d => "2"%char :: uint_chars d
  | Decimal.D3 d => "3"%char :: uint_chars d
  | Decimal.D4 d => "4"%char :: uint_chars d
  | Decimal.D5 d => "5"%char :: uint_chars d
  | Decimal.D6 d => "6"%char :: uint_chars d
  | Decimal.D7 d => "7"%char :: uint_chars d
  | Decimal.D8 d => "8"%char :: uint_chars d
  | Decimal.D9 d => "9"%char :: uint_chars d
  end.

(** The decimal digits of [n], most significant first; ["0"] for zero. *)
Definition digits (n : N) : list ascii := uint_chars (N.to_uint n).

Definition is_digit (c : ascii) : bool :=
  let k := nat_of_ascii c in (48 <=? k)%nat && (k <=? 57)%nat.

Definition text (cs : list ascii) : string := string_of_list_ascii cs.

(** Number of decimal digits of a positive integer. *)
Definition ndigits (n : N) : Z := Z.of_nat (List.length (digits n)).

Fixpoint strip_zeros_rev (cs : list ascii) (dropped : Z) : list ascii * Z :=
  match cs with
  | c :: cs' =>
      if Ascii.eqb c "0" then
        match cs' with
        | [] => (cs, dropped)
        | _ => strip_zeros_rev cs' (dropped + 1)
        end
      else (cs, dropped)
  | [] => ([], dropped)
  end.

(** Drops the trailing zeros of a digit string (keeping one digit) and
    counts them. *)
Definition strip_trailing_zeros (cs : list ascii) : list ascii * Z :=
  let '(r, k) := strip_zeros_rev (rev cs) 0 in (rev r, k).

End Digits.

(* ===================================================================== *)
(** ** Numbers: exact decimal rendering of a binary64 value *)
(* ===================================================================== *)

Module Num.
Import Digits.

Definition nan : float := PrimFloat.nan.

Definition is_finite (x : float) : bool :=
  match Prim2SF x with
  | S754_zero _ | S754_finite _ _ _ => true
  | _ => false
  end.

(** [10^21 <= m * 2^e]: the magnitude from which [toFixed] gives up the
    fixed notation. *)
Definition ge_1e21 (m : positive) (e : Z) : bool :=
  (0 <=? e)%Z && (10 ^ 21 <=? Z.pos m * 2 ^ e)%Z.

(** [true] when [x] is finite and [|x| < 10^21]. *)
Definition fixed_range (x : float) : bool :=
  match Prim2SF x with
  | S754_zero _ => true
  | S754_finite _ m e => negb (ge_1e21 m e)
  | _ => false
  end.

(** The integer [n] for which [n / 10^f - m * 2^e] is as close to zero as
    possible, the larger one when two are equally close. *)
Definition scaled_round (m : positive) (e : Z) (f : nat) : N :=
  let p := (Z.pos m * 10 ^ Z.of_nat f)%Z in
  if (0 <=? e)%Z then Z.to_N (p * 2 ^ e)
  else let d := (2 ^ (- e))%Z in Z.to_N ((2 * p + d) / (2 * d)).

(** [n] written in decimal with a point before its last [f] digits. *)
Definition fixed_text (n : N) (f : nat) : string :=
  let m := digits n in
  match f with
  | O => text m
  | S _ =>
      let m := (repeat "0"%char (S f - List.length m) ++ m)%list in
      let k := List.length m in
      text (firstn (k - f) m) ++ "." ++ text (skipn (k - f) m)
  end.

(** *** Number::toString: the shortest decimal that reads back as [x] *)

(** [n] with [10^(n-1) <= m * 2^e < 10^n]. *)
Fixpoint scale_up (fuel : nat) (j : Z) (acc d : Z) : Z :=
  match fuel with
  | O => j
  | S fuel' => if (d <=? acc)%Z then j else scale_up fuel' (j + 1) (acc * 10) d
  end.

Definition decimal_exponent (m : positive) (e : Z) : Z :=
  if (0 <=? e)%Z then ndigits (Z.to_N (Z.pos m * 2 ^ e))
  else
    let d := (2 ^ (- e))%Z in
    let q := (Z.pos m / d)%Z in
    if (0 <? q)%Z then ndigits (Z.to_N q)
    else (1 - scale_up 400 1 (Z.pos m * 10) d)%Z.

Definition pow_pos_part (b z : Z) : Z := (b ^ Z.max z 0)%Z.

(** The interval of reals that round to [m * 2^e], in units of
    [2^(e-2)]: from [lo] to [hi], ends included when [m] is even. *)
Definition round_lo (m : positive) (e : Z) : Z :=
  if (Z.pos m =? 2 ^ 52)%Z && (-1074 <? e)%Z then (4 * Z.pos m - 1)%Z
  else (4 * Z.pos m - 2)%Z.

Definition round_hi (m : positive) : Z := (4 * Z.pos m + 2)%Z.

(** Does the decimal [s * 10^p] round to the double [m * 2^e]? *)
Definition reads_back (m : positive) (e : Z) (s p : Z) : bool :=
  let q := (e - 2)%Z in
  let lhs := (s * pow_pos_part 10 p * pow_pos_part 2 (- q))%Z in
  let scale := (pow_pos_part 2 q * pow_pos_part 10 (- p))%Z in
  let lo := (round_lo m e * scale)%Z in
  let hi := (round_hi m * scale)%Z in
  if Z.even (Z.pos m) then (lo <=? lhs)%Z && (lhs <=? hi)%Z
  else (lo <? lhs)%Z && (lhs <? hi)%Z.

(** The [k]-digit decimal nearest to [m * 2^e] that reads back, if any:
    [(s, p)] for [s * 10^p]; of two equally near ones, the even one. *)
Definition candidate (m : positive) (e n k : Z) : option (Z * Z) :=
  let p := (n - k)%Z in
  let a := (pow_pos_part 10 p * pow_pos_part 2 (- e))%Z in
  let b := (Z.pos m * pow_pos_part 2 e * pow_pos_part 10 (- p))%Z in
  let s0 := (b / a)%Z in
  let s1 := (s0 + 1)%Z in
  let ok0 := reads_back m e s0 p in
  let ok1 := reads_back m e s1 p in
  let d0 := (b - s0 * a)%Z in
  let d1 := (s1 * a - b)%Z in
  match ok0, ok1 with
  | true, true =>
      Some (if (d1 <? d0)%Z then s1
            else if (d0 <? d1)%Z then s0
            else if Z.even s0 then s0 else s1, p)
  | true, false => Some (s0, p)
  | false, true => Some (s1, p)
  | false, false => None
  end.

Fixpoint shortest_from (fuel : nat) (m : positive) (e n k : Z) : Z * Z :=
  match fuel with
  | O => (Z.pos m, e)
  | S fuel' =>
      match candidate m e n k with
      | Some sp => sp
      | None => shortest_from fuel' m e n (k + 1)
      end
  end.

(** The digits [ds] and the exponent [n] of Number::toString: the value is
    [0.ds * 10^n], with as few digits as read back to [m * 2^e]. *)
Definition shortest (m : positive) (e : Z) : list ascii * Z :=
  let n := decimal_exponent m e in
  let '(s, p) := shortest_from 17 m e n 1 in
  let '(ds, z) := strip_trailing_zeros (digits (Z.to_N s)) in
  (ds, (p + z + Z.of_nat (List.length ds))%Z).

Definition zeros (k : Z) : list ascii := repeat "0"%char (Z.to_nat k).

(** The layout rules of Number::toString for digits [ds] (there are [k]
    of them) and exponent [n]. *)
Definition layout (ds : list ascii) (n : Z) : string :=
  let k := Z.of_nat (List.length ds) in
  if (k <=? n)%Z && (n <=? 21)%Z then text (ds ++ zeros (n - k))%list
  else if (0 <? n)%Z && (n <=? 21)%Z then
    text (firstn (Z.to_nat n) ds) ++ "." ++ text (skipn (Z.to_nat n) ds)
  else if (-6 <? n)%Z && (n <=? 0)%Z then
    "0." ++ text (zeros (- n) ++ ds)%list
  else
    let ex := (n - 1)%Z in
    let sgn := if (ex <? 0)%Z then "-" else "+" in
    let tail := "e" ++ sgn ++ text (digits (Z.to_N (Z.abs ex))) in
    match ds with
    | [d] => text [d] ++ tail
    | d :: rest => text [d] ++ "." ++ text rest ++ tail
    | [] => tail
    end.

Definition sign (s : bool) : string := if s then "-" else "".

(** Number::toString(x), radix 10. *)
Definition toString (x : float) : string :=
  match Prim2SF x with
  | S754_nan => "NaN"
  | S754_zero _ => "0"
  | S754_infinity s => sign s ++ "Infinity"
  | S754_finite s m e =>
      let '(ds, n) := shortest m e in sign s ++ layout ds n
  end.

(** [x.toFixed(f)] for an integer [0 <= f <= 100]. *)
Definition toFixed (x : float) (f : nat) : string :=
  match Prim2SF x with
  | S754_nan | S754_infinity _ => toString x
  | S754_zero _ => fixed_text 0 f
  | S754_finite s m e =>
      if ge_1e21 m e then toString x
      else sign s ++ fixed_text (scaled_round m e f) f
  end.

(** ToIntegerOrInfinity, for the finite case: truncation towards zero. *)
Inductive integer_or_infinity : Type :=
| Int (z : Z)
| Inf (negative : bool).

Definition ToIntegerOrInfinity (x : float) : integer_or_infinity :=
  match Prim2SF x with
  | S754_nan | S754_zero _ => Int 0
  | S754_infinity s => Inf s
  | S754_finite s m e =>
      let a := if (0 <=? e)%Z then (Z.pos m * 2 ^ e)%Z
               else (Z.pos m / 2 ^ (- e))%Z in
      Int (if s then (- a)%Z else a)
  end.

(** The double of an integer below [2^53] in magnitude. *)
Definition of_Z (z : Z) : float :=
  let a := PrimFloat.of_uint63 (Uint63.of_Z (Z.abs z)) in
  if (z <? 0)%Z then PrimFloat.opp a else a.

(** TimeClip, applied by the [Date] constructor to its argument. *)
Definition TimeClip (t : float) : float :=
  match ToIntegerOrInfinity t with
  | Int z =>
      if negb (is_finite t) then nan
      else if (8640000000000000 <? Z.abs z)%Z then nan
      else of_Z z
  | Inf _ => nan
  end.

(** *** Reading a numeral back *)

Definition all_digits (cs : list ascii) : bool := forallb is_digit cs.

Definition unsigned (cs : list ascii) : list ascii :=
  match cs with
  | c :: r => if Ascii.eqb c "-" then r else cs
  | [] => cs
  end.

(** [s] is a numeral in fixed notation, an optional [-] and at least one
    digit, with exactly [p] digits after the decimal point; for [p = 0]
    it has no point. *)
Definition has_decimals (p : nat) (s : string) : bool :=
  let body := unsigned (list_ascii_of_string s) in
  match p with
  | O => negb (Nat.eqb (List.length body) 0) && all_digits body
  | S _ =>
      let i := (List.length body - S p)%nat in
      (S p <? List.length body)%nat
      && all_digits (firstn i body)
      && match nth_error body i with
         | Some c => Ascii.eqb c "."
         | None => false
         end
      && all_digits (skipn (S i) body)
  end.

End Num.

(* ===================================================================== *)
(** ** The JavaScript operations the script uses *)
(* ===================================================================== *)

(** What the script takes from its environment.  [httpRequestP] is the
    import from [httprequest.mjs]: the body of the response for a URL, or a
    rejection.  [JSON_parse] is [JSON.parse].  [StringToNumber] is the
    numeric reading of a string and [Date_toString] the text of a [Date]
    (which depends on the time zone); the resolvers reach them only when
    the provider sends a string where a number is expected, or never. *)
Class Host : Type := {
  httpRequestP : string -> result string;
  JSON_parse : string -> result value;
  StringToNumber : string -> float;
  Date_toString : float -> string
}.

(** ToBoolean: the test of [c ? a : b], [a || b] and [if]. *)
Definition ToBoolean (v : value) : bool :=
  match v with
  | VUndefined | VNull => false
  | VBool b => b
  | VNum n => negb (PrimFloat.is_nan n || PrimFloat.is_zero n)
  | VStr s => negb (s =? "")
  | VArr _ | VObj _ | VDate _ => true
  end.

Definition typeof (v : value) : string :=
  match v with
  | VUndefined => "undefined"
  | VBool _ => "boolean"
  | VNum _ => "number"
  | VStr _ => "string"
  | VNull | VArr _ | VObj _ | VDate _ => "object"
  end.

(** [undefined] and [null], the values without properties. *)
Definition nullish (v : value) : bool :=
  match v with
  | VUndefined | VNull => true
  | _ => false
  end.

(** [a || b] *)
Definition or_else (a b : value) : value := if ToBoolean a then a else b.

Definition lookup (k : string) (props : list (string * value)) : value :=
  match find (fun p => fst p =? k) props with
  | Some p => snd p
  | None => VUndefined
  end.

(** [v.k] for a property named by an identifier of the script.  Reading a
    property of [undefined] or [null] throws; a primitive, an array or a
    [Date] has none of the names the script reads, except [length].  The
    length of a string is its number of code units, one per character
    of the Rocq string. *)
Definition get (v : value) (k : string) : result value :=
  match v with
  | VUndefined | VNull => Throw TypeError
  | VObj props => Ok (lookup k props)
  | VArr elems =>
      Ok (if k =? "length" then VNum (Num.of_Z (Z.of_nat (List.length elems)))
          else VUndefined)
  | VStr s =>
      Ok (if k =? "length" then VNum (Num.of_Z (Z.of_nat (String.length s)))
          else VUndefined)
  | VBool _ | VNum _ | VDate _ => Ok VUndefined
  end.

(** [v[i]] for an index [i]; a string gives its code unit at [i], the
    character of the Rocq string. *)
Definition get_index (v : value) (i : nat) : result value :=
  match v with
  | VUndefined | VNull => Throw TypeError
  | VArr elems => Ok (nth i elems VUndefined)
  | VStr s =>
      Ok (match String.get i s with
          | Some c => VStr (String c "")
          | None => VUndefined
          end)
  | VObj props => Ok (lookup (Digits.text (Digits.digits (N.of_nat i))) props)
  | VBool _ | VNum _ | VDate _ => Ok VUndefined
  end.

(** An object literal [{k1: v1, k2: v2, ...}] defines its properties from
    left to right: a key met again keeps its place and takes the new
    value. *)
Fixpoint define (k : string) (v : value) (props : list (string * value))
  : list (string * value) :=
  match props with
  | [] => [(k, v)]
  | (k', v') :: rest =>
      if k' =? k then (k', v) :: rest else (k', v') :: define k v rest
  end.

Definition object_literal (fields : list (string * value)) : value :=
  VObj (fold_left (fun props kv => define (fst kv) (snd kv) props) fields []).

Definition keys (fields : list (string * value)) : list string :=
  map fst fields.

(** The value of [v.k] where the read does not throw. *)
Definition prop (v : value) (k : string) : value :=
  match get v k with
  | Ok a => a
  | Throw _ => VUndefined
  end.

(** [this.map((x, idx) => f x idx)] *)
Fixpoint map_indexed (f : value -> nat -> result value) (idx : nat)
  (elems : list value) : result (list value) :=
  match elems with
  | [] => Ok []
  | x :: rest =>
      (y <- f x idx ;;
       ys <- map_indexed f (S idx) rest ;;
       Ok (y :: ys))%js
  end.

Definition Array_map (this : value) (f : value -> nat -> result value)
  : result value :=
  match this with
  | VArr elems => (bars <- map_indexed f 0 elems ;; Ok (VArr bars))%js
  | _ => Throw TypeError
  end.

(** Whether the conversion of [v] to a primitive completes (ToPrimitive,
    OrdinaryToPrimitive).  A value built by [JSON.parse] holds no
    function.  An object with an own property [toString] has hidden the
    method of [Object.prototype], and [valueOf] gives no primitive:
    the conversion throws a [TypeError].  Any other object converts to
    ["[object Object]"], whether it holds an own [valueOf] or not.  An
    array is converted by [join], which converts its elements, except
    [undefined] and [null], to strings. *)
Fixpoint convertible (v : value) : bool :=
  match v with
  | VObj props => negb (existsb (fun p => fst p =? "toString") props)
  | VArr elems => forallb convertible elems
  | _ => true
  end.

Section Runtime.
Context {host : Host}.

(** ToString of a value that converts; an array is its elements joined
    by commas, with [undefined] and [null] elements left empty. *)
Fixpoint ToString (v : value) : string :=
  match v with
  | VUndefined => "undefined"
  | VNull => "null"
  | VBool true => "true"
  | VBool false => "false"
  | VNum n => Num.toString n
  | VStr s => s
  | VArr elems =>
      String.concat ","
        (map (fun e => match e with
                       | VUndefined | VNull => ""
                       | _ => ToString e
                       end) elems)
  | VObj _ => "[object Object]"
  | VDate tv => Date_toString tv
  end.

(** ToNumber of a value that converts. *)
Definition ToNumber (v : value) : float :=
  match v with
  | VUndefined => Num.nan
  | VNull => 0%float
  | VBool true => 1%float
  | VBool false => 0%float
  | VNum n => n
  | VStr s => StringToNumber s
  | VArr _ => StringToNumber (ToString v)
  | VObj _ => Num.nan
  | VDate tv => tv
  end.

(** The operand of an operator, or the argument of a conversion, once
    its conversion to a primitive has completed.  [ToNumber] and
    [ToString] above are the number and the text of such a value. *)
Definition coerce (v : value) : result value :=
  if convertible v then Ok v else Throw TypeError.

(** The numbers of [a - b], [a * b] and [a / b], and the text of
    [a + b] where [b] is a string. *)
Definition minus (a b : value) : value :=
  VNum (PrimFloat.sub (ToNumber a) (ToNumber b)).
Definition times (a b : value) : value :=
  VNum (PrimFloat.mul (ToNumber a) (ToNumber b)).
Definition divide (a b : value) : value :=
  VNum (PrimFloat.div (ToNumber a) (ToNumber b)).
Definition plus_string (a : value) (b : string) : value :=
  VStr (ToString a ++ b).

(** The operators [a - b], [a * b], [a / b] and [a + b] with a string
    [b]: the operands are converted from left to right, then the
    operation is carried out. *)
Definition op_minus (a b : value) : result value :=
  (x <- coerce a ;; y <- coerce b ;; Ok (minus x y))%js.
Definition op_times (a b : value) : result value :=
  (x <- coerce a ;; y <- coerce b ;; Ok (times x y))%js.
Definition op_divide (a b : value) : result value :=
  (x <- coerce a ;; y <- coerce b ;; Ok (divide x y))%js.
Definition op_plus_string (a : value) (b : string) : result value :=
  (x <- coerce a ;; Ok (plus_string x b))%js.

(** The object that [new Error(message)] builds from a message that
    converts. *)
Definition new_Error (message : value) : exn :=
  match message with
  | VUndefined => Error ""
  | _ => Error (ToString message)
  end.

(** [throw new Error(message)]: the message is converted to a string
    first, unless it is [undefined]. *)
Definition throw_new_Error {A : Type} (message : value) : result A :=
  (m <- coerce message ;; Throw (new_Error m))%js.

(** [new Date(t)] for a number [t]. *)
Definition new_Date (t : value) : value := VDate (Num.TimeClip (ToNumber t)).

(** [Number.prototype.toFixed]: the fraction digits are converted to a
    number; a [RangeError] unless they are between 0 and 100. *)
Definition Number_toFixed (x : float) (fractionDigits : value)
  : result value :=
  (digits <- coerce fractionDigits ;;
   match Num.ToIntegerOrInfinity (ToNumber digits) with
   | Num.Int f =>
       if (f <? 0)%Z || (100 <? f)%Z then Throw RangeError
       else Ok (VStr (Num.toFixed x (Z.to_nat f)))
   | Num.Inf _ => Throw RangeError
   end)%js.

(** [this.toFixed(fractionDigits)]: only a number has the method. *)
Definition toFixed (this fractionDigits : value) : result value :=
  match this with
  | VNum x => Number_toFixed x fractionDigits
  | _ => Throw TypeError
  end.

End Runtime.

(* ===================================================================== *)
(** ** The script *)
(* ===================================================================== *)

Section Script.
Context {host : Host}.
Local Open Scope js_scope.

(** [getRawValText(val, decimals)] (lines 28-37). *)
Definition getRawValText (val decimals : value) : result value :=
  result <- (if ToBoolean val then get val "raw" else Ok VNull) ;;
  if negb (typeof result =? "number") then Ok VNull
  else if typeof decimals =? "number" then toFixed result decimals
  else Ok result.

(** [r.priceHint ? r.priceHint.raw : 2], the expression that both
    [resolveQuote] (line 103) and [resolveProfile] (line 153) bind to
    [decimals]. *)
Definition priceHint_decimals (r : value) : result value :=
  priceHint <- get r "priceHint" ;;
  if ToBoolean priceHint then get priceHint "raw" else Ok (VNum 2%float).

(** *** resolveChart (lines 46-86) *)

Definition chart_url (symbol range interval : string) : string :=
  "https://query1.finance.yahoo.com/v8/finance/chart/" ++ symbol
  ++ "?symbol=" ++ symbol ++ "&range=" ++ range
  ++ "&interval=" ++ interval.

(** The callback of [timestamp.map] (lines 76-83). *)
Definition chart_bar (quote timestamp : value) (idx : nat) : result value :=
  milliseconds <- op_times timestamp (VNum 1000%float) ;;
  open <- get quote "open" ;;
  open_i <- get_index open idx ;;
  close <- get quote "close" ;;
  close_i <- get_index close idx ;;
  high <- get quote "high" ;;
  high_i <- get_index high idx ;;
  low <- get quote "low" ;;
  low_i <- get_index low idx ;;
  volume <- get quote "volume" ;;
  volume_i <- get_index volume idx ;;
  Ok (object_literal
        [ ("timestamp", milliseconds);
          ("open", open_i);
          ("close", close_i);
          ("high", high_i);
          ("low", low_i);
          ("volume", volume_i) ]).

(** The object literal of lines 58-84: its properties in the order they
    are written, [exchange] twice. *)
Definition chart_fields
  (symbol currency instrument exchangeName currentPrice previousClose
     priceChange priceChangePercentage updatedDateTime exchange
     timeseries : value) : list (string * value) :=
  [ ("symbol", symbol);
    ("currency", currency);
    ("instrument", instrument);
    ("exchange", exchangeName);
    ("currentPrice", currentPrice);
    ("previousClose", previousClose);
    ("priceChange", priceChange);
    ("priceChangePercentage", priceChangePercentage);
    ("updatedDateTime", updatedDateTime);
    ("exchange", exchange);
    ("timeseries", timeseries) ].

(** The record returned at lines 58-84, from the constants [meta] and
    [quote] and from [result.timestamp]. *)
Definition chart_record (meta quote timestamp : value) : result value :=
  symbol <- get meta "symbol" ;;
  currency <- get meta "currency" ;;
  instrumentType <- get meta "instrumentType" ;;
  exchangeName <- get meta "exchangeName" ;;
  regularMarketPrice <- get meta "regularMarketPrice" ;;
  previousClose <- get meta "previousClose" ;;
  priceChange <- op_minus regularMarketPrice previousClose ;;
  difference <- op_minus regularMarketPrice previousClose ;;
  ratio <- op_divide difference previousClose ;;
  percentage <- op_times ratio (VNum 100%float) ;;
  priceChangePercentage <- toFixed percentage (VNum 2%float) ;;
  regularMarketTime <- get meta "regularMarketTime" ;;
  milliseconds <- op_times regularMarketTime (VNum 1000%float) ;;
  timezone <- get meta "timezone" ;;
  exchangeTimezoneName <- get meta "exchangeTimezoneName" ;;
  currentTradingPeriod <- get meta "currentTradingPeriod" ;;
  regular <- get currentTradingPeriod "regular" ;;
  start <- get regular "start" ;;
  end_ <- get regular "end" ;;
  timeseries <- Array_map timestamp (chart_bar quote) ;;
  Ok (object_literal
        (chart_fields symbol currency instrumentType exchangeName
           regularMarketPrice previousClose priceChange
           priceChangePercentage (new_Date milliseconds)
           (object_literal
              [ ("timezone", timezone);
                ("timezoneName", exchangeTimezoneName);
                ("tradingPeriod",
                  object_literal [ ("start", start); ("end", end_) ]) ])
           timeseries)).

(** The callback of [.then] in [resolveChart], from the parsed
    response on. *)
Definition resolveChart_then (resp : value) : result value :=
  chart <- get resp "chart" ;;
  error <- get chart "error" ;;
  if ToBoolean error then
    description <- get error "description" ;;
    throw_new_Error description
  else
    results <- get chart "result" ;;
    result <- get_index results 0 ;;
    meta <- get result "meta" ;;
    indicators <- get result "indicators" ;;
    quotes <- get indicators "quote" ;;
    quote <- get_index quotes 0 ;;
    timestamp <- get result "timestamp" ;;
    _ <- get timestamp "length" ;;
    chart_record meta quote timestamp.

Definition resolveChart (symbol range interval : string) : result value :=
  text <- httpRequestP (chart_url symbol range interval) ;;
  resp <- JSON_parse text ;;
  resolveChart_then resp.

(** *** resolveQuote (lines 93-125) *)

Definition quote_url (symbol : string) : string :=
  "https://query1.finance.yahoo.com/v10/finance/quoteSummary/" ++ symbol
  ++ "?modules=price".

Definition resolveQuote_then (resp : value) : result value :=
  quoteSummary <- get resp "quoteSummary" ;;
  error <- get quoteSummary "error" ;;
  if ToBoolean error then
    description <- get error "description" ;;
    throw_new_Error description
  else
    results <- get quoteSummary "result" ;;
    result <- get_index results 0 ;;
    priceResult <- get result "price" ;;
    decimals <- priceHint_decimals priceResult ;;
    symbol <- get priceResult "symbol" ;;
    currency <- get priceResult "currency" ;;
    shortName <- get priceResult "shortName" ;;
    longName <- get priceResult "longName" ;;
    quoteType <- get priceResult "quoteType" ;;
    exchange <- get priceResult "exchange" ;;
    exchangeName <- get priceResult "exchangeName" ;;
    regularMarketPrice <- get priceResult "regularMarketPrice" ;;
    currentPrice <-
      (if ToBoolean regularMarketPrice then
         raw <- get regularMarketPrice "raw" ;; toFixed raw decimals
       else Ok VNull) ;;
    regularMarketDayHigh <- get priceResult "regularMarketDayHigh" ;;
    dayHighPrice <-
      (if ToBoolean regularMarketDayHigh then
         raw <- get regularMarketDayHigh "raw" ;; toFixed raw decimals
       else Ok VNull) ;;
    dayLowPrice <-
      (if ToBoolean regularMarketDayHigh then
         regularMarketDayLow <- get priceResult "regularMarketDayLow" ;;
         raw <- get regularMarketDayLow "raw" ;; toFixed raw decimals
       else Ok VNull) ;;
    regularMarketOpen <- get priceResult "regularMarketOpen" ;;
    openPrice <-
      (if ToBoolean regularMarketOpen then
         raw <- get regularMarketOpen "raw" ;; toFixed raw decimals
       else Ok VNull) ;;
    regularMarketVolume <- get priceResult "regularMarketVolume" ;;
    volume <-
      (if ToBoolean regularMarketVolume then get regularMarketVolume "raw"
       else Ok VNull) ;;
    regularMarketTime <- get priceResult "regularMarketTime" ;;
    milliseconds <- op_times regularMarketTime (VNum 1000%float) ;;
    regularMarketChange <- get priceResult "regularMarketChange" ;;
    priceChange <-
      (if ToBoolean regularMarketChange then
         raw <- get regularMarketChange "raw" ;; toFixed raw decimals
       else Ok VNull) ;;
    regularMarketChangePercent <-
      get priceResult "regularMarketChangePercent" ;;
    priceChangePercentage <-
      (if ToBoolean regularMarketChangePercent then
         raw <- get regularMarketChangePercent "raw" ;;
         percent <- op_times raw (VNum 100%float) ;;
         toFixed percent (VNum 2%float)
       else Ok VNull) ;;
    regularMarketPreviousClose <-
      get priceResult "regularMarketPreviousClose" ;;
    previousClose <-
      (if ToBoolean regularMarketPreviousClose then
         raw <- get regularMarketPreviousClose "raw" ;; toFixed raw decimals
       else Ok VNull) ;;
    marketCap <- get priceResult "marketCap" ;;
    marketCap_raw <-
      (if ToBoolean marketCap then get marketCap "raw" else Ok VNull) ;;
    Ok (object_literal
          [ ("symbol", symbol);
            ("currency", currency);
            ("shortName", shortName);
            ("longName", or_else longName shortName);
            ("instrument", quoteType);
            ("exchange", exchange);
            ("exchangeName",
              if ToBoolean exchangeName then exchangeName else VNull);
            ("currentPrice", currentPrice);
            ("dayHighPrice", dayHighPrice);
            ("dayLowPrice", dayLowPrice);
            ("openPrice", openPrice);
            ("volume", volume);
            ("updatedDateTime", new_Date milliseconds);
            ("priceChange", priceChange);
            ("priceChangePercentage", priceChangePercentage);
            ("priceDecimals", decimals);
            ("previousClose", previousClose);
            ("marketCap", marketCap_raw) ]).

Definition resolveQuote (symbol : string) : result value :=
  text <- httpRequestP (quote_url symbol) ;;
  resp <- JSON_parse text ;;
  resolveQuote_then resp.

(** *** resolveProfile (lines 140-195) *)

Definition isIndex (symbol : string) : bool := String.prefix "^" symbol.

Definition modules (symbol : string) : string :=
  if isIndex symbol then "summaryDetail%2Ccomponents"
  else "summaryProfile%2CsummaryDetail".

Definition profile_url (symbol : string) : string :=
  "https://query1.finance.yahoo.com/v10/finance/quoteSummary/" ++ symbol
  ++ "?modules=" ++ modules symbol.

(** The [summaryDetail] object of lines 152-170. *)
Definition summaryDetail_of (detailResult : value) : result value :=
  decimals <- priceHint_decimals detailResult ;;
  currency <- get detailResult "currency" ;;
  beta <- get detailResult "beta" ;;
  beta_t <- getRawValText beta decimals ;;
  fiftyTwoWeekLow <- get detailResult "fiftyTwoWeekLow" ;;
  fiftyTwoWeekLow_t <- getRawValText fiftyTwoWeekLow decimals ;;
  fiftyTwoWeekHigh <- get detailResult "fiftyTwoWeekHigh" ;;
  fiftyTwoWeekHigh_t <- getRawValText fiftyTwoWeekHigh decimals ;;
  fiftyDayAverage <- get detailResult "fiftyDayAverage" ;;
  fiftyDayAverage_t <- getRawValText fiftyDayAverage decimals ;;
  twoHundredDayAverage <- get detailResult "twoHundredDayAverage" ;;
  twoHundredDayAverage_t <- getRawValText twoHundredDayAverage decimals ;;
  dividendRate <- get detailResult "dividendRate" ;;
  dividendRate_t <- getRawValText dividendRate decimals ;;
  dividendYield <- get detailResult "dividendYield" ;;
  yield <-
    (if ToBoolean dividendYield then
       raw <- get dividendYield "raw" ;;
       percent <- op_times raw (VNum 100%float) ;;
       toFixed percent (VNum 2%float)
     else Ok VNull) ;;
  exDividendDate <- get detailResult "exDividendDate" ;;
  exDate <-
    (if ToBoolean exDividendDate then get exDividendDate "fmt"
     else Ok VNull) ;;
  trailingAnnualDividendRate <-
    get detailResult "trailingAnnualDividendRate" ;;
  trailingAnnualRate <- getRawValText trailingAnnualDividendRate decimals ;;
  trailingAnnualDividendYield <-
    get detailResult "trailingAnnualDividendYield" ;;
  trailingAnnualYield <-
    (if ToBoolean trailingAnnualDividendYield then
       raw <- get trailingAnnualDividendYield "raw" ;;
       percent <- op_times raw (VNum 100%float) ;;
       toFixed percent (VNum 2%float)
     else Ok VNull) ;;
  Ok (object_literal
        [ ("currency", currency);
          ("priceHistory",
            object_literal
              [ ("beta", beta_t);
                ("fiftyTwoWeekLow", fiftyTwoWeekLow_t);
                ("fiftyTwoWeekHigh", fiftyTwoWeekHigh_t);
                ("fiftyDayAverage", fiftyDayAverage_t);
                ("twoHundredDayAverage", twoHundredDayAverage_t) ]);
          ("dividend",
            object_literal
              [ ("rate", dividendRate_t);
                ("yield", yield);
                ("exDate", exDate);
                ("trailingAnnualRate", trailingAnnualRate);
                ("trailingAnnualYield", trailingAnnualYield) ]) ]).

(** The [summaryProfile] object of lines 176-186. *)
Definition summaryProfile_of (profileResult : value) : result value :=
  address2_ <- get profileResult "address2" ;;
  address2 <-
    (if ToBoolean address2_ then op_plus_string address2_ ", "
     else Ok (VStr "")) ;;
  address1_ <- get profileResult "address1" ;;
  address1 <- coerce address1_ ;;
  city_ <- get profileResult "city" ;;
  city <- coerce city_ ;;
  zip_ <- get profileResult "zip" ;;
  zip <- coerce zip_ ;;
  country_ <- get profileResult "country" ;;
  country <- coerce country_ ;;
  phone <- get profileResult "phone" ;;
  website <- get profileResult "website" ;;
  industry <- get profileResult "industry" ;;
  sector <- get profileResult "sector" ;;
  longBusinessSummary <- get profileResult "longBusinessSummary" ;;
  fullTimeEmployees <- get profileResult "fullTimeEmployees" ;;
  Ok (object_literal
        [ ("address",
            VStr (ToString address1 ++ ", " ++ ToString address2
                  ++ ToString city ++ " " ++ ToString zip ++ ", "
                  ++ ToString country));
          ("phone", phone);
          ("website", website);
          ("industry", industry);
          ("sector", sector);
          ("description", longBusinessSummary);
          ("fullTimeEmployees", fullTimeEmployees) ]).

Definition resolveProfile_then (symbol : string) (resp : value)
  : result value :=
  quoteSummary <- get resp "quoteSummary" ;;
  error <- get quoteSummary "error" ;;
  if ToBoolean error then
    description <- get error "description" ;;
    throw_new_Error description
  else
    results <- get quoteSummary "result" ;;
    result <- get_index results 0 ;;
    detailResult <- get result "summaryDetail" ;;
    summaryDetail <- summaryDetail_of detailResult ;;
    pc <-
      (if isIndex symbol then
         components_ <- get result "components" ;;
         components <- get components_ "components" ;;
         Ok (VNull, components)
       else
         profileResult <- get result "summaryProfile" ;;
         summaryProfile <- summaryProfile_of profileResult ;;
         Ok (summaryProfile, VNull)) ;;
    Ok (object_literal
          [ ("summaryProfile", fst pc);
            ("summaryDetail", summaryDetail);
            ("components", snd pc) ]).

Definition resolveProfile (symbol : string) : result value :=
  text <- httpRequestP (profile_url symbol) ;;
  resp <- JSON_parse text ;;
  resolveProfile_then symbol resp.

(** *** Reading a response *)

(** The parsed body that the host serves for [url]. *)
Definition response (url : string) : result value :=
  text <- httpRequestP url ;; JSON_parse text.

(** [resp.chart.error], [resp.quoteSummary.error] *)
Definition error_envelope (kind : string) (resp : value) : result value :=
  container <- get resp kind ;; get container "error".

(** [resp.chart.result[0]], [resp.quoteSummary.result[0]] *)
Definition first_result (kind : string) (resp : value) : result value :=
  container <- get resp kind ;;
  results <- get container "result" ;;
  get_index results 0.

(** [result.indicators.quote[0]] *)
Definition first_quote (payload : value) : result value :=
  indicators <- get payload "indicators" ;;
  quotes <- get indicators "quote" ;;
  get_index quotes 0.

(** [resp.chart.result[0].name] *)
Definition chart_part (name : string) (resp : value) : result value :=
  result <- first_result "chart" resp ;; get result name.

(** [resp.chart.result[0].indicators.quote[0]] *)
Definition chart_quote (resp : value) : result value :=
  result <- first_result "chart" resp ;; first_quote result.

(** [resp.quoteSummary.result[0].name] *)
Definition module_of (name : string) (resp : value) : result value :=
  result <- first_result "quoteSummary" resp ;; get result name.

(** [o.a.b] *)
Definition get2 (o : value) (a b : string) : result value :=
  x <- get o a ;; get x b.

(** The conditional expressions of the resolvers:
    [guard ? target.raw.toFixed(decimals) : null],
    [v ? (v.raw * 100).toFixed(2) : null] and [v ? v.k : null]. *)
Definition fixed_if (guard target decimals : value) : result value :=
  if ToBoolean guard then raw <- get target "raw" ;; toFixed raw decimals
  else Ok VNull.

Definition percent_if (v : value) : result value :=
  if ToBoolean v then
    raw <- get v "raw" ;;
    percent <- op_times raw (VNum 100%float) ;;
    toFixed percent (VNum 2%float)
  else Ok VNull.

Definition field_if (v : value) (k : string) : result value :=
  if ToBoolean v then get v k else Ok VNull.

(** The value of [v ? (v.raw * 100).toFixed(2) : null], where the
    conversion of [v.raw] completes. *)
Definition percent_text (v : value) : value :=
  if ToBoolean v then
    VStr (Num.toFixed (PrimFloat.mul (ToNumber (prop v "raw")) 100%float) 2)
  else VNull.

(** [o.k1.k2...] *)
Fixpoint get_path (o : value) (path : list string) : result value :=
  match path with
  | [] => Ok o
  | k :: rest => x <- get o k ;; get_path x rest
  end.

(** The text of the [address] template of line 179, from the
    properties of [profileResult], where their conversions complete. *)
Definition address_text (p : value) : string :=
  ToString (prop p "address1") ++ ", "
  ++ (if ToBoolean (prop p "address2")
      then ToString (prop p "address2") ++ ", " else "")
  ++ ToString (prop p "city") ++ " " ++ ToString (prop p "zip") ++ ", "
  ++ ToString (prop p "country").

(** The five parallel sequences of a chart quote. *)
Definition indicators : list string :=
  [ "open"; "close"; "high"; "low"; "volume" ].

End Script.

(* ===================================================================== *)
(** ** Sample responses *)
(* ===================================================================== *)

(** A host that serves one parsed response for every URL.  It reads no
    string as a number and prints no date; the samples below hold numbers
    where the script computes and never print a date. *)
Definition serving (resp : value) : Host :=
  {| httpRequestP := fun _ => Ok "";
     JSON_parse := fun _ => Ok resp;
     StringToNumber := fun _ => Num.nan;
     Date_toString := fun _ => "" |}.

Definition envelope (kind : string) (payload : value) : value :=
  VObj [ (kind, VObj [ ("result", VArr [ payload ]); ("error", VNull) ]) ].

Definition sample_error (description : string) : value :=
  VObj [ ("code", VStr "Not Found"); ("description", VStr description) ].

Definition failure (kind : string) (description : string) : value :=
  VObj [ (kind,
          VObj [ ("result", VNull); ("error", sample_error description) ]) ].

Definition raw (x : float) : value := VObj [ ("raw", VNum x) ].

Definition numbers (xs : list float) : value := VArr (map VNum xs).

Definition sample_regular : value :=
  VObj [ ("start", VNum 1599831000%float); ("end", VNum 1599854400%float) ].

Definition sample_meta (price previous : float) : value :=
  VObj [ ("currency", VStr "USD");
         ("symbol", VStr "ACME");
         ("exchangeName", VStr "NMS");
         ("instrumentType", VStr "EQUITY");
         ("regularMarketTime", VNum 1600000000%float);
         ("timezone", VStr "EDT");
         ("exchangeTimezoneName", VStr "America/New_York");
         ("regularMarketPrice", VNum price);
         ("previousClose", VNum previous);
         ("currentTradingPeriod", VObj [ ("regular", sample_regular) ]) ].

Definition sample_timestamps : list value :=
  map VNum [ 1599831000; 1599831060; 1599831120 ]%float.

(** Prices for three timestamps: [open] lacks its last entry, [low] all
    of them, and [close] holds a [null]. *)
Definition sample_indicators : value :=
  VObj [ ("open", numbers [ 101; 102 ]%float);
         ("close", VArr [ VNum 102%float; VNull; VNum 104%float ]);
         ("high", numbers [ 103; 104; 105 ]%float);
         ("low", numbers []);
         ("volume", numbers [ 10; 20; 30 ]%float) ].

Definition sample_chart : value :=
  envelope "chart"
    (VObj [ ("meta", sample_meta 105%float 100%float);
            ("timestamp", VArr sample_timestamps);
            ("indicators", VObj [ ("quote", VArr [ sample_indicators ]) ]) ]).

Definition sample_price (fields : list (string * value)) : value :=
  envelope "quoteSummary" (VObj [ ("price", VObj fields) ]).

(** A price module without [priceHint] and without [longName]. *)
Definition sample_fields : list (string * value) :=
  [ ("symbol", VStr "ACME");
    ("shortName", VStr "Acme Corp.");
    ("regularMarketPrice", raw 123.456%float);
    ("regularMarketDayHigh", raw 125%float);
    ("regularMarketDayLow", raw 121.5%float);
    ("regularMarketChangePercent", raw 0.0123%float);
    ("regularMarketVolume", raw 1000000%float);
    ("regularMarketTime", VNum 1600000000%float) ].

Definition sample_quote : value := sample_price sample_fields.

Definition sample_named_fields : list (string * value) :=
  ("longName", VStr "Acme Corporation") :: sample_fields.

(** The provider sends a day low and no day high, and the reverse. *)
Definition day_low_only : list (string * value) :=
  [ ("symbol", VStr "ACME"); ("regularMarketDayLow", raw 121.5%float) ].

Definition day_high_only : list (string * value) :=
  [ ("symbol", VStr "ACME"); ("regularMarketDayHigh", raw 125%float) ].

Definition sample_detail : value :=
  VObj [ ("priceHint", raw 4%float);
         ("currency", VStr "USD");
         ("beta", raw 1.25%float);
         ("dividendRate", raw 0.82%float);
         ("dividendYield", raw 0.0065%float);
         ("trailingAnnualDividendYield", raw 0.0061%float) ].

Definition sample_address : value :=
  VObj [ ("address1", VStr "1 Main St");
         ("city", VStr "Springfield");
         ("zip", VStr "00000");
         ("country", VStr "USA");
         ("fullTimeEmployees", VNum 12%float) ].

Definition sample_suite : value :=
  VObj [ ("address1", VStr "1 Main St");
         ("address2", VStr "Suite 4");
         ("city", VStr "Springfield");
         ("zip", VStr "00000");
         ("country", VStr "USA") ].

Definition company (profile : value) : value :=
  envelope "quoteSummary"
    (VObj [ ("summaryDetail", sample_detail); ("summaryProfile", profile) ]).

Definition sample_company : value := company sample_address.

(** An index whose components module lists no components. *)
Definition sample_components : value := VObj [ ("maxAge", VNum 1%float) ].

Definition sample_index : value :=
  envelope "quoteSummary"
    (VObj [ ("summaryDetail", sample_detail);
            ("components", sample_components) ]).

(* ===================================================================== *)
(** ** Notions for the further properties *)
(* ===================================================================== *)

Section Notions.
Context {host : Host}.

(** The rejection that a populated error envelope causes, when its
    description converts to a string. *)
Definition provider_error (kind : string) (resp : value) (e : exn) : Prop :=
  exists error description,
    error_envelope kind resp = Ok error
    /\ ToBoolean error = true
    /\ get error "description" = Ok description
    /\ convertible description = true
    /\ e = new_Error description.

(** A decimal count that [toFixed] refuses. *)
Definition out_of_range (decimals : value) : Prop :=
  forall x, Number_toFixed x decimals = Throw RangeError.

(** How a resolver can reject: the request fails, [JSON.parse] throws, or
    the callback throws an exception that [thrown] admits for the parsed
    response. *)
Definition rejects_with (url : string) (e : exn)
  (thrown : value -> exn -> Prop) : Prop :=
  httpRequestP url = Throw e
  \/ (exists text, httpRequestP url = Ok text /\ JSON_parse text = Throw e)
  \/ (exists resp, response url = Ok resp /\ thrown resp e).

End Notions.

(** A provider field that [resolveQuote] can format: absent, or with a
    number under [raw]. *)
Definition numeric_or_absent (v : value) : bool :=
  negb (ToBoolean v) || (typeof (prop v "raw") =? "number").

(** The price fields of [resolveQuote] that are guarded by themselves. *)
Definition price_fields : list string :=
  [ "regularMarketPrice"; "regularMarketDayHigh"; "regularMarketOpen";
    "regularMarketChange"; "regularMarketPreviousClose" ].

(** The fields of [summaryDetail] that [resolveProfile] multiplies by
    100, and the fields of [summaryProfile] that it writes into the
    address. *)
Definition yield_fields : list string :=
  [ "dividendYield"; "trailingAnnualDividendYield" ].

Definition address_fields : list string :=
  [ "address1"; "address2"; "city"; "zip"; "country" ].

(** The sign bit of a number, and whether it is one of the two zeros. *)
Definition negative (x : float) : bool :=
  match Prim2SF x with
  | S754_zero s | S754_infinity s | S754_finite s _ _ => s
  | S754_nan => false
  end.

Definition is_zero (x : float) : bool :=
  match Prim2SF x with
  | S754_zero _ => true
  | _ => false
  end.

(** *** Reading a numeral in fixed notation *)

Definition digit_of (c : ascii) : option (Decimal.uint -> Decimal.uint) :=
  if Ascii.eqb c "0" then Some Decimal.D0
  else if Ascii.eqb c "1" then Some Decimal.D1
  else if Ascii.eqb c "2" then Some Decimal.D2
  else if Ascii.eqb c "3" then Some Decimal.D3
  else if Ascii.eqb c "4" then Some Decimal.D4
  else if Ascii.eqb c "5" then Some Decimal.D5
  else if Ascii.eqb c "6" then Some Decimal.D6
  else if Ascii.eqb c "7" then Some Decimal.D7
  else if Ascii.eqb c "8" then Some Decimal.D8
  else if Ascii.eqb c "9" then Some Decimal.D9
  else None.

Fixpoint chars_uint (cs : list ascii) : option Decimal.uint :=
  match cs with
  | [] => Some Decimal.Nil
  | c :: cs' =>
      match digit_of c, chars_uint cs' with
      | Some d, Some u => Some (d u)
      | _, _ => None
      end
  end.

(** The magnitude of a numeral in fixed notation, counted in units of its
    last decimal: 1230 for ["-12.30"]; nothing when the text holds
    anything but digits, one sign in front and points. *)
Definition fixed_units (s : string) : option N :=
  let body := Num.unsigned (list_ascii_of_string s) in
  match chars_uint (filter (fun c => negb (Ascii.eqb c ".")) body) with
  | Some u => Some (N.of_uint u)
  | None => None
  end.

(** [n * 10^-p] is a decimal with [p] places nearest to [m * 2^e], the
    larger one when two are equally near: with [d = 2^-e] for a negative
    [e] and [d = 1] otherwise, [-d <= 2 * (m * 2^e * d * 10^p - n * d) < d]. *)
Definition nearest_decimal (m : positive) (e : Z) (p : nat) (n : N) : Prop :=
  let d := (2 ^ Z.max (- e) 0)%Z in
  let scaled := (Z.pos m * 2 ^ Z.max e 0 * 10 ^ Z.of_nat p)%Z in
  (- d <= 2 * (scaled - Z.of_N n * d) < d)%Z.

(** *** Further sample responses *)

(** A response whose list of results is empty. *)
Definition no_result (kind : string) : value :=
  VObj [ (kind, VObj [ ("result", VArr []); ("error", VNull) ]) ].

Definition chart_from (meta timestamp : value) (quotes : list value)
  : value :=
  envelope "chart"
    (VObj [ ("meta", meta);
            ("timestamp", timestamp);
            ("indicators", VObj [ ("quote", VArr quotes) ]) ]).

(** A quote without the [close] sequence. *)
Definition open_only : value :=
  VObj [ ("open", numbers [ 101; 102; 103 ]%float) ].

(** A [meta] without trading period, and one without market time. *)
Definition bare_meta : value :=
  VObj [ ("symbol", VStr "ACME");
         ("regularMarketPrice", VNum 105%float);
         ("previousClose", VNum 100%float) ].

Definition untimed_meta : value :=
  VObj [ ("symbol", VStr "ACME");
         ("regularMarketPrice", VNum 105%float);
         ("previousClose", VNum 100%float);
         ("currentTradingPeriod", VObj [ ("regular", sample_regular) ]) ].

(** A price hint that [toFixed] refuses. *)
Definition wide_hint : list (string * value) :=
  [ ("priceHint", raw 101%float); ("regularMarketPrice", raw 1%float) ].

(** A price sent as an empty object. *)
Definition hollow_price : list (string * value) :=
  [ ("symbol", VStr "ACME"); ("regularMarketPrice", VObj []) ].

(** A response without the [summaryDetail] module. *)
Definition profile_only : value :=
  envelope "quoteSummary" (VObj [ ("summaryProfile", sample_address) ]).

(** The sample index, sent with a [summaryProfile] module as well. *)
Definition sample_index_with_profile : value :=
  envelope "quoteSummary"
    (VObj [ ("summaryDetail", sample_detail);
            ("components", sample_components);
            ("summaryProfile", sample_address) ]).

(** An object that converts to no primitive: its own [toString] is no
    function. *)
Definition no_text : value := VObj [ ("toString", VNum 1%float) ].

(** A [meta] whose price does not convert. *)
Definition odd_meta : value :=
  VObj [ ("symbol", VStr "ACME");
         ("regularMarketPrice", no_text);
         ("previousClose", VNum 100%float);
         ("currentTradingPeriod", VObj [ ("regular", sample_regular) ]) ].

(** A price module whose market time does not convert, and a company
    whose city does not. *)
Definition odd_time : list (string * value) :=
  [ ("symbol", VStr "ACME"); ("regularMarketTime", no_text) ].

Definition odd_address : value :=
  VObj [ ("address1", VStr "1 Main St");
         ("city", no_text);
         ("zip", VStr "00000");
         ("country", VStr "USA") ].

(* ===================================================================== *)
(** ** Reasoning about completions *)
(* ===================================================================== *)

Lemma bind_Ok {A B : Type} (r : result A) (k : A -> result B) (b : B) :
  bind r k = Ok b -> exists a, r = Ok a /\ k a = Ok b.
Proof.
  destruct r as [a|e]; simpl; intros H; [eauto | discriminate].
Qed.

Lemma bind_assoc {A B C : Type} (r : result A) (k : A -> result B)
  (h : B -> result C) :
  bind (bind r k) h = bind r (fun a => bind (k a) h).
Proof. destruct r; reflexivity. Qed.

(** Splits a successful sequence [x <- e ;; k] in a hypothesis into the
    value of [e] and the rest. *)
Ltac step H :=
  match type of H with
  | Throw _ = Ok _ => discriminate H
  | bind (Ok _) _ = Ok _ => cbn [bind] in H
  | bind ?e _ = Ok _ =>
      let x := fresh "x" in
      let E := fresh "E" in
      destruct e as [x|] eqn:E; cbn [bind] in H; [| discriminate H]
  end.

Ltac steps H := repeat step H.

Section Response.
Context {host : Host}.

Lemma resolveChart_response (symbol range interval : string) :
  resolveChart symbol range interval
  = bind (response (chart_url symbol range interval)) resolveChart_then.
Proof. unfold resolveChart, response. now rewrite bind_assoc. Qed.

Lemma resolveQuote_response (symbol : string) :
  resolveQuote symbol = bind (response (quote_url symbol)) resolveQuote_then.
Proof. unfold resolveQuote, response. now rewrite bind_assoc. Qed.

Lemma resolveProfile_response (symbol : string) :
  resolveProfile symbol
  = bind (response (profile_url symbol)) (resolveProfile_then symbol).
Proof. unfold resolveProfile, response. now rewrite bind_assoc. Qed.

Lemma chart_error_rejects (resp error description : value) :
  error_envelope "chart" resp = Ok error ->
  ToBoolean error = true ->
  get error "description" = Ok description ->
  resolveChart_then resp = throw_new_Error description.
Proof.
  unfold error_envelope, resolveChart_then. intros He Ht Hd.
  destruct (get resp "chart") as [chart|]; [| discriminate].
  cbn [bind] in *. rewrite He. cbn [bind]. rewrite Ht, Hd. reflexivity.
Qed.

Lemma quote_error_rejects (resp error description : value) :
  error_envelope "quoteSummary" resp = Ok error ->
  ToBoolean error = true ->
  get error "description" = Ok description ->
  resolveQuote_then resp = throw_new_Error description.
Proof.
  unfold error_envelope, resolveQuote_then. intros He Ht Hd.
  destruct (get resp "quoteSummary") as [summary|]; [| discriminate].
  cbn [bind] in *. rewrite He. cbn [bind]. rewrite Ht, Hd. reflexivity.
Qed.

Lemma profile_error_rejects (symbol : string) (resp error description : value) :
  error_envelope "quoteSummary" resp = Ok error ->
  ToBoolean error = true ->
  get error "description" = Ok description ->
  resolveProfile_then symbol resp = throw_new_Error description.
Proof.
  unfold error_envelope, resolveProfile_then. intros He Ht Hd.
  destruct (get resp "quoteSummary") as [summary|]; [| discriminate].
  cbn [bind] in *. rewrite He. cbn [bind]. rewrite Ht, Hd. reflexivity.
Qed.

(** A resolver that fulfils met no populated error envelope. *)
Lemma fulfilled_no_error (kind : string) (resp : value) (A : Type)
  (k : value -> result A) (a : A) :
  (chart <- get resp kind ;;
   error <- get chart "error" ;;
   if ToBoolean error then
     description <- get error "description" ;; throw_new_Error description
   else k chart)%js = Ok a ->
  exists container error,
    get resp kind = Ok container /\ get container "error" = Ok error
    /\ ToBoolean error = false /\ k container = Ok a.
Proof.
  intros H. steps H.
  destruct (ToBoolean x0) eqn:C; [| eauto 6].
  unfold throw_new_Error in H. steps H.
Qed.

End Response.

(** Reads of the response: opens the path definitions in the hypotheses
    and names every intermediate value once. *)
Ltac open_paths :=
  unfold error_envelope, chart_part, chart_quote, module_of, first_result,
    first_quote, get2 in *;
  repeat match goal with
    | H : Ok _ = Ok _ |- _ => injection H as H; try subst
    | H : bind ?e _ = Ok _, E : ?e = Ok _ |- _ =>
        rewrite E in H; cbn [bind] in H
    | H : bind ?e _ = Ok _ |- _ => step H
    | H : ?e = Ok ?a, E : ?e = Ok ?b |- _ =>
        lazymatch a with
        | b => fail
        | _ => rewrite E in H
        end
    end.

(** Replays in the goal the reads whose value is known. *)
Ltac replay :=
  repeat first
    [ progress cbn [bind]
    | match goal with
      | E : ?e = Ok _ |- context [bind ?e _] => rewrite E
      | E : ?c = _ |- context [if ?c then _ else _] => rewrite E
      end ].

Lemma append_assoc (a b c : string) : (a ++ b) ++ c = a ++ (b ++ c).
Proof. induction a as [|ch a IH]; simpl; [reflexivity | now rewrite IH]. Qed.

Section Reads.

Lemma get_total (v a : value) (k k' : string) :
  get v k = Ok a -> exists a', get v k' = Ok a'.
Proof. destruct v; simpl; intros H; try discriminate; eauto. Qed.

Lemma get_nullish (v : value) (k : string) :
  nullish v = false -> exists a, get v k = Ok a.
Proof. destruct v; simpl; intros H; try discriminate; eauto. Qed.

Lemma get_array_length (elems : list value) :
  get (VArr elems) "length"
  = Ok (VNum (Num.of_Z (Z.of_nat (List.length elems)))).
Proof. reflexivity. Qed.

Lemma get_prop (v a : value) (k k' : string) :
  get v k = Ok a -> get v k' = Ok (prop v k').
Proof.
  unfold prop. destruct v; simpl; intros H; try discriminate; reflexivity.
Qed.

Lemma prop_get (v a : value) (k : string) : get v k = Ok a -> prop v k = a.
Proof. unfold prop. now intros ->. Qed.

Lemma get_truthy (v : value) (k : string) :
  ToBoolean v = true -> get v k = Ok (prop v k).
Proof.
  intros Hv. destruct (get v k) as [a|] eqn:E.
  - now rewrite (prop_get _ _ _ E).
  - destruct v; discriminate.
Qed.

Lemma get_index_array (entries : list value) (i : nat) :
  get_index (VArr entries) i = Ok (nth i entries VUndefined).
Proof. reflexivity. Qed.

Lemma map_indexed_Ok (f : value -> nat -> result value)
  (elems : list value) :
  forall (idx : nat) (bars : list value),
    map_indexed f idx elems = Ok bars ->
    List.length bars = List.length elems
    /\ forall i t, nth_error elems i = Some t ->
         exists bar, nth_error bars i = Some bar /\ f t (idx + i) = Ok bar.
Proof.
  induction elems as [|x rest IH]; intros idx bars H; simpl in H.
  - injection H as <-. split; [reflexivity |].
    intros [|i] t Hn; discriminate.
  - steps H. injection H as <-.
    destruct (IH _ _ E0) as [Hl Hn]. split; [simpl; now rewrite Hl |].
    intros [|i] t Ht; simpl in Ht.
    + injection Ht as <-. exists x0. now rewrite Nat.add_0_r.
    + destruct (Hn i t Ht) as (bar & Hb & Hf). exists bar. split; [exact Hb |].
      now rewrite <- Nat.add_succ_comm.
Qed.

Lemma map_indexed_total (f : value -> nat -> result value)
  (elems : list value) :
  (forall t i, In t elems -> exists bar, f t i = Ok bar) ->
  forall idx, exists bars, map_indexed f idx elems = Ok bars.
Proof.
  induction elems as [|x rest IH]; intros Hf idx; simpl.
  - eauto.
  - destruct (Hf x idx) as [bar ->]; [now left |].
    destruct (IH (fun t i Hin => Hf t i (or_intror Hin)) (S idx))
      as [bars ->].
    simpl. eauto.
Qed.

End Reads.

(* ===================================================================== *)
(** ** The text of [toFixed] *)
(* ===================================================================== *)

Module NumFacts.
Import Digits Num.

Lemma chars_app (a b : string) :
  list_ascii_of_string (a ++ b)
  = (list_ascii_of_string a ++ list_ascii_of_string b)%list.
Proof. induction a as [|c a IH]; simpl; [reflexivity | now rewrite IH]. Qed.

Lemma chars_text (cs : list ascii) : list_ascii_of_string (text cs) = cs.
Proof. apply list_ascii_of_string_of_list_ascii. Qed.

Lemma uint_chars_digits (d : Decimal.uint) : all_digits (uint_chars d) = true.
Proof. induction d; simpl; auto. Qed.

Lemma uint_chars_nil (d : Decimal.uint) : uint_chars d = [] -> d = Decimal.Nil.
Proof. destruct d; simpl; intros H; [reflexivity | discriminate ..]. Qed.

Lemma digits_all (n : N) : all_digits (digits n) = true.
Proof. apply uint_chars_digits. Qed.

Lemma digits_nonempty (n : N) : digits n <> [].
Proof.
  unfold digits. intros H. apply uint_chars_nil in H.
  destruct n as [|p]; simpl in H; [discriminate |].
  now apply (DecimalPos.Unsigned.to_uint_nonnil p).
Qed.

Lemma all_digits_app (a b : list ascii) :
  all_digits (a ++ b) = all_digits a && all_digits b.
Proof. apply forallb_app. Qed.

Lemma all_digits_zeros (k : nat) : all_digits (repeat "0"%char k) = true.
Proof. induction k; simpl; auto. Qed.

Lemma all_digits_firstn (k : nat) (cs : list ascii) :
  all_digits cs = true -> all_digits (firstn k cs) = true.
Proof.
  intros H. rewrite <- (firstn_skipn k cs), all_digits_app in H.
  now apply andb_true_iff in H.
Qed.

Lemma all_digits_skipn (k : nat) (cs : list ascii) :
  all_digits cs = true -> all_digits (skipn k cs) = true.
Proof.
  intros H. rewrite <- (firstn_skipn k cs), all_digits_app in H.
  now apply andb_true_iff in H.
Qed.

Lemma unsigned_digits (cs : list ascii) :
  cs <> [] -> all_digits (firstn 1 cs) = true -> unsigned cs = cs.
Proof.
  destruct cs as [|c r]; [congruence |]. simpl. intros _ H.
  destruct (Ascii.eqb_spec c "-"); [subst; discriminate | reflexivity].
Qed.

(** The shape of a numeral: digits [a], then a point and [S f] digits. *)
Lemma pointed_has_decimals (sign : bool) (a b : list ascii) (f : nat) :
  a <> [] -> all_digits a = true -> all_digits b = true ->
  List.length b = S f ->
  has_decimals (S f)
    (Num.sign sign ++ text a ++ "." ++ text b) = true.
Proof.
  intros Ha Da Db Lb. unfold has_decimals.
  assert (Hbody : unsigned (list_ascii_of_string
                    (Num.sign sign ++ text a ++ "." ++ text b))
                  = (a ++ "."%char :: b)%list).
  { rewrite !chars_app, !chars_text. destruct sign; simpl.
    - reflexivity.
    - apply unsigned_digits.
      + destruct a; [congruence | discriminate].
      + destruct a as [|c a]; [congruence |]. simpl in *.
        apply andb_true_iff in Da. now rewrite (proj1 Da). }
  rewrite Hbody.
  assert (Hl : List.length (a ++ "."%char :: b)%list
               = (List.length a + S (S f))%nat).
  { rewrite length_app. simpl. lia. }
  rewrite Hl.
  replace (List.length a + S (S f) - S (S f))%nat with (List.length a) by lia.
  assert (0 < List.length a)%nat by (destruct a; [congruence | simpl; lia]).
  rewrite firstn_app, Nat.sub_diag, firstn_all. simpl firstn.
  rewrite app_nil_r, Da.
  rewrite nth_error_app2, Nat.sub_diag by lia. simpl nth_error.
  replace (S (List.length a)) with (List.length a + 1)%nat by lia.
  rewrite skipn_app, skipn_all2 by lia.
  replace (List.length a + 1 - List.length a)%nat with 1%nat by lia.
  simpl. rewrite Db.
  destruct (S (S f) <? List.length a + S (S f))%nat eqn:E; [reflexivity |].
  apply Nat.ltb_ge in E. lia.
Qed.

Lemma fixed_text_has_decimals (sign : bool) (n : N) (p : nat) :
  has_decimals p (Num.sign sign ++ Num.fixed_text n p) = true.
Proof.
  destruct p as [|f].
  - unfold has_decimals, Num.fixed_text.
    assert (Hbody : unsigned (list_ascii_of_string
                      (Num.sign sign ++ text (digits n))) = digits n).
    { rewrite chars_app, chars_text. destruct sign; simpl; [reflexivity |].
      apply unsigned_digits; [apply digits_nonempty |].
      apply all_digits_firstn, digits_all. }
    rewrite Hbody, digits_all.
    pose proof (digits_nonempty n) as Hn.
    destruct (digits n); [congruence | reflexivity].
  - unfold Num.fixed_text.
    set (m := (repeat "0"%char (S (S f) - List.length (digits n))
               ++ digits n)%list).
    assert (Dm : all_digits m = true).
    { unfold m. now rewrite all_digits_app, all_digits_zeros, digits_all. }
    assert (Lm : (S (S f) <= List.length m)%nat).
    { unfold m. rewrite length_app, repeat_length. lia. }
    apply pointed_has_decimals.
    + intros H. apply (f_equal (@List.length ascii)) in H.
      rewrite length_firstn in H. simpl in H. lia.
    + now apply all_digits_firstn.
    + now apply all_digits_skipn.
    + rewrite length_skipn. lia.
Qed.

(** In its fixed range [toFixed] writes exactly [p] decimals. *)
Lemma toFixed_has_decimals (x : float) (p : nat) :
  Num.fixed_range x = true -> has_decimals p (Num.toFixed x p) = true.
Proof.
  unfold Num.fixed_range, Num.toFixed.
  destruct (Prim2SF x) as [s| s | | s m e]; try discriminate.
  - intros _. apply (fixed_text_has_decimals false).
  - intros H. apply negb_true_iff in H. rewrite H.
    apply fixed_text_has_decimals.
Qed.
End NumFacts.

(** The renderings at work, on the corner cases of [toFixed]. *)
Example toFixed_rounds_half_up : Num.toFixed 2.5%float 0 = "3".
Proof. reflexivity. Qed.

Example toFixed_exact_value : Num.toFixed 1.005%float 2 = "1.00".
Proof. reflexivity. Qed.

Example toFixed_negative_zero : Num.toFixed (-0.001)%float 2 = "-0.00".
Proof. reflexivity. Qed.

Example toFixed_not_finite :
  Num.toFixed (1 / 0)%float 2 = "Infinity"
  /\ Num.toFixed (0 / 0)%float 2 = "NaN".
Proof. split; reflexivity. Qed.

(** From 10^21 on [toFixed] answers in exponent notation, without the
    decimals asked for. *)
Example toFixed_1e21 :
  Num.toFixed 1e21%float 2 = "1e+21"
  /\ Num.has_decimals 2 (Num.toFixed 1e21%float 2) = false
  /\ Num.toFixed 999999999999999900000%float 2 = "999999999999999868928.00".
Proof. repeat split; reflexivity. Qed.

Example toString_shortest :
  Num.toString 0.1%float = "0.1"
  /\ Num.toString (0.1 + 0.2)%float = "0.30000000000000004"
  /\ Num.toString 123.456%float = "123.456"
  /\ Num.toString 1e21%float = "1e+21"
  /\ Num.toString 0.000001%float = "0.000001"
  /\ Num.toString 0.0000001%float = "1e-7"
  /\ Num.toString (-12345)%float = "-12345".
Proof. repeat split; reflexivity. Qed.

Arguments Num.toFixed : simpl never.
Arguments Num.toString : simpl never.
Arguments Num.TimeClip : simpl never.

Section Conversions.
Context {host : Host}.

Lemma coerce_Ok (v x : value) :
  coerce v = Ok x -> x = v /\ convertible v = true.
Proof.
  unfold coerce. destruct (convertible v); [| discriminate].
  intros H. injection H as <-. auto.
Qed.

Lemma coerce_Throw (v : value) (e : exn) :
  coerce v = Throw e -> e = TypeError /\ convertible v = false.
Proof.
  unfold coerce. destruct (convertible v); [discriminate |].
  intros H. injection H as <-. auto.
Qed.

Lemma coerce_convertible (v : value) :
  convertible v = true -> coerce v = Ok v.
Proof. unfold coerce. now intros ->. Qed.

(** An operator completes exactly when both operands convert. *)
Lemma op_minus_Ok (a b r : value) :
  op_minus a b = Ok r ->
  r = minus a b /\ convertible a = true /\ convertible b = true.
Proof.
  unfold op_minus, coerce.
  destruct (convertible a); [| discriminate].
  destruct (convertible b); [| discriminate].
  cbn [bind]. intros H. injection H as <-. auto.
Qed.

Lemma op_times_Ok (a b r : value) :
  op_times a b = Ok r ->
  r = times a b /\ convertible a = true /\ convertible b = true.
Proof.
  unfold op_times, coerce.
  destruct (convertible a); [| discriminate].
  destruct (convertible b); [| discriminate].
  cbn [bind]. intros H. injection H as <-. auto.
Qed.

Lemma op_divide_Ok (a b r : value) :
  op_divide a b = Ok r ->
  r = divide a b /\ convertible a = true /\ convertible b = true.
Proof.
  unfold op_divide, coerce.
  destruct (convertible a); [| discriminate].
  destruct (convertible b); [| discriminate].
  cbn [bind]. intros H. injection H as <-. auto.
Qed.

Lemma op_plus_string_Ok (a r : value) (b : string) :
  op_plus_string a b = Ok r ->
  r = plus_string a b /\ convertible a = true.
Proof.
  unfold op_plus_string, coerce.
  destruct (convertible a); [| discriminate].
  cbn [bind]. intros H. injection H as <-. auto.
Qed.

Lemma op_minus_convertible (a b : value) :
  convertible a = true -> convertible b = true ->
  op_minus a b = Ok (minus a b).
Proof. unfold op_minus, coerce. now intros -> ->. Qed.

Lemma op_times_convertible (a b : value) :
  convertible a = true -> convertible b = true ->
  op_times a b = Ok (times a b).
Proof. unfold op_times, coerce. now intros -> ->. Qed.

Lemma op_divide_convertible (a b : value) :
  convertible a = true -> convertible b = true ->
  op_divide a b = Ok (divide a b).
Proof. unfold op_divide, coerce. now intros -> ->. Qed.

Lemma op_plus_string_convertible (a : value) (b : string) :
  convertible a = true -> op_plus_string a b = Ok (plus_string a b).
Proof. unfold op_plus_string, coerce. now intros ->. Qed.

(** An operator throws nothing but a [TypeError]. *)
Lemma op_minus_Throw (a b : value) (e : exn) :
  op_minus a b = Throw e -> e = TypeError.
Proof.
  unfold op_minus, coerce.
  destruct (convertible a); [| now intros [= <-]].
  destruct (convertible b); [discriminate | now intros [= <-]].
Qed.

Lemma op_times_Throw (a b : value) (e : exn) :
  op_times a b = Throw e -> e = TypeError.
Proof.
  unfold op_times, coerce.
  destruct (convertible a); [| now intros [= <-]].
  destruct (convertible b); [discriminate | now intros [= <-]].
Qed.

Lemma op_divide_Throw (a b : value) (e : exn) :
  op_divide a b = Throw e -> e = TypeError.
Proof.
  unfold op_divide, coerce.
  destruct (convertible a); [| now intros [= <-]].
  destruct (convertible b); [discriminate | now intros [= <-]].
Qed.

Lemma op_plus_string_Throw (a : value) (b : string) (e : exn) :
  op_plus_string a b = Throw e -> e = TypeError.
Proof.
  unfold op_plus_string, coerce.
  destruct (convertible a); [discriminate | now intros [= <-]].
Qed.

(** A number, a string, a boolean, [undefined] and [null] convert. *)
Lemma typeof_convertible (v : value) :
  typeof v <> "object" -> convertible v = true.
Proof. destruct v; simpl; intros H; try reflexivity; now elim H. Qed.

End Conversions.

(** Replaces the result of every completed operator by its value. *)
Ltac settle_ops :=
  repeat match goal with
    | E : op_minus _ _ = Ok _ |- _ => apply op_minus_Ok in E as (-> & ? & ?)
    | E : op_times _ _ = Ok _ |- _ => apply op_times_Ok in E as (-> & ? & ?)
    | E : op_divide _ _ = Ok _ |- _ => apply op_divide_Ok in E as (-> & ? & ?)
    | E : op_plus_string _ _ = Ok _ |- _ =>
        apply op_plus_string_Ok in E as (-> & ?)
    | E : coerce _ = Ok _ |- _ => apply coerce_Ok in E as (-> & ?)
    end.

Section ToFixed.
Context {host : Host}.

Lemma ToInteger_2 : Num.ToIntegerOrInfinity 2%float = Num.Int 2.
Proof. reflexivity. Qed.

(** [x.toFixed(2)] never throws. *)
Lemma Number_toFixed_2 (x : float) :
  Number_toFixed x (VNum 2%float) = Ok (VStr (Num.toFixed x 2)).
Proof.
  unfold Number_toFixed, coerce. cbn [convertible bind ToNumber].
  now rewrite ToInteger_2.
Qed.

Lemma toFixed_times_2 (a b : value) :
  toFixed (times a b) (VNum 2%float)
  = Ok (VStr (Num.toFixed (PrimFloat.mul (ToNumber a) (ToNumber b)) 2)).
Proof. apply Number_toFixed_2. Qed.

(** [x.toFixed(d)] for a number [d] whose integer part is [p <= 100]. *)
Lemma Number_toFixed_in_range (x d : float) (p : nat) :
  Num.ToIntegerOrInfinity d = Num.Int (Z.of_nat p) -> (p <= 100)%nat ->
  Number_toFixed x (VNum d) = Ok (VStr (Num.toFixed x p)).
Proof.
  intros Hd Hp. unfold Number_toFixed, coerce.
  cbn [convertible bind ToNumber]. rewrite Hd.
  destruct (Z.ltb_spec (Z.of_nat p) 0); [lia |].
  destruct (Z.ltb_spec 100 (Z.of_nat p)); [lia |].
  simpl orb. cbv iota. now rewrite Nat2Z.id.
Qed.

(** [x.toFixed(d)] for a number [d] outside of 0..100. *)
Lemma Number_toFixed_out_of_range (x d : float) (z : Z) :
  Num.ToIntegerOrInfinity d = Num.Int z -> (z < 0 \/ 100 < z)%Z ->
  Number_toFixed x (VNum d) = Throw RangeError.
Proof.
  intros Hd Hz. unfold Number_toFixed, coerce.
  cbn [convertible bind ToNumber]. rewrite Hd.
  destruct (Z.ltb_spec z 0); [reflexivity |].
  destruct (Z.ltb_spec 100 z); [reflexivity | lia].
Qed.

End ToFixed.

(* ===================================================================== *)
(** ** Provider errors *)
(* ===================================================================== *)

Section ProviderError.
Context {host : Host}.

(** C3. A response whose error envelope is populated ([chart.error] for
    [resolveChart], [quoteSummary.error] for [resolveQuote] and
    [resolveProfile]) makes the resolver fail with an [Error] whose
    message is the envelope's [description]. *)
Theorem provider_error_rejected
  (symbol range interval : string) (resp error : value)
  (description : string) :
  ToBoolean error = true ->
  get error "description" = Ok (VStr description) ->
  (response (chart_url symbol range interval) = Ok resp ->
   error_envelope "chart" resp = Ok error ->
   resolveChart symbol range interval = Throw (Error description))
  /\ (response (quote_url symbol) = Ok resp ->
      error_envelope "quoteSummary" resp = Ok error ->
      resolveQuote symbol = Throw (Error description))
  /\ (response (profile_url symbol) = Ok resp ->
      error_envelope "quoteSummary" resp = Ok error ->
      resolveProfile symbol = Throw (Error description)).
Proof.
  intros Ht Hd. repeat split; intros Hr He.
  - rewrite resolveChart_response, Hr. cbn [bind].
    now rewrite (chart_error_rejects _ _ _ He Ht Hd).
  - rewrite resolveQuote_response, Hr. cbn [bind].
    now rewrite (quote_error_rejects _ _ _ He Ht Hd).
  - rewrite resolveProfile_response, Hr. cbn [bind].
    now rewrite (profile_error_rejects _ _ _ _ He Ht Hd).
Qed.

(** Whatever the description holds, the message is its text, and the
    empty text when the envelope has no description; a description
    that does not convert gives a [TypeError] instead. *)
Lemma provider_error_message (symbol : string) (resp error d : value) :
  response (quote_url symbol) = Ok resp ->
  error_envelope "quoteSummary" resp = Ok error ->
  ToBoolean error = true ->
  get error "description" = Ok d ->
  resolveQuote symbol
  = if convertible d then
      Throw (Error (match d with VUndefined => "" | _ => ToString d end))
    else Throw TypeError.
Proof.
  intros Hr He Ht Hd. rewrite resolveQuote_response, Hr. cbn [bind].
  rewrite (quote_error_rejects _ _ _ He Ht Hd).
  unfold throw_new_Error, coerce.
  destruct (convertible d); [now destruct d | reflexivity].
Qed.

End ProviderError.

Lemma provider_error_rejected_witness :
  @resolveChart (serving (failure "chart" "No data found"))
    "ACME" "1d" "1m"
  = Throw (Error "No data found")
  /\ @resolveQuote (serving (failure "quoteSummary" "Quote not found"))
       "ACME"
     = Throw (Error "Quote not found")
  /\ @resolveProfile (serving (failure "quoteSummary" "Quote not found"))
       "ACME"
     = Throw (Error "Quote not found").
Proof.
  split; [| split].
  - apply (proj1 (@provider_error_rejected
                    (serving (failure "chart" "No data found"))
                    "ACME" "1d" "1m" (failure "chart" "No data found")
                    (sample_error "No data found") "No data found"
                    eq_refl eq_refl));
      reflexivity.
  - apply (proj1 (proj2 (@provider_error_rejected
                    (serving (failure "quoteSummary" "Quote not found"))
                    "ACME" "1d" "1m" (failure "quoteSummary" "Quote not found")
                    (sample_error "Quote not found") "Quote not found"
                    eq_refl eq_refl)));
      reflexivity.
  - apply (proj2 (proj2 (@provider_error_rejected
                    (serving (failure "quoteSummary" "Quote not found"))
                    "ACME" "1d" "1m" (failure "quoteSummary" "Quote not found")
                    (sample_error "Quote not found") "Quote not found"
                    eq_refl eq_refl)));
      reflexivity.
Defined.

(* ===================================================================== *)
(** ** Charts *)
(* ===================================================================== *)

Section Chart.
Context {host : Host}.

Lemma chart_bar_Ok (quote t bar : value) (i : nat) :
  chart_bar quote t i = Ok bar ->
  get bar "timestamp" = Ok (VNum (PrimFloat.mul (ToNumber t) 1000%float))
  /\ forall name entries,
       In name indicators -> get quote name = Ok (VArr entries) ->
       get bar name = Ok (nth i entries VUndefined).
Proof.
  unfold chart_bar. intros H. step H.
  apply op_times_Ok in E as (-> & _ & _).
  steps H. injection H as <-.
  split; [reflexivity |].
  intros name entries Hin Hq.
  repeat (destruct Hin as [<- | Hin];
          [rewrite Hq in *; unfold get_index in *; open_paths; reflexivity |]).
  destruct Hin.
Qed.

Lemma chart_bar_total (quote t : value) (i : nat) :
  (forall name, In name indicators ->
     exists entries, get quote name = Ok (VArr entries)) ->
  convertible t = true ->
  exists bar, chart_bar quote t i = Ok bar.
Proof.
  intros Hq Ht. unfold chart_bar.
  rewrite op_times_convertible by (assumption || reflexivity). cbn [bind].
  destruct (Hq "open") as [? ->]; [simpl; auto |].
  destruct (Hq "close") as [? ->]; [simpl; auto |].
  destruct (Hq "high") as [? ->]; [simpl; auto |].
  destruct (Hq "low") as [? ->]; [simpl; auto 6 |].
  destruct (Hq "volume") as [? ->]; [simpl; auto 6 |].
  cbn [bind get_index]. eauto.
Qed.

(** What a fulfilled [resolveChart] has read. *)
Lemma resolveChart_then_Ok (resp r : value) :
  resolveChart_then resp = Ok r ->
  exists error meta quote timestamp,
    error_envelope "chart" resp = Ok error /\ ToBoolean error = false
    /\ chart_part "meta" resp = Ok meta
    /\ chart_quote resp = Ok quote
    /\ chart_part "timestamp" resp = Ok timestamp
    /\ chart_record meta quote timestamp = Ok r.
Proof.
  unfold resolveChart_then. intros H.
  apply fulfilled_no_error in H as (chart & error & Hc & He & Hf & H).
  steps H. exists error, x1, x4, x5.
  unfold error_envelope, chart_part, chart_quote, first_result, first_quote.
  replay. auto 10.
Qed.

(** C2. The timeseries of a fulfilled [resolveChart] has one bar per
    timestamp of the response; the bar at an index has the timestamp at
    that index times 1000, and a field of a bar is the entry of its
    sequence at that index, [undefined] where the sequence has none.
    Sequences of any length leave the chart fulfilled, as long as the
    prices, the market time and the timestamps convert to numbers (as
    numbers, strings, booleans and [null] do: a value that does not
    makes the arithmetic of lines 65-67 and 77 throw). *)
Theorem resolveChart_timeseries
  (symbol range interval : string) (resp : value) :
  response (chart_url symbol range interval) = Ok resp ->
  (forall r, resolveChart symbol range interval = Ok r ->
     exists quote timestamps bars,
       chart_quote resp = Ok quote
       /\ chart_part "timestamp" resp = Ok (VArr timestamps)
       /\ get r "timeseries" = Ok (VArr bars)
       /\ List.length bars = List.length timestamps
       /\ forall i t, nth_error timestamps i = Some t ->
            exists bar,
              nth_error bars i = Some bar
              /\ get bar "timestamp"
                 = Ok (VNum (PrimFloat.mul (ToNumber t) 1000%float))
              /\ forall name entries,
                   In name indicators ->
                   get quote name = Ok (VArr entries) ->
                   get bar name = Ok (nth i entries VUndefined))
  /\ (forall error meta regular quote timestamps,
        error_envelope "chart" resp = Ok error ->
        ToBoolean error = false ->
        chart_part "meta" resp = Ok meta ->
        get2 meta "currentTradingPeriod" "regular" = Ok regular ->
        nullish regular = false ->
        chart_quote resp = Ok quote ->
        chart_part "timestamp" resp = Ok (VArr timestamps) ->
        (forall name, In name indicators ->
           exists entries, get quote name = Ok (VArr entries)) ->
        convertible (prop meta "regularMarketPrice") = true ->
        convertible (prop meta "previousClose") = true ->
        convertible (prop meta "regularMarketTime") = true ->
        (forall t, In t timestamps -> convertible t = true) ->
        exists r, resolveChart symbol range interval = Ok r).
Proof.
  intros Hr. rewrite resolveChart_response, Hr. cbn [bind]. split.
  - intros r H.
    apply resolveChart_then_Ok in H
      as (error & meta & quote & timestamp & He & Hf & Hm & Hq & Ht & H).
    unfold chart_record in H. steps H. injection H as <-.
    unfold Array_map in *.
    destruct timestamp as [| | | | | timestamps | |]; try discriminate.
    match goal with
    | E : bind (map_indexed _ _ _) _ = Ok _ |- _ => steps E; injection E as <-
    end.
    match goal with
    | E : map_indexed _ _ _ = Ok ?bars |- _ =>
        apply map_indexed_Ok in E as [Hl Hn]; exists quote, timestamps, bars
    end.
    repeat split; auto.
    intros i t Hi. destruct (Hn i t Hi) as (bar & Hb & Hbar).
    exists bar. split; [exact Hb |]. now apply chart_bar_Ok.
  - intros error meta regular quote timestamps He Hf Hm Hreg Hn Hq Ht Hi
      Hprice Hprevious Htime Hts.
    unfold resolveChart_then, chart_record. open_paths. replay.
    rewrite get_array_length. replay.
    match goal with
    | E : get _ "currentTradingPeriod" = Ok ?period |- _ =>
        pose proof (prop_get _ _ _ E) as Hperiod;
        rewrite !(get_prop _ _ _ _ E), ?Hperiod
    end.
    cbn [bind].
    rewrite !(op_minus_convertible _ _ Hprice Hprevious). cbn [bind].
    rewrite op_divide_convertible by (assumption || reflexivity).
    cbn [bind].
    rewrite op_times_convertible by reflexivity. cbn [bind].
    rewrite toFixed_times_2. cbn [bind].
    rewrite op_times_convertible by (assumption || reflexivity). replay.
    destruct (get_nullish regular "start" Hn) as [? ->].
    destruct (get_nullish regular "end" Hn) as [? ->].
    unfold Array_map.
    destruct (map_indexed_total (chart_bar quote) timestamps
                (fun t i Hin => chart_bar_total quote t i Hi (Hts t Hin)) 0)
      as [bars ->].
    replay. eauto.
Qed.

End Chart.

Lemma resolveChart_timeseries_witness :
  exists r bars,
    @resolveChart (serving sample_chart) "ACME" "1d" "1m" = Ok r
    /\ get r "timeseries" = Ok (VArr bars)
    /\ List.length bars = 3%nat.
Proof.
  destruct (@resolveChart_timeseries (serving sample_chart)
              "ACME" "1d" "1m" sample_chart eq_refl) as [HA HB].
  assert (Hq : forall name, In name indicators ->
                 exists entries, get sample_indicators name = Ok (VArr entries)).
  { intros name Hin.
    repeat (destruct Hin as [<- | Hin]; [eexists; reflexivity |]).
    destruct Hin. }
  assert (Hts : forall t, In t sample_timestamps -> convertible t = true).
  { intros t Hin.
    repeat (destruct Hin as [<- | Hin]; [reflexivity |]). destruct Hin. }
  destruct (HB VNull (sample_meta 105%float 100%float) sample_regular
              sample_indicators sample_timestamps
              eq_refl eq_refl eq_refl eq_refl eq_refl eq_refl eq_refl
              Hq eq_refl eq_refl eq_refl Hts)
    as [r Hr].
  destruct (HA r Hr) as (quote & ts & bars & _ & Ht & Hts' & Hl & _).
  exists r, bars. split; [exact Hr |]. split; [exact Hts' |].
  rewrite Hl. injection Ht as <-. reflexivity.
Defined.

Section ChartRecord.
Context {host : Host}.

(** What [chart_record] has read when it returns, and what it returns. *)
Lemma chart_record_Ok (meta quote timestamp r : value) :
  chart_record meta quote timestamp = Ok r ->
  exists symbol currency instrumentType exchangeName price previous time
         timezone timezoneName period regular start end_ timeseries,
    get meta "symbol" = Ok symbol
    /\ get meta "currency" = Ok currency
    /\ get meta "instrumentType" = Ok instrumentType
    /\ get meta "exchangeName" = Ok exchangeName
    /\ get meta "regularMarketPrice" = Ok price
    /\ get meta "previousClose" = Ok previous
    /\ get meta "regularMarketTime" = Ok time
    /\ get meta "timezone" = Ok timezone
    /\ get meta "exchangeTimezoneName" = Ok timezoneName
    /\ get meta "currentTradingPeriod" = Ok period
    /\ get period "regular" = Ok regular
    /\ get regular "start" = Ok start
    /\ get regular "end" = Ok end_
    /\ Array_map timestamp (chart_bar quote) = Ok timeseries
    /\ r = object_literal
             (chart_fields symbol currency instrumentType exchangeName
                price previous (minus price previous)
                (VStr (Num.toFixed
                         (PrimFloat.mul
                            (PrimFloat.div
                               (PrimFloat.sub (ToNumber price)
                                  (ToNumber previous))
                               (ToNumber previous))
                            100%float)
                         2))
                (new_Date (times time (VNum 1000%float)))
                (object_literal
                   [ ("timezone", timezone);
                     ("timezoneName", timezoneName);
                     ("tradingPeriod",
                       object_literal [ ("start", start); ("end", end_) ]) ])
                timeseries).
Proof.
  unfold chart_record. intros H.
  do 10 step H. settle_ops. rewrite toFixed_times_2 in *.
  steps H. settle_ops. injection H as <-.
  match goal with
  | E : Ok _ = Ok _ |- _ => injection E as <-
  end.
  do 14 eexists. repeat (split; [eassumption || reflexivity |]). reflexivity.
Qed.

(** C6. In the record of a fulfilled [resolveChart], [priceChange] is
    [regularMarketPrice - previousClose] and [priceChangePercentage] is
    [(regularMarketPrice - previousClose) / previousClose * 100] written
    by [toFixed(2)]: two decimals whenever that number is finite and
    below 10^21.  For 105 and 100 they are 5 and "5.00". *)
Theorem resolveChart_priceChange
  (symbol range interval : string) (resp r meta price previous : value) :
  response (chart_url symbol range interval) = Ok resp ->
  resolveChart symbol range interval = Ok r ->
  chart_part "meta" resp = Ok meta ->
  get meta "regularMarketPrice" = Ok price ->
  get meta "previousClose" = Ok previous ->
  let change := PrimFloat.sub (ToNumber price) (ToNumber previous) in
  let percentage :=
    PrimFloat.mul (PrimFloat.div change (ToNumber previous)) 100%float in
  get r "priceChange" = Ok (VNum change)
  /\ get r "priceChangePercentage" = Ok (VStr (Num.toFixed percentage 2))
  /\ (Num.fixed_range percentage = true ->
      Num.has_decimals 2 (Num.toFixed percentage 2) = true)
  /\ (price = VNum 105%float -> previous = VNum 100%float ->
      get r "priceChange" = Ok (VNum 5%float)
      /\ get r "priceChangePercentage" = Ok (VStr "5.00")).
Proof.
  intros Hr H Hm Hp Hc change percentage.
  rewrite resolveChart_response, Hr in H. cbn [bind] in H.
  apply resolveChart_then_Ok in H
    as (error & meta' & quote & timestamp & He & Hf & Hm' & Hq & Ht & H).
  rewrite Hm in Hm'. injection Hm' as <-.
  apply chart_record_Ok in H
    as (sy & cu & ins & exn & price' & previous' & tm & tz & tzn & per & reg
        & st & en & ts & _ & _ & _ & _ & Hp' & Hc' & _ & _ & _ & _ & _ & _
        & _ & _ & ->).
  rewrite Hp in Hp'. injection Hp' as <-.
  rewrite Hc in Hc'. injection Hc' as <-.
  split; [reflexivity |]. split; [reflexivity |].
  split; [apply NumFacts.toFixed_has_decimals |].
  intros -> ->. split; reflexivity.
Qed.

End ChartRecord.

Lemma resolveChart_priceChange_witness :
  exists r,
    @resolveChart (serving sample_chart) "ACME" "1d" "1m" = Ok r
    /\ get r "priceChange" = Ok (VNum 5%float)
    /\ get r "priceChangePercentage" = Ok (VStr "5.00").
Proof.
  eexists. split; [reflexivity |].
  apply (@resolveChart_priceChange (serving sample_chart)
           "ACME" "1d" "1m" sample_chart _ (sample_meta 105%float 100%float)
           (VNum 105%float) (VNum 100%float)
           eq_refl eq_refl eq_refl eq_refl eq_refl);
    reflexivity.
Defined.

Section ChartExchange.
Context {host : Host}.

(** The record does not depend on [meta.exchangeName]. *)
Lemma chart_record_exchangeName (meta meta' quote timestamp : value) :
  (forall k, k <> "exchangeName" -> get meta' k = get meta k) ->
  chart_record meta' quote timestamp = chart_record meta quote timestamp.
Proof.
  intros Hk. unfold chart_record.
  destruct (get meta "symbol") as [symbol|] eqn:Hs;
    [| now rewrite Hk, Hs by discriminate].
  assert (Hs' : get meta' "symbol" = Ok symbol)
    by (rewrite Hk by discriminate; exact Hs).
  destruct (get_total _ _ _ "exchangeName" Hs) as [e He].
  destruct (get_total _ _ _ "exchangeName" Hs') as [e' He'].
  rewrite Hs', He, He'. cbn [bind].
  repeat (try rewrite Hk by discriminate;
          match goal with
          | |- bind ?e _ = bind ?e _ => destruct e; cbn [bind]; [| reflexivity]
          end).
  reflexivity.
Qed.

(** C10. The object literal of [resolveChart] binds [exchange] twice:
    the record of a fulfilled [resolveChart] is the object literal of
    [chart_fields], whose fourth binding is [exchange] with the name
    read from [meta.exchangeName] and whose tenth binding is [exchange]
    with the time zone and trading period record.  The record holds
    the key once, at the place of the first binding and with the value
    of the second, and the name read from [meta.exchangeName] is not
    part of the record: any other name gives the same record. *)
Theorem resolveChart_exchange
  (symbol range interval : string) (resp r : value) :
  response (chart_url symbol range interval) = Ok resp ->
  resolveChart symbol range interval = Ok r ->
  exists meta quote timestamp timezone timezoneName start end_,
    chart_part "meta" resp = Ok meta
    /\ chart_record meta quote timestamp = Ok r
    /\ get meta "timezone" = Ok timezone
    /\ get meta "exchangeTimezoneName" = Ok timezoneName
    /\ (period <- get meta "currentTradingPeriod" ;;
        get2 period "regular" "start")%js = Ok start
    /\ (period <- get meta "currentTradingPeriod" ;;
        get2 period "regular" "end")%js = Ok end_
    /\ (exists symbol_ currency instrument name price previous change
               percentage date exchange timeseries,
          let fields :=
            chart_fields symbol_ currency instrument name price previous
              change percentage date exchange timeseries in
          get meta "exchangeName" = Ok name
          /\ get r "exchange" = Ok exchange
          /\ r = object_literal fields
          /\ nth_error fields 3 = Some ("exchange", name)
          /\ nth_error fields 9 = Some ("exchange", exchange)
          /\ count_occ string_dec (keys fields) "exchange" = 2%nat)
    /\ (exists props exchange,
          r = VObj props
          /\ get r "exchange" = Ok exchange
          /\ keys props
             = [ "symbol"; "currency"; "instrument"; "exchange";
                 "currentPrice"; "previousClose"; "priceChange";
                 "priceChangePercentage"; "updatedDateTime"; "timeseries" ]
          /\ nth_error props 3 = Some ("exchange", exchange)
          /\ count_occ string_dec (keys props) "exchange" = 1%nat)
    /\ get r "exchange"
       = Ok (object_literal
               [ ("timezone", timezone);
                 ("timezoneName", timezoneName);
                 ("tradingPeriod",
                   object_literal [ ("start", start); ("end", end_) ]) ])
    /\ forall meta',
         (forall k, k <> "exchangeName" -> get meta' k = get meta k) ->
         chart_record meta' quote timestamp = Ok r.
Proof.
  intros Hr H. rewrite resolveChart_response, Hr in H. cbn [bind] in H.
  apply resolveChart_then_Ok in H
    as (error & meta & quote & timestamp & He & Hf & Hm & Hq & Ht & H).
  pose proof H as Hrec.
  apply chart_record_Ok in H
    as (sy & cu & ins & exn & price & previous & tm & tz & tzn & per & reg
        & st & en & ts & _ & _ & _ & Hexn & _ & _ & _ & Htz & Htzn & Hper
        & Hreg & Hst & Hen & _ & ->).
  exists meta, quote, timestamp, tz, tzn, st, en.
  split; [exact Hm |]. split; [exact Hrec |].
  split; [exact Htz |]. split; [exact Htzn |].
  split; [unfold get2; now rewrite Hper; cbn [bind]; rewrite Hreg |].
  split; [unfold get2; now rewrite Hper; cbn [bind]; rewrite Hreg |].
  split.
  { do 11 eexists. split; [exact Hexn |].
    repeat (split; [reflexivity |]). reflexivity. }
  split.
  { do 2 eexists. repeat (split; [reflexivity |]). reflexivity. }
  split; [reflexivity |].
  intros meta' Hk. now rewrite (chart_record_exchangeName _ _ _ _ Hk).
Qed.

End ChartExchange.

Lemma resolveChart_exchange_witness :
  exists r,
    @resolveChart (serving sample_chart) "ACME" "1d" "1m" = Ok r
    /\ get r "exchange"
       = Ok (VObj [ ("timezone", VStr "EDT");
                    ("timezoneName", VStr "America/New_York");
                    ("tradingPeriod",
                      VObj [ ("start", VNum 1599831000%float);
                             ("end", VNum 1599854400%float) ]) ]).
Proof.
  eexists. split; [reflexivity |].
  destruct (@resolveChart_exchange (serving sample_chart)
              "ACME" "1d" "1m" sample_chart _ eq_refl eq_refl)
    as (meta & quote & timestamp & tz & tzn & st & en
        & Hm & _ & Htz & Htzn & Hst & Hen & _ & _ & Hx & _).
  injection Hm as <-. injection Htz as <-. injection Htzn as <-.
  injection Hst as <-. injection Hen as <-. exact Hx.
Defined.

(* ===================================================================== *)
(** ** Quotes *)
(* ===================================================================== *)

Section Quote.
Context {host : Host}.

Lemma priceHint_decimals_Ok (r decimals : value) :
  priceHint_decimals r = Ok decimals ->
  get r "priceHint" = Ok (prop r "priceHint")
  /\ field_if (prop r "priceHint") "raw"
     = Ok (if ToBoolean (prop r "priceHint") then decimals else VNull)
  /\ (ToBoolean (prop r "priceHint") = false -> decimals = VNum 2%float).
Proof.
  unfold priceHint_decimals, field_if. intros H. steps H.
  rewrite (prop_get _ _ _ E). split; [reflexivity |].
  destruct (ToBoolean x); [split; [exact H | discriminate] |].
  injection H as <-. split; reflexivity.
Qed.

(** What a fulfilled [resolveQuote] has read, and what it returns. *)
Lemma resolveQuote_then_Ok (resp r : value) :
  resolveQuote_then resp = Ok r ->
  exists p decimals currentPrice dayHighPrice dayLowPrice openPrice volume
         priceChange priceChangePercentage previousClose marketCap,
    module_of "price" resp = Ok p
    /\ priceHint_decimals p = Ok decimals
    /\ fixed_if (prop p "regularMarketPrice") (prop p "regularMarketPrice")
         decimals = Ok currentPrice
    /\ fixed_if (prop p "regularMarketDayHigh") (prop p "regularMarketDayHigh")
         decimals = Ok dayHighPrice
    /\ fixed_if (prop p "regularMarketDayHigh") (prop p "regularMarketDayLow")
         decimals = Ok dayLowPrice
    /\ fixed_if (prop p "regularMarketOpen") (prop p "regularMarketOpen")
         decimals = Ok openPrice
    /\ field_if (prop p "regularMarketVolume") "raw" = Ok volume
    /\ fixed_if (prop p "regularMarketChange") (prop p "regularMarketChange")
         decimals = Ok priceChange
    /\ percent_if (prop p "regularMarketChangePercent")
       = Ok priceChangePercentage
    /\ fixed_if (prop p "regularMarketPreviousClose")
         (prop p "regularMarketPreviousClose") decimals = Ok previousClose
    /\ field_if (prop p "marketCap") "raw" = Ok marketCap
    /\ r = object_literal
             [ ("symbol", prop p "symbol");
               ("currency", prop p "currency");
               ("shortName", prop p "shortName");
               ("longName", or_else (prop p "longName") (prop p "shortName"));
               ("instrument", prop p "quoteType");
               ("exchange", prop p "exchange");
               ("exchangeName",
                 if ToBoolean (prop p "exchangeName")
                 then prop p "exchangeName" else VNull);
               ("currentPrice", currentPrice);
               ("dayHighPrice", dayHighPrice);
               ("dayLowPrice", dayLowPrice);
               ("openPrice", openPrice);
               ("volume", volume);
               ("updatedDateTime",
                 new_Date (times (prop p "regularMarketTime")
                             (VNum 1000%float)));
               ("priceChange", priceChange);
               ("priceChangePercentage", priceChangePercentage);
               ("priceDecimals", decimals);
               ("previousClose", previousClose);
               ("marketCap", marketCap) ].
Proof.
  unfold resolveQuote_then. intros H.
  apply fulfilled_no_error in H as (summary & error & Hs & He & Hf & H).
  do 4 step H.
  match goal with
  | E : priceHint_decimals ?p = Ok ?d |- _ =>
      rename p into priceResult; rename d into decimals;
      pose proof (proj1 (priceHint_decimals_Ok _ _ E)) as Hp
  end.
  rewrite !(get_prop _ _ _ _ Hp) in H. cbn [bind] in H.
  steps H. settle_ops. injection H as <-.
  exists priceResult, decimals.
  unfold module_of, first_result, fixed_if, percent_if, field_if.
  replay. do 9 eexists.
  repeat (split; [eassumption || reflexivity |]).
  reflexivity.
Qed.

Lemma resolveQuote_Ok (symbol : string) (resp r p : value) :
  response (quote_url symbol) = Ok resp ->
  resolveQuote symbol = Ok r ->
  module_of "price" resp = Ok p ->
  resolveQuote_then resp = Ok r /\ forall k, get p k = Ok (prop p k).
Proof.
  intros Hr H Hp. rewrite resolveQuote_response, Hr in H. cbn [bind] in H.
  split; [exact H |].
  apply resolveQuote_then_Ok in H
    as (p' & decimals & ? & ? & ? & ? & ? & ? & ? & ? & ? & Hp' & Hd & _).
  rewrite Hp in Hp'. injection Hp' as <-.
  apply priceHint_decimals_Ok in Hd as [Hd _].
  intros k. exact (get_prop _ _ _ _ Hd).
Qed.

(** C8. In the record of a fulfilled [resolveQuote], [longName] is the
    provider's [shortName] when the provider omits [longName], and the
    provider's [longName] when that is a non-empty string. *)
Theorem resolveQuote_longName (symbol : string) (resp r p : value) :
  response (quote_url symbol) = Ok resp ->
  resolveQuote symbol = Ok r ->
  module_of "price" resp = Ok p ->
  get r "shortName" = get p "shortName"
  /\ (get p "longName" = Ok VUndefined \/ get p "longName" = Ok VNull ->
      get r "longName" = get p "shortName")
  /\ (forall s, get p "longName" = Ok (VStr s) -> s <> "" ->
      get r "longName" = Ok (VStr s)).
Proof.
  intros Hr H Hp. destruct (resolveQuote_Ok _ _ _ _ Hr H Hp) as [Ht Hk].
  apply resolveQuote_then_Ok in Ht
    as (p' & decimals & ? & ? & ? & ? & ? & ? & ? & ? & ? & Hp' & _ & _ & _
        & _ & _ & _ & _ & _ & _ & _ & ->).
  rewrite Hp in Hp'. injection Hp' as <-.
  split; [now rewrite Hk |]. split.
  - intros Hl. rewrite (Hk "shortName").
    assert (Hn : ToBoolean (prop p "longName") = false)
      by (destruct Hl as [Hl | Hl]; now rewrite (prop_get _ _ _ Hl)).
    change (Ok (or_else (prop p "longName") (prop p "shortName"))
            = Ok (prop p "shortName")).
    unfold or_else. now rewrite Hn.
  - intros s Hl Hs.
    change (Ok (or_else (prop p "longName") (prop p "shortName"))
            = Ok (VStr s)).
    unfold or_else. rewrite (prop_get _ _ _ Hl). simpl.
    destruct (String.eqb_spec s ""); [contradiction | reflexivity].
Qed.

End Quote.

Lemma resolveQuote_longName_witness :
  (exists r,
     @resolveQuote (serving sample_quote) "ACME" = Ok r
     /\ get r "longName" = Ok (VStr "Acme Corp."))
  /\ (exists r,
        @resolveQuote (serving (sample_price sample_named_fields)) "ACME" = Ok r
        /\ get r "longName" = Ok (VStr "Acme Corporation")).
Proof.
  split; eexists; (split; [reflexivity |]).
  - destruct (@resolveQuote_longName (serving sample_quote) "ACME"
                sample_quote _ (VObj sample_fields) eq_refl eq_refl eq_refl)
      as (_ & Hl & _).
    exact (Hl (or_introl eq_refl)).
  - destruct (@resolveQuote_longName
                (serving (sample_price sample_named_fields)) "ACME"
                (sample_price sample_named_fields) _
                (VObj sample_named_fields) eq_refl eq_refl eq_refl)
      as (_ & _ & Hl).
    apply (Hl "Acme Corporation" eq_refl). discriminate.
Defined.

Section QuotePrices.
Context {host : Host}.

(** On a field that is absent, or that holds a number under [raw], the
    conditional of [resolveQuote] agrees with [getRawValText] for a
    numeric decimal count. *)
Lemma fixed_if_getRawValText (v : value) (d : float) :
  ToBoolean v = false \/ (exists x, get v "raw" = Ok (VNum x)) ->
  fixed_if v v (VNum d) = getRawValText v (VNum d).
Proof.
  unfold fixed_if, getRawValText. intros [Hv | [x Hx]].
  - now rewrite Hv.
  - destruct (ToBoolean v) eqn:Hv.
    + now rewrite Hx.
    + destruct v; discriminate.
Qed.

(** Where they part: a field without a number under [raw] is absent for
    [getRawValText] and makes [resolveQuote] throw. *)
Lemma fixed_if_no_number (v raw decimals : value) :
  ToBoolean v = true -> get v "raw" = Ok raw -> typeof raw <> "number" ->
  fixed_if v v decimals = Throw TypeError
  /\ getRawValText v decimals = Ok VNull.
Proof.
  unfold fixed_if, getRawValText. intros -> -> Ht. cbn [bind].
  destruct raw; try (split; reflexivity). now elim Ht.
Qed.

(** The price fields of a fulfilled quote: each is decided by its own
    provider field, except the day low, decided by the day high. *)
Lemma resolveQuote_price_fields (symbol : string) (resp r p : value) :
  response (quote_url symbol) = Ok resp ->
  resolveQuote symbol = Ok r ->
  module_of "price" resp = Ok p ->
  exists decimals,
    priceHint_decimals p = Ok decimals
    /\ get r "priceDecimals" = Ok decimals
    /\ get r "currentPrice"
       = fixed_if (prop p "regularMarketPrice") (prop p "regularMarketPrice")
           decimals
    /\ get r "dayHighPrice"
       = fixed_if (prop p "regularMarketDayHigh")
           (prop p "regularMarketDayHigh") decimals
    /\ get r "dayLowPrice"
       = fixed_if (prop p "regularMarketDayHigh")
           (prop p "regularMarketDayLow") decimals
    /\ get r "openPrice"
       = fixed_if (prop p "regularMarketOpen") (prop p "regularMarketOpen")
           decimals
    /\ get r "previousClose"
       = fixed_if (prop p "regularMarketPreviousClose")
           (prop p "regularMarketPreviousClose") decimals
    /\ get r "priceChange"
       = fixed_if (prop p "regularMarketChange")
           (prop p "regularMarketChange") decimals
    /\ get r "priceChangePercentage"
       = percent_if (prop p "regularMarketChangePercent")
    /\ get r "volume" = field_if (prop p "regularMarketVolume") "raw"
    /\ get r "marketCap" = field_if (prop p "marketCap") "raw".
Proof.
  intros Hr H Hp. destruct (resolveQuote_Ok _ _ _ _ Hr H Hp) as [Ht Hk].
  apply resolveQuote_then_Ok in Ht
    as (p' & decimals & ? & ? & ? & ? & ? & ? & ? & ? & ? & Hp' & Hd & H1
        & H2 & H3 & H4 & H5 & H6 & H7 & H8 & H9 & ->).
  rewrite Hp in Hp'. injection Hp' as <-.
  exists decimals. rewrite H1, H2, H3, H4, H5, H6, H7, H8, H9.
  repeat (split; [assumption || reflexivity |]). reflexivity.
Qed.

End QuotePrices.

(** C5, at the inputs where it fails.  [dayLowPrice] is guarded by
    [regularMarketDayHigh] (line 114): a day low sent without a day high
    is dropped, and a day high sent without a day low makes the whole
    quote fail, while the day high alone is formatted. *)
Theorem resolveQuote_dayLow_guard :
  (exists r,
     @resolveQuote (serving (sample_price day_low_only)) "ACME" = Ok r
     /\ get r "dayLowPrice" = Ok VNull
     /\ @getRawValText (serving (sample_price day_low_only))
          (raw 121.5%float) (VNum 2%float) = Ok (VStr "121.50"))
  /\ @resolveQuote (serving (sample_price day_high_only)) "ACME"
     = Throw TypeError
  /\ (exists r,
        @resolveQuote (serving sample_quote) "ACME" = Ok r
        /\ get r "dayHighPrice" = Ok (VStr "125.00")
        /\ get r "dayLowPrice" = Ok (VStr "121.50")).
Proof.
  split; [| split].
  - eexists. split; [reflexivity |]. split; reflexivity.
  - reflexivity.
  - eexists. split; [reflexivity |]. split; reflexivity.
Qed.

(* ===================================================================== *)
(** ** Profiles *)
(* ===================================================================== *)

Section Profile.
Context {host : Host}.

(** [v ? (v.raw * 100).toFixed(2) : null] completes exactly when [v] is
    absent or its [raw] converts, and then gives [percent_text]. *)
Lemma percent_if_Ok (v y : value) :
  percent_if v = Ok y ->
  y = percent_text v
  /\ (ToBoolean v = true -> convertible (prop v "raw") = true).
Proof.
  unfold percent_if, percent_text.
  destruct (ToBoolean v) eqn:Hv; [| intros [= <-]; split; congruence].
  rewrite (get_truthy _ "raw" Hv). cbn [bind]. intros H. step H.
  settle_ops. rewrite toFixed_times_2 in H. injection H as <-. auto.
Qed.

Lemma percent_if_eq (v : value) :
  (ToBoolean v = true -> convertible (prop v "raw") = true) ->
  percent_if v = Ok (percent_text v).
Proof.
  unfold percent_if, percent_text.
  destruct (ToBoolean v) eqn:Hv; [| reflexivity]. intros Hc.
  rewrite (get_truthy _ "raw" Hv). cbn [bind].
  rewrite op_times_convertible by (auto || reflexivity). cbn [bind].
  apply toFixed_times_2.
Qed.

Lemma percent_if_Throw (v : value) (e : exn) :
  percent_if v = Throw e -> e = TypeError.
Proof.
  unfold percent_if. destruct (ToBoolean v) eqn:Hv; [| discriminate].
  rewrite (get_truthy _ "raw" Hv). cbn [bind].
  destruct (op_times (prop v "raw") (VNum 100%float)) as [x|e'] eqn:E.
  - settle_ops. cbn [bind]. rewrite toFixed_times_2. discriminate.
  - cbn [bind]. intros [= <-]. exact (op_times_Throw _ _ _ E).
Qed.

Lemma field_if_eq (v : value) (k : string) :
  field_if v k = Ok (if ToBoolean v then prop v k else VNull).
Proof.
  unfold field_if. destruct (ToBoolean v) eqn:Hv; [| reflexivity].
  apply (get_truthy _ _ Hv).
Qed.

(** What [summaryDetail_of] returns. *)
Lemma summaryDetail_of_Ok (d sd : value) :
  summaryDetail_of d = Ok sd ->
  exists decimals beta low high average50 average200 rate trailingRate,
    priceHint_decimals d = Ok decimals
    /\ getRawValText (prop d "beta") decimals = Ok beta
    /\ getRawValText (prop d "fiftyTwoWeekLow") decimals = Ok low
    /\ getRawValText (prop d "fiftyTwoWeekHigh") decimals = Ok high
    /\ getRawValText (prop d "fiftyDayAverage") decimals = Ok average50
    /\ getRawValText (prop d "twoHundredDayAverage") decimals = Ok average200
    /\ getRawValText (prop d "dividendRate") decimals = Ok rate
    /\ getRawValText (prop d "trailingAnnualDividendRate") decimals
       = Ok trailingRate
    /\ sd = object_literal
              [ ("currency", prop d "currency");
                ("priceHistory",
                  object_literal
                    [ ("beta", beta);
                      ("fiftyTwoWeekLow", low);
                      ("fiftyTwoWeekHigh", high);
                      ("fiftyDayAverage", average50);
                      ("twoHundredDayAverage", average200) ]);
                ("dividend",
                  object_literal
                    [ ("rate", rate);
                      ("yield", percent_text (prop d "dividendYield"));
                      ("exDate",
                        if ToBoolean (prop d "exDividendDate") then
                          prop (prop d "exDividendDate") "fmt"
                        else VNull);
                      ("trailingAnnualRate", trailingRate);
                      ("trailingAnnualYield",
                        percent_text
                          (prop d "trailingAnnualDividendYield")) ]) ].
Proof.
  unfold summaryDetail_of. intros H. step H.
  match goal with
  | E : priceHint_decimals _ = Ok _ |- _ =>
      pose proof (proj1 (priceHint_decimals_Ok _ _ E)) as Hp
  end.
  rewrite !(get_prop _ _ _ _ Hp) in H. cbn [bind] in H.
  fold (percent_if (prop d "dividendYield")) in H.
  fold (percent_if (prop d "trailingAnnualDividendYield")) in H.
  fold (field_if (prop d "exDividendDate") "fmt") in H.
  rewrite field_if_eq in H.
  steps H. injection H as <-.
  repeat match goal with
    | E : percent_if _ = Ok _ |- _ => apply percent_if_Ok in E as [-> _]
    end.
  do 8 eexists. repeat (split; [eassumption || reflexivity |]).
  reflexivity.
Qed.

(** What [summaryProfile_of] returns. *)
Lemma summaryProfile_of_Ok (p sp : value) :
  summaryProfile_of p = Ok sp ->
  sp = object_literal
         [ ("address", VStr (address_text p));
           ("phone", prop p "phone");
           ("website", prop p "website");
           ("industry", prop p "industry");
           ("sector", prop p "sector");
           ("description", prop p "longBusinessSummary");
           ("fullTimeEmployees", prop p "fullTimeEmployees") ].
Proof.
  unfold summaryProfile_of. intros H. step H.
  match goal with
  | E : get p "address2" = Ok _ |- _ =>
      rewrite !(get_prop _ _ _ _ E) in H;
      apply prop_get in E; subst
  end.
  cbn [bind] in H. steps H. settle_ops. injection H as <-.
  unfold address_text.
  destruct (ToBoolean (prop p "address2"));
    [settle_ops
    | match goal with E : Ok _ = Ok _ |- _ => injection E as <- end];
    reflexivity.
Qed.

(** What a fulfilled [resolveProfile] has read, and what it returns. *)
Lemma resolveProfile_then_Ok (symbol : string) (resp r : value) :
  resolveProfile_then symbol resp = Ok r ->
  exists d sd,
    module_of "summaryDetail" resp = Ok d
    /\ summaryDetail_of d = Ok sd
    /\ if isIndex symbol then
         exists c,
           module_of "components" resp = Ok c
           /\ get c "components" = Ok (prop c "components")
           /\ r = object_literal
                    [ ("summaryProfile", VNull);
                      ("summaryDetail", sd);
                      ("components", prop c "components") ]
       else
         exists p sp,
           module_of "summaryProfile" resp = Ok p
           /\ summaryProfile_of p = Ok sp
           /\ r = object_literal
                    [ ("summaryProfile", sp);
                      ("summaryDetail", sd);
                      ("components", VNull) ].
Proof.
  unfold resolveProfile_then. intros H.
  apply fulfilled_no_error in H as (summary & error & Hs & He & Hf & H).
  do 4 step H. 
  match goal with
  | E1 : get _ "summaryDetail" = Ok ?d, E2 : summaryDetail_of _ = Ok ?sd |- _ =>
      exists d, sd
  end.
  unfold module_of, first_result. replay.
  split; [assumption |]. split; [assumption |].
  destruct (isIndex symbol).
  - steps H. injection H as <-.
    match goal with
    | E : bind _ _ = Ok _ |- _ => steps E; injection E as <-
    end.
    match goal with
    | E : get ?c "components" = Ok ?cs, E' : get _ "components" = Ok ?c |- _ =>
        exists c; split; [reflexivity |];
        split; [exact (get_prop _ _ _ _ E) |];
        now rewrite (prop_get _ _ _ E)
    end.
  - steps H. injection H as <-.
    match goal with
    | E : bind _ _ = Ok _ |- _ => steps E; injection E as <-
    end.
    eauto 6.
Qed.

End Profile.

Section ProfileClaims.
Context {host : Host}.

Lemma resolveProfile_Ok (symbol : string) (resp r : value) :
  response (profile_url symbol) = Ok resp ->
  resolveProfile symbol = Ok r ->
  resolveProfile_then symbol resp = Ok r.
Proof.
  intros Hr H. rewrite resolveProfile_response, Hr in H. exact H.
Qed.


(** C9. The address of a fulfilled non-index profile is [address1],
    [", "], then [address2] and [", "] only when [address2] is truthy,
    then [city], a space, [zip], [", "] and [country]; without
    [address2] the second line and its separator are left out. *)
Theorem resolveProfile_address (symbol : string) (resp r p : value) :
  response (profile_url symbol) = Ok resp ->
  resolveProfile symbol = Ok r ->
  isIndex symbol = false ->
  module_of "summaryProfile" resp = Ok p ->
  get2 r "summaryProfile" "address" = Ok (VStr (address_text p))
  /\ (forall a1 a2 city zip country,
        get p "address1" = Ok (VStr a1) ->
        get p "address2" = Ok (VStr a2) -> a2 <> "" ->
        get p "city" = Ok (VStr city) ->
        get p "zip" = Ok (VStr zip) ->
        get p "country" = Ok (VStr country) ->
        address_text p
        = a1 ++ ", " ++ a2 ++ ", " ++ city ++ " " ++ zip ++ ", " ++ country)
  /\ (forall a1 city zip country,
        get p "address1" = Ok (VStr a1) ->
        nullish (prop p "address2") = true ->
        get p "city" = Ok (VStr city) ->
        get p "zip" = Ok (VStr zip) ->
        get p "country" = Ok (VStr country) ->
        address_text p = a1 ++ ", " ++ city ++ " " ++ zip ++ ", " ++ country)
  /\ (get p "address1" = Ok (VStr "1 Main St") ->
      nullish (prop p "address2") = true ->
      get p "city" = Ok (VStr "Springfield") ->
      get p "zip" = Ok (VStr "00000") ->
      get p "country" = Ok (VStr "USA") ->
      get2 r "summaryProfile" "address"
      = Ok (VStr "1 Main St, Springfield 00000, USA")).
Proof.
  intros Hr H Hi Hp. apply (resolveProfile_Ok _ _ _ Hr) in H.
  apply resolveProfile_then_Ok in H as (d & sd & Hd & Hsd & H).
  rewrite Hi in H. destruct H as (p' & sp & Hp' & Hsp & ->).
  rewrite Hp in Hp'. injection Hp' as <-.
  pose proof (summaryProfile_of_Ok _ _ Hsp) as ->.
  assert (Ha : get2
                 (object_literal
                    [ ("summaryProfile",
                        object_literal
                          [ ("address", VStr (address_text p));
                            ("phone", prop p "phone");
                            ("website", prop p "website");
                            ("industry", prop p "industry");
                            ("sector", prop p "sector");
                            ("description", prop p "longBusinessSummary");
                            ("fullTimeEmployees",
                              prop p "fullTimeEmployees") ]);
                      ("summaryDetail", sd);
                      ("components", VNull) ])
                 "summaryProfile" "address"
               = Ok (VStr (address_text p))) by reflexivity.
  assert (Habsent : forall a1 city zip country,
             get p "address1" = Ok (VStr a1) ->
             nullish (prop p "address2") = true ->
             get p "city" = Ok (VStr city) ->
             get p "zip" = Ok (VStr zip) ->
             get p "country" = Ok (VStr country) ->
             address_text p
             = a1 ++ ", " ++ city ++ " " ++ zip ++ ", " ++ country).
  { intros a1 city zip country H1 H2 H3 H4 H5. unfold address_text.
    rewrite (prop_get _ _ _ H1), (prop_get _ _ _ H3), (prop_get _ _ _ H4),
      (prop_get _ _ _ H5).
    destruct (prop p "address2"); try discriminate; reflexivity. }
  split; [exact Ha |]. split; [| split; [exact Habsent |]].
  - intros a1 a2 city zip country H1 H2 Hne H3 H4 H5. unfold address_text.
    rewrite (prop_get _ _ _ H1), (prop_get _ _ _ H2), (prop_get _ _ _ H3),
      (prop_get _ _ _ H4), (prop_get _ _ _ H5).
    simpl ToBoolean. destruct (String.eqb_spec a2 ""); [contradiction |].
    simpl. now rewrite append_assoc.
  - intros H1 H2 H3 H4 H5. rewrite Ha.
    now rewrite (Habsent _ _ _ _ H1 H2 H3 H4 H5).
Qed.

End ProfileClaims.


Lemma resolveProfile_address_witness :
  (exists r,
     @resolveProfile (serving sample_company) "ACME" = Ok r
     /\ get2 r "summaryProfile" "address"
        = Ok (VStr "1 Main St, Springfield 00000, USA"))
  /\ (exists r,
        @resolveProfile (serving (company sample_suite)) "ACME" = Ok r
        /\ get2 r "summaryProfile" "address"
           = Ok (VStr "1 Main St, Suite 4, Springfield 00000, USA")).
Proof.
  split; eexists; (split; [reflexivity |]).
  - destruct (@resolveProfile_address (serving sample_company) "ACME"
                sample_company _ sample_address
                eq_refl eq_refl eq_refl eq_refl)
      as (_ & _ & _ & H).
    exact (H eq_refl eq_refl eq_refl eq_refl eq_refl).
  - destruct (@resolveProfile_address (serving (company sample_suite)) "ACME"
                (company sample_suite) _ sample_suite
                eq_refl eq_refl eq_refl eq_refl)
      as (Ha & H & _).
    rewrite Ha.
    rewrite (H "1 Main St" "Suite 4" "Springfield" "00000" "USA"
               eq_refl eq_refl);
      [reflexivity | discriminate | reflexivity | reflexivity | reflexivity].
Defined.

Section Yields.
Context {host : Host}.

(** The text of a yield whose [raw] is the number [x]. *)
Lemma percent_text_number (v : value) (x : float) :
  get v "raw" = Ok (VNum x) ->
  percent_text v = VStr (Num.toFixed (PrimFloat.mul x 100%float) 2).
Proof.
  intros Hx. unfold percent_text. rewrite (prop_get _ _ _ Hx).
  destruct v; try discriminate. reflexivity.
Qed.

(** A yield sent as an object without [raw], as the provider does for
    a value it does not have, is not absent for this expression. *)
Example percent_text_without_raw : percent_text (VObj []) = VStr "NaN".
Proof. reflexivity. Qed.

(** C7. In the [summaryDetail] of a fulfilled [resolveProfile], the
    dividend yield and the trailing annual dividend yield are, when the
    provider sends them, [raw * 100] written by [toFixed(2)], whatever
    precision the price hint resolves to: two decimals whenever that
    number is finite and below 10^21.  The other numbers of the price
    history and of the dividend are read by [getRawValText] at the
    resolved precision. *)
Theorem resolveProfile_yields (symbol : string) (resp r d : value) :
  response (profile_url symbol) = Ok resp ->
  resolveProfile symbol = Ok r ->
  module_of "summaryDetail" resp = Ok d ->
  exists decimals,
    priceHint_decimals d = Ok decimals
    /\ get_path r [ "summaryDetail"; "dividend"; "yield" ]
       = Ok (percent_text (prop d "dividendYield"))
    /\ get_path r [ "summaryDetail"; "dividend"; "trailingAnnualYield" ]
       = Ok (percent_text (prop d "trailingAnnualDividendYield"))
    /\ (forall v x,
          get v "raw" = Ok (VNum x) ->
          percent_text v = VStr (Num.toFixed (PrimFloat.mul x 100%float) 2)
          /\ (Num.fixed_range (PrimFloat.mul x 100%float) = true ->
              Num.has_decimals 2
                (Num.toFixed (PrimFloat.mul x 100%float) 2) = true))
    /\ get_path r [ "summaryDetail"; "priceHistory"; "beta" ]
       = getRawValText (prop d "beta") decimals
    /\ get_path r [ "summaryDetail"; "priceHistory"; "fiftyTwoWeekLow" ]
       = getRawValText (prop d "fiftyTwoWeekLow") decimals
    /\ get_path r [ "summaryDetail"; "priceHistory"; "fiftyTwoWeekHigh" ]
       = getRawValText (prop d "fiftyTwoWeekHigh") decimals
    /\ get_path r [ "summaryDetail"; "priceHistory"; "fiftyDayAverage" ]
       = getRawValText (prop d "fiftyDayAverage") decimals
    /\ get_path r [ "summaryDetail"; "priceHistory"; "twoHundredDayAverage" ]
       = getRawValText (prop d "twoHundredDayAverage") decimals
    /\ get_path r [ "summaryDetail"; "dividend"; "rate" ]
       = getRawValText (prop d "dividendRate") decimals
    /\ get_path r [ "summaryDetail"; "dividend"; "trailingAnnualRate" ]
       = getRawValText (prop d "trailingAnnualDividendRate") decimals.
Proof.
  intros Hr H Hd. apply (resolveProfile_Ok _ _ _ Hr) in H.
  apply resolveProfile_then_Ok in H as (d' & sd & Hd' & Hsd & H).
  rewrite Hd in Hd'. injection Hd' as <-.
  apply summaryDetail_of_Ok in Hsd
    as (decimals & beta & low & high & a50 & a200 & rate & trate & Hdec
        & H1 & H2 & H3 & H4 & H5 & H6 & H7 & ->).
  exists decimals. rewrite H1, H2, H3, H4, H5, H6, H7.
  split; [exact Hdec |].
  assert (Hy : forall v x,
             get v "raw" = Ok (VNum x) ->
             percent_text v
             = VStr (Num.toFixed (PrimFloat.mul x 100%float) 2)
             /\ (Num.fixed_range (PrimFloat.mul x 100%float) = true ->
                 Num.has_decimals 2
                   (Num.toFixed (PrimFloat.mul x 100%float) 2) = true)).
  { intros v x Hx. split; [now apply percent_text_number |].
    apply NumFacts.toFixed_has_decimals. }
  destruct (isIndex symbol).
  - destruct H as (c & _ & _ & ->).
    repeat (split; [reflexivity || exact Hy |]). reflexivity.
  - destruct H as (p & sp & _ & _ & ->).
    repeat (split; [reflexivity || exact Hy |]). reflexivity.
Qed.

End Yields.

Lemma resolveProfile_yields_witness :
  exists r,
    @resolveProfile (serving sample_company) "ACME" = Ok r
    /\ get_path r [ "summaryDetail"; "dividend"; "yield" ] = Ok (VStr "0.65")
    /\ get_path r [ "summaryDetail"; "priceHistory"; "beta" ]
       = Ok (VStr "1.2500").
Proof.
  eexists. split; [reflexivity |].
  destruct (@resolveProfile_yields (serving sample_company) "ACME"
              sample_company _ sample_detail eq_refl eq_refl eq_refl)
    as (decimals & Hd & Hy & _ & _ & Hb & _).
  injection Hd as <-. split; [exact Hy | exact Hb].
Defined.

(* ===================================================================== *)
(** ** The raw-value helper *)
(* ===================================================================== *)

Section RawValue.
Context {host : Host}.

Lemma raw_number_truthy (val : value) (x : float) :
  get val "raw" = Ok (VNum x) -> ToBoolean val = true.
Proof. destruct val; simpl; try discriminate; reflexivity. Qed.

Lemma getRawValText_absent (val decimals : value) :
  (forall x, get val "raw" <> Ok (VNum x)) ->
  getRawValText val decimals = Ok VNull.
Proof.
  intros Hn. unfold getRawValText.
  destruct (ToBoolean val) eqn:Hv; [| reflexivity].
  rewrite (get_truthy _ "raw" Hv) in *. cbn [bind].
  destruct (prop val "raw"); try reflexivity. now elim (Hn n).
Qed.

Lemma getRawValText_number (val decimals : value) (x : float) :
  get val "raw" = Ok (VNum x) ->
  getRawValText val decimals
  = if typeof decimals =? "number" then toFixed (VNum x) decimals
    else Ok (VNum x).
Proof.
  intros Hx. unfold getRawValText.
  now rewrite (raw_number_truthy _ _ Hx), Hx.
Qed.

(** C1, amended.  [getRawValText] returns [null] when its argument is
    absent or holds no number under [raw].  With a number [raw] and a
    numeric decimal count whose integer part [p] is between 0 and 100 it
    returns [raw.toFixed(p)], for a finite [raw] below 10^21 a text
    with exactly [p] digits after the decimal point; with a numeric
    count outside of 0..100 it throws a [RangeError]; without a numeric
    count it returns the bare number.  In the resolvers an absent
    [priceHint] gives the count 2. *)
Theorem getRawValText_spec :
  (forall val decimals,
     (forall x, get val "raw" <> Ok (VNum x)) ->
     getRawValText val decimals = Ok VNull)
  /\ (forall val decimals x, get val "raw" = Ok (VNum x) ->
        (forall d p,
           decimals = VNum d ->
           Num.ToIntegerOrInfinity d = Num.Int (Z.of_nat p) ->
           (p <= 100)%nat ->
           getRawValText val decimals = Ok (VStr (Num.toFixed x p))
           /\ (Num.fixed_range x = true ->
               Num.has_decimals p (Num.toFixed x p) = true))
        /\ (forall d,
              decimals = VNum d ->
              (forall p, (p <= 100)%nat ->
                 Num.ToIntegerOrInfinity d <> Num.Int (Z.of_nat p)) ->
              getRawValText val decimals = Throw RangeError)
        /\ (typeof decimals <> "number" ->
            getRawValText val decimals = Ok (VNum x)))
  /\ (forall r,
        nullish r = false -> ToBoolean (prop r "priceHint") = false ->
        priceHint_decimals r = Ok (VNum 2%float))
  /\ (forall symbol resp q p,
        response (quote_url symbol) = Ok resp ->
        resolveQuote symbol = Ok q ->
        module_of "price" resp = Ok p ->
        ToBoolean (prop p "priceHint") = false ->
        get q "priceDecimals" = Ok (VNum 2%float)).
Proof.
  split; [apply getRawValText_absent |]. split; [| split].
  - intros val decimals x Hx. rewrite (getRawValText_number _ _ _ Hx).
    split; [| split].
    + intros d p -> Hd Hp. simpl. split.
      * now apply Number_toFixed_in_range.
      * apply NumFacts.toFixed_has_decimals.
    + intros d -> Hd. simpl. unfold Number_toFixed, coerce.
      cbn [convertible bind ToNumber].
      destruct (Num.ToIntegerOrInfinity d) as [z|] eqn:Hz; [| reflexivity].
      destruct (Z.ltb_spec z 0); [reflexivity |].
      destruct (Z.ltb_spec 100 z); [reflexivity |].
      elim (Hd (Z.to_nat z)); [lia |]. f_equal. lia.
    + intros Ht. destruct decimals; try reflexivity. now elim Ht.
  - intros r Hn Hp. unfold priceHint_decimals.
    destruct (get_nullish r "priceHint" Hn) as [a Ha].
    rewrite Ha. cbn [bind]. rewrite (prop_get _ _ _ Ha) in Hp.
    now rewrite Hp.
  - intros symbol resp q p Hr H Hp Hh.
    destruct (resolveQuote_price_fields _ _ _ _ Hr H Hp)
      as (dec & Hd & Hq & _).
    apply priceHint_decimals_Ok in Hd as (_ & _ & Hd).
    now rewrite Hq, (Hd Hh).
Qed.

End RawValue.

(** C1 as stated fails: a numeric decimal count above 100 gives no text. *)
Lemma getRawValText_counterexample :
  @getRawValText (serving VNull) (raw 1%float) (VNum 101%float)
  = Throw RangeError
  /\ ~ (exists s,
          @getRawValText (serving VNull) (raw 1%float) (VNum 101%float)
          = Ok (VStr s)
          /\ Num.has_decimals 101 s = true).
Proof.
  split; [reflexivity |]. intros (s & H & _). discriminate H.
Qed.

Lemma getRawValText_spec_witness :
  @getRawValText (serving VNull) (raw 123.456%float) (VNum 2%float)
  = Ok (VStr "123.46")
  /\ Num.has_decimals 2 "123.46" = true
  /\ @getRawValText (serving VNull) (raw 123.456%float) VUndefined
     = Ok (VNum 123.456%float)
  /\ @getRawValText (serving VNull) (VObj []) (VNum 2%float) = Ok VNull
  /\ (exists q,
        @resolveQuote (serving sample_quote) "ACME" = Ok q
        /\ get q "priceDecimals" = Ok (VNum 2%float)).
Proof.
  destruct (@getRawValText_spec (serving VNull)) as (Ha & Hn & _ & _).
  destruct (Hn (raw 123.456%float) (VNum 2%float) 123.456%float eq_refl)
    as (Hf & _ & _).
  destruct (Hf 2%float 2%nat eq_refl eq_refl) as [Ht Hd]; [lia |].
  split; [exact Ht |]. split; [exact (Hd eq_refl) |].
  split.
  { destruct (Hn (raw 123.456%float) VUndefined 123.456%float eq_refl)
      as (_ & _ & Hb).
    apply Hb. discriminate. }
  split.
  { apply Ha. intros x. discriminate. }
  eexists. split; [reflexivity |].
  apply (proj2 (proj2 (proj2 (@getRawValText_spec (serving sample_quote))))
           "ACME" sample_quote _ (VObj sample_fields));
    reflexivity.
Defined.

(* ===================================================================== *)
(** ** Further properties of the resolvers *)
(* ===================================================================== *)

Lemma bind_Throw {A B : Type} (r : result A) (k : A -> result B) (e : exn) :
  bind r k = Throw e -> r = Throw e \/ exists a, r = Ok a /\ k a = Throw e.
Proof. destruct r as [a|e']; simpl; intros H; [eauto | left; congruence]. Qed.

(** Splits a sequence in a hypothesis without touching the rest of the
    context. *)
Ltac pop H :=
  match type of H with
  | Throw _ = Ok _ => discriminate H
  | bind (Ok _) _ = Ok _ => cbn [bind] in H
  | bind ?e _ = Ok _ =>
      let x := fresh "x" in
      let E := fresh "E" in
      apply bind_Ok in H as (x & E & H); cbv beta in H
  end.

Ltac pops H := repeat pop H.

Section Throws.
Context {host : Host}.

(** A read throws nothing but a [TypeError], and only on [undefined]
    and [null]. *)
Lemma get_Throw (v : value) (k : string) (e : exn) :
  get v k = Throw e -> e = TypeError /\ nullish v = true.
Proof. destruct v; simpl; intros H; try discriminate; now injection H as <-. Qed.

Lemma get_index_Throw (v : value) (i : nat) (e : exn) :
  get_index v i = Throw e -> e = TypeError /\ nullish v = true.
Proof. destruct v; simpl; intros H; try discriminate; now injection H as <-. Qed.

Lemma get_Ok (v : value) (k : string) :
  nullish v = false -> get v k = Ok (prop v k).
Proof.
  intros Hn. destruct (get_nullish v k Hn) as [a Ha].
  now rewrite (prop_get _ _ _ Ha).
Qed.

Lemma get_nullish_Throw (v : value) (k : string) :
  nullish v = true -> get v k = Throw TypeError.
Proof. destruct v; simpl; intros H; try discriminate; reflexivity. Qed.

Lemma get_Ok_nullish (v a : value) (k : string) :
  get v k = Ok a -> nullish v = false.
Proof. destruct v; simpl; intros H; try discriminate; reflexivity. Qed.

Lemma Number_toFixed_Throw (x : float) (d : value) (e : exn) :
  Number_toFixed x d = Throw e ->
  (e = TypeError /\ convertible d = false)
  \/ (e = RangeError /\ forall y, Number_toFixed y d = Throw RangeError).
Proof.
  unfold Number_toFixed, coerce.
  destruct (convertible d); cbn [bind]; [| intros [= <-]; auto].
  destruct (Num.ToIntegerOrInfinity (ToNumber d)) as [z|s].
  - destruct ((z <? 0)%Z || (100 <? z)%Z); intros H; [| discriminate].
    injection H as <-. auto.
  - intros H. injection H as <-. auto.
Qed.

(** With a number as fraction digits only the range can fail. *)
Lemma Number_toFixed_number_Throw (x d : float) (e : exn) :
  Number_toFixed x (VNum d) = Throw e ->
  e = RangeError /\ forall y, Number_toFixed y (VNum d) = Throw RangeError.
Proof.
  intros H. apply Number_toFixed_Throw in H as [[_ H] | H];
    [discriminate | exact H].
Qed.

(** [this.toFixed(d)] throws a [TypeError] when [this] is no number or
    [d] does not convert, and a [RangeError] when [d] is out of range. *)
Lemma toFixed_Throw (this d : value) (e : exn) :
  toFixed this d = Throw e ->
  (e = TypeError /\ (typeof this <> "number" \/ convertible d = false))
  \/ (e = RangeError /\ forall y, Number_toFixed y d = Throw RangeError).
Proof.
  destruct this; simpl; intros H;
    try (left; injection H as <-; split; [reflexivity | left; discriminate]).
  apply Number_toFixed_Throw in H as [[-> H] | H]; auto.
Qed.

Lemma toFixed_Ok (this d r : value) :
  toFixed this d = Ok r ->
  exists x s, this = VNum x /\ r = VStr s /\ Number_toFixed x d = Ok (VStr s).
Proof.
  destruct this; simpl; try discriminate. unfold Number_toFixed, coerce.
  destruct (convertible d); cbn [bind]; [| discriminate].
  destruct (Num.ToIntegerOrInfinity (ToNumber d)) as [z|s]; [| discriminate].
  destruct ((z <? 0)%Z || (100 <? z)%Z); [discriminate |].
  intros H. injection H as <-. eauto.
Qed.

(** A decimal count that converts and is not out of range is accepted
    for every number. *)
Lemma Number_toFixed_accepted (x : float) (d : value) :
  convertible d = true -> ~ out_of_range d ->
  exists s, Number_toFixed x d = Ok (VStr s).
Proof.
  intros Hc Hd. destruct (Number_toFixed x d) as [r|e] eqn:H.
  - unfold Number_toFixed, coerce in H. rewrite Hc in H. cbn [bind] in H.
    destruct (Num.ToIntegerOrInfinity (ToNumber d)); [| discriminate].
    destruct ((z <? 0)%Z || (100 <? z)%Z); [discriminate |].
    injection H as <-. eauto.
  - apply Number_toFixed_Throw in H as [[_ H] | [_ H]];
      [congruence | now elim Hd].
Qed.

End Throws.

Section HelperOutcomes.
Context {host : Host}.

(** X1. [getRawValText] returns [null], the number under [raw] or a
    text, and throws nothing but a [RangeError]; that needs a number
    under [raw] and a numeric decimal count. *)
Theorem getRawValText_outcomes (val decimals : value) :
  match getRawValText val decimals with
  | Ok v =>
      v = VNull
      \/ exists x, get val "raw" = Ok (VNum x)
                   /\ ((v = VNum x /\ typeof decimals <> "number")
                       \/ (exists s, v = VStr s /\ typeof decimals = "number"))
  | Throw e =>
      e = RangeError /\ typeof decimals = "number"
      /\ exists x, get val "raw" = Ok (VNum x)
  end.
Proof.
  destruct (get val "raw") as [[| | | x | | | |]|] eqn:Hr;
    try (rewrite getRawValText_absent by (intros x'; congruence);
         now left).
  rewrite (getRawValText_number _ _ _ Hr).
  destruct (typeof decimals =? "number") eqn:Ht.
  - apply String.eqb_eq in Ht.
    destruct (toFixed (VNum x) decimals) as [r|e] eqn:Hf.
    + apply toFixed_Ok in Hf as (x' & s & _ & -> & _). right. eauto 7.
    + apply toFixed_Throw in Hf as [[_ [Hf | Hf]] | [-> _]].
      * now elim Hf.
      * rewrite typeof_convertible in Hf by (rewrite Ht; discriminate).
        discriminate.
      * eauto.
  - apply String.eqb_neq in Ht. right. eauto 7.
Qed.

(** X3. From 10^21 on, and for a number that is not finite, the decimal
    count has no effect: with any count in range [getRawValText] returns
    the plain text of the number. *)
Theorem getRawValText_beyond_fixed_range
  (val : value) (x d : float) (p : nat) :
  get val "raw" = Ok (VNum x) ->
  Num.fixed_range x = false ->
  Num.ToIntegerOrInfinity d = Num.Int (Z.of_nat p) -> (p <= 100)%nat ->
  getRawValText val (VNum d) = Ok (VStr (Num.toString x)).
Proof.
  intros Hr Hx Hd Hp. rewrite (getRawValText_number _ _ _ Hr). simpl.
  rewrite (Number_toFixed_in_range _ _ _ Hd Hp). do 2 f_equal.
  unfold Num.fixed_range, Num.toFixed in *.
  destruct (Prim2SF x) as [s | s | | s m e]; try discriminate; try reflexivity.
  apply negb_false_iff in Hx. now rewrite Hx.
Qed.

End HelperOutcomes.

Lemma getRawValText_beyond_fixed_range_witness :
  @getRawValText (serving VNull) (raw 1e21%float) (VNum 2%float)
  = Ok (VStr "1e+21")
  /\ @getRawValText (serving VNull) (raw 1e21%float) (VNum 7%float)
     = Ok (VStr "1e+21").
Proof.
  split.
  - apply (@getRawValText_beyond_fixed_range (serving VNull)
             (raw 1e21%float) 1e21%float 2%float 2 eq_refl eq_refl eq_refl).
    lia.
  - apply (@getRawValText_beyond_fixed_range (serving VNull)
             (raw 1e21%float) 1e21%float 7%float 7 eq_refl eq_refl eq_refl).
    lia.
Defined.

Module ReadFacts.
Import Digits Num NumFacts.

Lemma chars_uint_chars (d : Decimal.uint) : chars_uint (uint_chars d) = Some d.
Proof. induction d; simpl; try rewrite IHd; reflexivity. Qed.

Lemma chars_uint_zeros (k : nat) (cs : list ascii) (u : Decimal.uint) :
  chars_uint cs = Some u ->
  exists u', chars_uint (repeat "0"%char k ++ cs)%list = Some u'
             /\ N.of_uint u' = N.of_uint u.
Proof.
  intros H. induction k as [|k (u' & Hu & Hn)]; simpl; [eauto |].
  rewrite Hu. eauto.
Qed.

Lemma filter_digits (cs : list ascii) :
  all_digits cs = true ->
  filter (fun c => negb (Ascii.eqb c ".")) cs = cs.
Proof.
  induction cs as [|c cs IH]; simpl; [reflexivity |].
  intros H. apply andb_true_iff in H as [Hc H]. rewrite (IH H).
  destruct (Ascii.eqb_spec c "."); [subst; discriminate | reflexivity].
Qed.

(** The digits of [fixed_text n p], without the point, are those of [n]
    after some zeros. *)
Lemma fixed_text_chars (sign : bool) (n : N) (p : nat) :
  exists k,
    filter (fun c => negb (Ascii.eqb c "."))
      (unsigned (list_ascii_of_string (Num.sign sign ++ fixed_text n p)))
    = (repeat "0"%char k ++ digits n)%list.
Proof.
  destruct p as [|f].
  - exists 0%nat. unfold fixed_text.
    rewrite chars_app, chars_text.
    assert (Hu : unsigned (digits n) = digits n).
    { apply unsigned_digits; [apply digits_nonempty |].
      apply all_digits_firstn, digits_all. }
    destruct sign; simpl; [| rewrite Hu]; apply filter_digits, digits_all.
  - exists (S (S f) - List.length (digits n))%nat. unfold fixed_text.
    set (m := (repeat "0"%char (S (S f) - List.length (digits n))
               ++ digits n)%list).
    assert (Dm : all_digits m = true).
    { unfold m. now rewrite all_digits_app, all_digits_zeros, digits_all. }
    assert (Lm : (S (S f) <= List.length m)%nat).
    { unfold m. rewrite length_app, repeat_length. lia. }
    set (i := (List.length m - S f)%nat).
    assert (Hbody : unsigned (list_ascii_of_string
                      (Num.sign sign ++ text (firstn i m) ++ "."
                       ++ text (skipn i m)))
                    = (firstn i m ++ "."%char :: skipn i m)%list).
    { rewrite !chars_app, !chars_text. destruct sign; simpl; [reflexivity |].
      assert (Hi : (0 < i)%nat) by (unfold i; lia).
      destruct m as [|c m']; [simpl in Lm; lia |].
      destruct i as [|i']; [lia |]. simpl in *.
      apply andb_true_iff in Dm as [Dc _].
      destruct (Ascii.eqb_spec c "-"); [subst; discriminate | reflexivity]. }
    rewrite Hbody, filter_app. simpl.
    rewrite !filter_digits
      by (apply all_digits_firstn || apply all_digits_skipn; exact Dm).
    apply firstn_skipn.
Qed.

Lemma fixed_units_fixed_text (sign : bool) (n : N) (p : nat) :
  fixed_units (Num.sign sign ++ fixed_text n p) = Some n.
Proof.
  unfold fixed_units. destruct (fixed_text_chars sign n p) as [k ->].
  destruct (chars_uint_zeros k (digits n) (N.to_uint n)
              (chars_uint_chars _)) as (u' & -> & Hn).
  now rewrite Hn, DecimalN.Unsigned.of_to.
Qed.

Lemma prefix_minus (c : ascii) (t : string) :
  String.prefix "-" (String c t) = Ascii.eqb c "-".
Proof.
  change (String.prefix "-" (String c t))
    with (if ascii_dec "-" c then String.prefix "" t else false).
  destruct (ascii_dec "-" c) as [<- | Hc].
  - now destruct t.
  - symmetry. apply Ascii.eqb_neq. congruence.
Qed.

(** A numeral written by [fixed_text] starts with a digit. *)
Lemma fixed_text_unsigned (n : N) (p : nat) :
  String.prefix "-" (fixed_text n p) = false.
Proof.
  assert (Hfirst : forall cs t,
             cs <> [] -> all_digits cs = true ->
             String.prefix "-" (text cs ++ t) = false).
  { intros [|c cs] t Hne Hd; [congruence |]. simpl in Hd.
    apply andb_true_iff in Hd as [Hc _].
    change (text (c :: cs) ++ t) with (String c (text cs ++ t)).
    rewrite prefix_minus.
    destruct (Ascii.eqb_spec c "-"); [subst; discriminate | reflexivity]. }
  destruct p as [|f]; unfold fixed_text.
  - pose proof (digits_nonempty n) as Hne. pose proof (digits_all n) as Hd.
    destruct (digits n) as [|c cs]; [congruence |]. simpl in Hd.
    apply andb_true_iff in Hd as [Hc _].
    change (text (c :: cs)) with (String c (text cs)).
    rewrite prefix_minus.
    destruct (Ascii.eqb_spec c "-"); [subst; discriminate | reflexivity].
  - set (m := (repeat "0"%char (S (S f) - List.length (digits n))
               ++ digits n)%list).
    assert (Dm : all_digits m = true).
    { unfold m. now rewrite all_digits_app, all_digits_zeros, digits_all. }
    assert (Lm : (S (S f) <= List.length m)%nat).
    { unfold m. rewrite length_app, repeat_length. lia. }
    apply Hfirst; [| now apply all_digits_firstn].
    intros H. apply (f_equal (@List.length ascii)) in H.
    rewrite length_firstn in H. simpl in H. lia.
Qed.

Lemma scaled_round_nearest (m : positive) (e : Z) (p : nat) :
  nearest_decimal m e p (scaled_round m e p).
Proof.
  unfold nearest_decimal, scaled_round.
  set (P := (Z.pos m * 10 ^ Z.of_nat p)%Z).
  assert (HP : (0 < P)%Z) by (unfold P; lia).
  destruct (Z.leb_spec 0 e) as [He | He].
  - rewrite Z.max_r, Z.max_l by lia. rewrite Z2N.id by (unfold P; lia).
    replace (Z.pos m * 2 ^ e * 10 ^ Z.of_nat p)%Z with (P * 2 ^ e)%Z
      by (unfold P; ring).
    change (2 ^ 0)%Z with 1%Z. lia.
  - rewrite Z.max_l, Z.max_r by lia.
    set (d := (2 ^ (- e))%Z).
    assert (Hd : (0 < d)%Z) by (unfold d; apply Z.pow_pos_nonneg; lia).
    change (2 ^ 0)%Z with 1%Z. rewrite Z.mul_1_r. fold P.
    rewrite Z2N.id by (apply Z.div_pos; lia).
    pose proof (Z.div_mod (2 * P + d) (2 * d) ltac:(lia)) as Hq.
    pose proof (Z.mod_pos_bound (2 * P + d) (2 * d) ltac:(lia)) as Hr.
    nia.
Qed.

End ReadFacts.

Section Rounding.
Context {host : Host}.

(** X2. For a finite number below 10^21 in magnitude, the two zeros
    included, and a decimal count [p] from 0 to 100, the text that
    [getRawValText] returns has [p] decimals and reads back as the
    decimal nearest to the exact value of the number, the one of larger
    magnitude when two are equally near.  The text starts with [-]
    exactly when the number is below zero: the text of [-0] is that of
    [0], without a sign. *)
Theorem getRawValText_nearest (val : value) (x d : float) (p : nat) :
  get val "raw" = Ok (VNum x) ->
  Num.fixed_range x = true ->
  Num.ToIntegerOrInfinity d = Num.Int (Z.of_nat p) -> (p <= 100)%nat ->
  exists text n,
    getRawValText val (VNum d) = Ok (VStr text)
    /\ Num.has_decimals p text = true
    /\ fixed_units text = Some n
    /\ match Prim2SF x with
       | S754_finite s m e =>
           nearest_decimal m e p n /\ String.prefix "-" text = s
       | _ => n = 0%N /\ String.prefix "-" text = false
       end.
Proof.
  intros Hr Hfr Hd Hp.
  assert (Hg : getRawValText val (VNum d) = Ok (VStr (Num.toFixed x p))).
  { rewrite (getRawValText_number _ _ _ Hr). simpl.
    now rewrite (Number_toFixed_in_range _ _ _ Hd Hp). }
  pose proof (NumFacts.toFixed_has_decimals x p Hfr) as Hdec.
  unfold Num.toFixed, Num.fixed_range in *.
  destruct (Prim2SF x) as [s | s | | s m e]; try discriminate.
  - exists (Num.fixed_text 0 p), 0%N.
    split; [exact Hg |]. split; [exact Hdec |].
    split; [apply (ReadFacts.fixed_units_fixed_text false) |].
    split; [reflexivity | apply ReadFacts.fixed_text_unsigned].
  - apply negb_true_iff in Hfr. rewrite Hfr in *.
    exists (Num.sign s ++ Num.fixed_text (Num.scaled_round m e p) p),
      (Num.scaled_round m e p).
    split; [exact Hg |]. split; [exact Hdec |].
    split; [apply ReadFacts.fixed_units_fixed_text |].
    split; [apply ReadFacts.scaled_round_nearest |].
    destruct s.
    + apply ReadFacts.prefix_minus.
    + apply ReadFacts.fixed_text_unsigned.
Qed.

End Rounding.

Lemma getRawValText_nearest_witness :
  (exists text,
     @getRawValText (serving VNull) (raw 1.005%float) (VNum 2%float)
     = Ok (VStr text)
     /\ fixed_units text = Some 100%N
     /\ String.prefix "-" text = false)
  /\ (exists text,
        @getRawValText (serving VNull) (raw (-0)%float) (VNum 2%float)
        = Ok (VStr text)
        /\ fixed_units text = Some 0%N
        /\ String.prefix "-" text = false).
Proof.
  split.
  - destruct (@getRawValText_nearest (serving VNull) (raw 1.005%float)
                1.005%float 2%float 2 eq_refl eq_refl eq_refl ltac:(lia))
      as (text & n & Hg & _ & Hu & _ & Hs).
    exists text. split; [exact Hg |].
    vm_compute in Hg. injection Hg as <-. split; reflexivity.
  - destruct (@getRawValText_nearest (serving VNull) (raw (-0)%float)
                (-0)%float 2%float 2 eq_refl eq_refl eq_refl ltac:(lia))
      as (text & n & Hg & _ & Hu & Hn & Hs).
    exists text. split; [exact Hg |]. rewrite Hu, Hn. split; [reflexivity |].
    exact Hs.
Defined.

(** Follows a sequence that throws down to the step that threw. *)
Ltac descend H :=
  match type of H with
  | Ok _ = Throw _ => discriminate H
  | bind (Ok _) _ = Throw _ => cbn [bind] in H
  | bind ?e _ = Throw _ =>
      let x := fresh "x" in
      let E := fresh "E" in
      apply bind_Throw in H as [H | (x & E & H)]; [| cbv beta in H]
  end.

(** Settles a step that can only throw a [TypeError]: a read, an
    operator or a conversion. *)
Ltac type_error H :=
  first
    [ apply get_Throw in H as [-> _]
    | apply get_index_Throw in H as [-> _]
    | apply op_minus_Throw in H as ->
    | apply op_times_Throw in H as ->
    | apply op_divide_Throw in H as ->
    | apply op_plus_string_Throw in H as ->
    | apply coerce_Throw in H as [-> _] ].

Section Rejections.
Context {host : Host}.

Lemma rejects_with_intro (url : string) (k : value -> result value)
  (e : exn) (thrown : value -> exn -> Prop) :
  (forall resp, k resp = Throw e -> thrown resp e) ->
  bind (response url) k = Throw e -> rejects_with url e thrown.
Proof.
  intros Hk H. unfold rejects_with, response in *.
  destruct (httpRequestP url) as [text|e1] eqn:Hh; cbn [bind] in *.
  - destruct (JSON_parse text) as [resp|e2] eqn:Hp; cbn [bind] in *.
    + right. right. exists resp. split; [reflexivity | auto].
    + right. left. exists text. split; [reflexivity | congruence].
  - left. congruence.
Qed.

Lemma envelope_Throw (kind : string) (resp : value)
  (k : value -> result value) (e : exn) :
  (chart <- get resp kind ;;
   error <- get chart "error" ;;
   if ToBoolean error then
     description <- get error "description" ;; throw_new_Error description
   else k chart)%js = Throw e ->
  e = TypeError
  \/ provider_error kind resp e
  \/ exists container error,
       get resp kind = Ok container /\ get container "error" = Ok error
       /\ ToBoolean error = false /\ k container = Throw e.
Proof.
  intros H. descend H; [apply get_Throw in H as [-> _]; now left |].
  descend H; [apply get_Throw in H as [-> _]; now left |].
  destruct (ToBoolean x0) eqn:Ht.
  - descend H; [apply get_Throw in H as [-> _]; now left |].
    unfold throw_new_Error, coerce in H.
    destruct (convertible x1) eqn:Hc; cbn [bind] in H; injection H as <-;
      [| now left].
    right. left. exists x0, x1.
    unfold error_envelope. rewrite E. cbn [bind]. auto 6.
  - right. right. eauto 7.
Qed.

Lemma map_indexed_Throw (f : value -> nat -> result value) (P : exn -> Prop)
  (elems : list value) :
  (forall t i e, f t i = Throw e -> P e) ->
  forall idx e, map_indexed f idx elems = Throw e -> P e.
Proof.
  intros Hf. induction elems as [|t rest IH]; intros idx e H; simpl in H.
  - discriminate.
  - descend H; [eauto |]. descend H; [eauto |]. discriminate.
Qed.

Lemma chart_bar_Throw (quote t : value) (i : nat) (e : exn) :
  chart_bar quote t i = Throw e -> e = TypeError.
Proof.
  unfold chart_bar. intros H.
  repeat (descend H; [type_error H; reflexivity |]).
  discriminate.
Qed.

Lemma chart_record_Throw (meta quote timestamp : value) (e : exn) :
  chart_record meta quote timestamp = Throw e -> e = TypeError.
Proof.
  unfold chart_record. intros H.
  do 10 (descend H; [type_error H; reflexivity |]).
  settle_ops. rewrite toFixed_times_2 in H. descend H.
  do 8 (descend H; [type_error H; reflexivity |]).
  descend H; [| discriminate].
  unfold Array_map in H. destruct timestamp; try (now injection H as <-).
  descend H; [| discriminate].
  eapply (map_indexed_Throw _ (fun e => e = TypeError)); [| exact H].
  intros t i e'. apply chart_bar_Throw.
Qed.

Lemma resolveChart_then_Throw (resp : value) (e : exn) :
  resolveChart_then resp = Throw e ->
  provider_error "chart" resp e \/ e = TypeError.
Proof.
  unfold resolveChart_then. intros H.
  apply envelope_Throw in H
    as [-> | [H | (chart & error & _ & _ & _ & H)]]; auto.
  right.
  do 8 (descend H; [type_error H; reflexivity |]).
  now apply chart_record_Throw in H.
Qed.

(** X4. [resolveChart] rejects with the rejection of the request, with
    what [JSON.parse] throws, with the [Error] that carries the
    provider's description (the error envelope is populated and its
    description converts to a string) or with a [TypeError], and with
    nothing else: never with a [RangeError], since [toFixed(2)] accepts
    its argument.  The statement bounds the exception and not its
    cause: a [TypeError] comes from a read of [undefined] or [null],
    from a [timestamp] without [map] or from a value that does not
    convert. *)
Theorem resolveChart_rejections
  (symbol range interval : string) (e : exn) :
  resolveChart symbol range interval = Throw e ->
  rejects_with (chart_url symbol range interval) e
    (fun resp e => provider_error "chart" resp e \/ e = TypeError).
Proof.
  rewrite resolveChart_response. apply rejects_with_intro.
  intros resp. apply resolveChart_then_Throw.
Qed.

End Rejections.

Lemma resolveChart_rejections_witness :
  @rejects_with (serving (failure "chart" "No data found"))
    (chart_url "ACME" "1d" "1m") (Error "No data found")
    (fun resp e =>
       @provider_error (serving (failure "chart" "No data found"))
         "chart" resp e
       \/ e = TypeError).
Proof.
  exact (@resolveChart_rejections (serving (failure "chart" "No data found"))
           "ACME" "1d" "1m" (Error "No data found") eq_refl).
Defined.

Section QuoteRejections.
Context {host : Host}.

Lemma priceHint_decimals_Throw (r : value) (e : exn) :
  priceHint_decimals r = Throw e -> e = TypeError.
Proof.
  unfold priceHint_decimals. intros H.
  descend H; [now apply get_Throw in H as [-> _] |].
  destruct (ToBoolean x) eqn:Ht; [| discriminate].
  rewrite (get_truthy _ _ Ht) in H. discriminate.
Qed.

Lemma fixed_block_Throw (guard target d : value) (e : exn) :
  (if ToBoolean guard then (raw <- get target "raw" ;; toFixed raw d)%js
   else Ok VNull) = Throw e ->
  e = TypeError \/ (e = RangeError /\ out_of_range d).
Proof.
  destruct (ToBoolean guard); [| discriminate]. intros H.
  descend H; [apply get_Throw in H as [-> _]; now left |].
  apply toFixed_Throw in H as [[-> _] | [-> H]]; auto.
Qed.

Lemma low_block_Throw (guard p d : value) (e : exn) :
  (if ToBoolean guard then
     (low <- get p "regularMarketDayLow" ;;
      raw <- get low "raw" ;; toFixed raw d)%js
   else Ok VNull) = Throw e ->
  e = TypeError \/ (e = RangeError /\ out_of_range d).
Proof.
  destruct (ToBoolean guard); [| discriminate]. intros H.
  descend H; [apply get_Throw in H as [-> _]; now left |].
  descend H; [apply get_Throw in H as [-> _]; now left |].
  apply toFixed_Throw in H as [[-> _] | [-> H]]; auto.
Qed.

Lemma percent_block_Throw (v : value) (e : exn) :
  (if ToBoolean v then
     (raw <- get v "raw" ;;
      percent <- op_times raw (VNum 100%float) ;;
      toFixed percent (VNum 2%float))%js
   else Ok VNull) = Throw e -> e = TypeError.
Proof. apply percent_if_Throw. Qed.

Lemma address2_block_Throw (v : value) (e : exn) :
  (if ToBoolean v then op_plus_string v ", " else Ok (VStr "")) = Throw e ->
  e = TypeError.
Proof.
  destruct (ToBoolean v); [apply op_plus_string_Throw | discriminate].
Qed.

Lemma field_block_Throw (v : value) (k : string) (e : exn) :
  (if ToBoolean v then get v k else Ok VNull) = Throw e -> False.
Proof.
  intros H. change (field_if v k = Throw e) in H.
  rewrite field_if_eq in H. discriminate.
Qed.

Lemma getRawValText_Throw (val decimals : value) (e : exn) :
  getRawValText val decimals = Throw e ->
  e = RangeError /\ out_of_range decimals.
Proof.
  unfold getRawValText. intros H.
  descend H; [now apply field_block_Throw in H |].
  destruct x; simpl in H; try discriminate.
  destruct decimals; simpl in H; try discriminate.
  now apply Number_toFixed_number_Throw in H.
Qed.

(** Finds the step that threw among the reads and the conditionals of
    the resolvers. *)
Ltac blame H :=
  first
    [ type_error H; now left
    | apply fixed_block_Throw in H as [-> | [-> H]]; [now left | now right]
    | apply low_block_Throw in H as [-> | [-> H]]; [now left | now right]
    | apply getRawValText_Throw in H as [-> H]; now right
    | apply percent_block_Throw in H as ->; now left
    | apply address2_block_Throw in H as ->; now left
    | now apply field_block_Throw in H ].

Lemma resolveQuote_then_Throw (resp : value) (e : exn) :
  resolveQuote_then resp = Throw e ->
  provider_error "quoteSummary" resp e
  \/ e = TypeError
  \/ (e = RangeError
      /\ exists p decimals,
           module_of "price" resp = Ok p
           /\ priceHint_decimals p = Ok decimals
           /\ out_of_range decimals).
Proof.
  unfold resolveQuote_then. intros H.
  apply envelope_Throw in H
    as [-> | [H | (summary & error & Hs & _ & _ & H)]]; auto.
  right.
  descend H; [apply get_Throw in H as [-> _]; now left |].
  descend H; [apply get_index_Throw in H as [-> _]; now left |].
  descend H; [apply get_Throw in H as [-> _]; now left |].
  descend H; [apply priceHint_decimals_Throw in H as ->; now left |].
  assert (Hm : module_of "price" resp = Ok x1)
    by (unfold module_of, first_result; now replay).
  assert (He : e = TypeError \/ (e = RangeError /\ out_of_range x2)).
  { repeat (descend H; [blame H |]). discriminate H. }
  destruct He as [-> | [-> He]]; [now left |]. right. eauto 7.
Qed.

(** X5. [resolveQuote] rejects with the rejection of the request, with
    what [JSON.parse] throws, with the [Error] that carries the
    provider's description, with a [TypeError] or with a [RangeError],
    and with nothing else; the [RangeError] occurs only when the price
    hint resolves to a decimal count that [toFixed] refuses.  The
    cause of a [TypeError] is not stated. *)
Theorem resolveQuote_rejections (symbol : string) (e : exn) :
  resolveQuote symbol = Throw e ->
  rejects_with (quote_url symbol) e
    (fun resp e =>
       provider_error "quoteSummary" resp e
       \/ e = TypeError
       \/ (e = RangeError
           /\ exists p decimals,
                module_of "price" resp = Ok p
                /\ priceHint_decimals p = Ok decimals
                /\ out_of_range decimals)).
Proof.
  rewrite resolveQuote_response. apply rejects_with_intro.
  intros resp. apply resolveQuote_then_Throw.
Qed.

Lemma summaryDetail_of_Throw (d : value) (e : exn) :
  summaryDetail_of d = Throw e ->
  e = TypeError
  \/ (e = RangeError
      /\ exists decimals,
           priceHint_decimals d = Ok decimals /\ out_of_range decimals).
Proof.
  unfold summaryDetail_of. intros H.
  descend H; [apply priceHint_decimals_Throw in H as ->; now left |].
  assert (He : e = TypeError \/ (e = RangeError /\ out_of_range x)).
  { repeat (descend H; [blame H |]). discriminate H. }
  destruct He as [-> | [-> He]]; [now left |]. right. eauto.
Qed.

Lemma summaryProfile_of_Throw (p : value) (e : exn) :
  summaryProfile_of p = Throw e -> e = TypeError.
Proof.
  unfold summaryProfile_of. intros H.
  assert (He : e = TypeError \/ False).
  { repeat (descend H; [blame H |]). discriminate H. }
  now destruct He.
Qed.

Lemma resolveProfile_then_Throw (symbol : string) (resp : value) (e : exn) :
  resolveProfile_then symbol resp = Throw e ->
  provider_error "quoteSummary" resp e
  \/ e = TypeError
  \/ (e = RangeError
      /\ exists d decimals,
           module_of "summaryDetail" resp = Ok d
           /\ priceHint_decimals d = Ok decimals
           /\ out_of_range decimals).
Proof.
  unfold resolveProfile_then. intros H.
  apply envelope_Throw in H
    as [-> | [H | (summary & error & Hs & _ & _ & H)]]; auto.
  right.
  descend H; [apply get_Throw in H as [-> _]; now left |].
  descend H; [apply get_index_Throw in H as [-> _]; now left |].
  descend H; [apply get_Throw in H as [-> _]; now left |].
  assert (Hm : module_of "summaryDetail" resp = Ok x1)
    by (unfold module_of, first_result; now replay).
  descend H.
  { apply summaryDetail_of_Throw in H as [-> | [-> (decimals & Hd & Hr)]];
      [now left | right; eauto 7]. }
  left. descend H; [| discriminate H].
  destruct (isIndex symbol).
  - descend H; [now apply get_Throw in H as [-> _] |].
    descend H; [now apply get_Throw in H as [-> _] |]. discriminate H.
  - descend H; [now apply get_Throw in H as [-> _] |].
    descend H; [now apply summaryProfile_of_Throw in H |]. discriminate H.
Qed.

(** X6. [resolveProfile] rejects with the rejection of the request,
    with what [JSON.parse] throws, with the [Error] that carries the
    provider's description, with a [TypeError] or with a [RangeError],
    and with nothing else; the [RangeError] occurs only when the price
    hint of [summaryDetail] resolves to a decimal count that [toFixed]
    refuses.  The cause of a [TypeError] is not stated. *)
Theorem resolveProfile_rejections (symbol : string) (e : exn) :
  resolveProfile symbol = Throw e ->
  rejects_with (profile_url symbol) e
    (fun resp e =>
       provider_error "quoteSummary" resp e
       \/ e = TypeError
       \/ (e = RangeError
           /\ exists d decimals,
                module_of "summaryDetail" resp = Ok d
                /\ priceHint_decimals d = Ok decimals
                /\ out_of_range decimals)).
Proof.
  rewrite resolveProfile_response. apply rejects_with_intro.
  intros resp. apply resolveProfile_then_Throw.
Qed.

End QuoteRejections.

Lemma resolveQuote_rejections_witness :
  @rejects_with (serving (sample_price wide_hint))
    (quote_url "ACME") RangeError
    (fun resp e =>
       @provider_error (serving (sample_price wide_hint))
         "quoteSummary" resp e
       \/ e = TypeError
       \/ (e = RangeError
           /\ exists p decimals,
                module_of "price" resp = Ok p
                /\ priceHint_decimals p = Ok decimals
                /\ @out_of_range (serving (sample_price wide_hint))
                     decimals)).
Proof.
  exact (@resolveQuote_rejections (serving (sample_price wide_hint))
           "ACME" RangeError eq_refl).
Defined.

Lemma resolveProfile_rejections_witness :
  @rejects_with (serving profile_only)
    (profile_url "ACME") TypeError
    (fun resp e =>
       @provider_error (serving profile_only) "quoteSummary" resp e
       \/ e = TypeError
       \/ (e = RangeError
           /\ exists d decimals,
                module_of "summaryDetail" resp = Ok d
                /\ priceHint_decimals d = Ok decimals
                /\ @out_of_range (serving profile_only) decimals)).
Proof.
  exact (@resolveProfile_rejections (serving profile_only)
           "ACME" TypeError eq_refl).
Defined.

Section Shapes.
Context {host : Host}.

Lemma not_provider_error (kind : string) (resp error : value) (e : exn) :
  error_envelope kind resp = Ok error -> ToBoolean error = false ->
  ~ provider_error kind resp e.
Proof.
  intros He Hf (error' & d & He' & Ht & _). rewrite He in He'.
  injection He' as <-. congruence.
Qed.

(** The first result of a list that is empty, [null] or absent cannot
    be read from. *)
Lemma no_first_result (A : Type) (results : value) (k : string)
  (rest : value -> value -> result A) :
  results = VArr [] \/ nullish results = true ->
  (result <- get_index results 0 ;; x <- get result k ;; rest result x)%js
  = Throw TypeError.
Proof.
  intros [-> | Hn]; [reflexivity |].
  destruct results; try discriminate; reflexivity.
Qed.

(** X7. A response without error whose result list is empty, [null] or
    absent makes every resolver reject with a [TypeError]. *)
Theorem empty_result_rejected
  (symbol range interval : string) (resp error results : value) :
  ToBoolean error = false ->
  results = VArr [] \/ nullish results = true ->
  (response (chart_url symbol range interval) = Ok resp ->
   error_envelope "chart" resp = Ok error ->
   get2 resp "chart" "result" = Ok results ->
   resolveChart symbol range interval = Throw TypeError)
  /\ (response (quote_url symbol) = Ok resp ->
      error_envelope "quoteSummary" resp = Ok error ->
      get2 resp "quoteSummary" "result" = Ok results ->
      resolveQuote symbol = Throw TypeError)
  /\ (response (profile_url symbol) = Ok resp ->
      error_envelope "quoteSummary" resp = Ok error ->
      get2 resp "quoteSummary" "result" = Ok results ->
      resolveProfile symbol = Throw TypeError).
Proof.
  intros Hf Hr. repeat split; intros Hresp He Hres.
  - rewrite resolveChart_response, Hresp. cbn [bind].
    unfold resolveChart_then. open_paths. replay.
    now apply no_first_result.
  - rewrite resolveQuote_response, Hresp. cbn [bind].
    unfold resolveQuote_then. open_paths. replay.
    now apply no_first_result.
  - rewrite resolveProfile_response, Hresp. cbn [bind].
    unfold resolveProfile_then. open_paths. replay.
    now apply no_first_result.
Qed.

Lemma chart_record_total (meta quote timestamp regular : value) :
  get2 meta "currentTradingPeriod" "regular" = Ok regular ->
  nullish regular = false ->
  convertible (prop meta "regularMarketPrice") = true ->
  convertible (prop meta "previousClose") = true ->
  convertible (prop meta "regularMarketTime") = true ->
  forall bars,
    Array_map timestamp (chart_bar quote) = Ok bars ->
    exists r, chart_record meta quote timestamp = Ok r
              /\ get r "timeseries" = Ok bars.
Proof.
  intros Hreg Hn Hprice Hprevious Htime bars Hb.
  unfold get2 in Hreg. pops Hreg.
  pose proof (get_Ok_nullish _ _ _ E) as Hm.
  unfold chart_record.
  rewrite !(get_Ok meta _ Hm). cbn [bind].
  rewrite !(op_minus_convertible _ _ Hprice Hprevious). cbn [bind].
  rewrite op_divide_convertible by (assumption || reflexivity).
  cbn [bind].
  rewrite op_times_convertible by reflexivity. cbn [bind].
  rewrite toFixed_times_2. cbn [bind].
  rewrite op_times_convertible by (assumption || reflexivity).
  cbn [bind].
  rewrite (prop_get _ _ _ E), Hreg. cbn [bind].
  rewrite !(get_Ok regular _ Hn), Hb. cbn [bind].
  eexists. split; reflexivity.
Qed.

(** X8. A chart without timestamps, whose prices and market time
    convert to numbers (as numbers, strings, booleans, [null] and
    [undefined] do), is fulfilled with an empty timeseries whatever
    [indicators.quote[0]] holds: the quote is read once per timestamp
    only. *)
Theorem resolveChart_no_timestamps
  (symbol range interval : string)
  (resp error meta regular quote : value) :
  response (chart_url symbol range interval) = Ok resp ->
  error_envelope "chart" resp = Ok error ->
  ToBoolean error = false ->
  chart_part "meta" resp = Ok meta ->
  get2 meta "currentTradingPeriod" "regular" = Ok regular ->
  nullish regular = false ->
  chart_quote resp = Ok quote ->
  chart_part "timestamp" resp = Ok (VArr []) ->
  convertible (prop meta "regularMarketPrice") = true ->
  convertible (prop meta "previousClose") = true ->
  convertible (prop meta "regularMarketTime") = true ->
  exists r,
    resolveChart symbol range interval = Ok r
    /\ get r "timeseries" = Ok (VArr []).
Proof.
  intros Hresp He Hf Hm Hreg Hn Hq Ht Hprice Hprevious Htime.
  destruct (chart_record_total meta quote (VArr []) regular Hreg Hn
              Hprice Hprevious Htime (VArr []) eq_refl) as (r & Hr & Hts).
  exists r. split; [| exact Hts].
  rewrite resolveChart_response, Hresp. cbn [bind].
  unfold resolveChart_then. open_paths. replay.
  rewrite get_array_length. cbn [bind]. exact Hr.
Qed.

Lemma resolveChart_then_TypeError (resp error : value) :
  error_envelope "chart" resp = Ok error -> ToBoolean error = false ->
  (forall r, resolveChart_then resp <> Ok r) ->
  resolveChart_then resp = Throw TypeError.
Proof.
  intros He Hf Hno. destruct (resolveChart_then resp) as [r|e] eqn:H.
  - now elim (Hno r).
  - apply resolveChart_then_Throw in H as [H | ->]; [| reflexivity].
    now elim (not_provider_error _ _ _ _ He Hf H).
Qed.

(** X9. As soon as there is a timestamp, a chart whose quote, or one
    of whose five sequences, is [undefined] or [null] is rejected with
    a [TypeError]: only entries inside a sequence may be missing. *)
Theorem resolveChart_absent_sequence
  (symbol range interval name : string)
  (resp error quote t : value) (ts : list value) :
  response (chart_url symbol range interval) = Ok resp ->
  error_envelope "chart" resp = Ok error ->
  ToBoolean error = false ->
  chart_part "timestamp" resp = Ok (VArr (t :: ts)) ->
  chart_quote resp = Ok quote ->
  In name indicators ->
  nullish quote = true \/ nullish (prop quote name) = true ->
  resolveChart symbol range interval = Throw TypeError.
Proof.
  intros Hresp He Hf Ht Hq Hin Habs.
  rewrite resolveChart_response, Hresp. cbn [bind].
  apply (resolveChart_then_TypeError _ _ He Hf). intros r H.
  apply resolveChart_then_Ok in H
    as (error' & meta & quote' & timestamp & _ & _ & _ & Hq' & Ht' & H).
  rewrite Hq in Hq'. injection Hq' as <-.
  rewrite Ht in Ht'. injection Ht' as <-.
  apply chart_record_Ok in H
    as (? & ? & ? & ? & ? & ? & ? & ? & ? & ? & ? & ? & ? & bars & _ & _
        & _ & _ & _ & _ & _ & _ & _ & _ & _ & _ & _ & Hb & _).
  unfold Array_map in Hb. pops Hb.
  apply map_indexed_Ok in E as [_ Hbar].
  destruct (Hbar 0%nat t eq_refl) as (bar & _ & Hbar0).
  assert (Hname : exists o oi,
             get quote name = Ok o /\ get_index o 0 = Ok oi).
  { unfold chart_bar in Hbar0. simpl in Hin. pops Hbar0.
    repeat (destruct Hin as [<- | Hin]; [eauto |]). destruct Hin. }
  destruct Hname as (o & oi & Ho & Hoi).
  destruct Habs as [Hnq | Hno].
  - rewrite (get_nullish_Throw _ _ Hnq) in Ho. discriminate.
  - rewrite (prop_get _ _ _ Ho) in Hno.
    destruct o; try discriminate.
Qed.

(** X10. A chart whose [timestamp] is not an array is rejected with a
    [TypeError]. *)
Theorem resolveChart_timestamp_not_array
  (symbol range interval : string) (resp error timestamp : value) :
  response (chart_url symbol range interval) = Ok resp ->
  error_envelope "chart" resp = Ok error ->
  ToBoolean error = false ->
  chart_part "timestamp" resp = Ok timestamp ->
  (forall elems, timestamp <> VArr elems) ->
  resolveChart symbol range interval = Throw TypeError.
Proof.
  intros Hresp He Hf Ht Hna.
  rewrite resolveChart_response, Hresp. cbn [bind].
  apply (resolveChart_then_TypeError _ _ He Hf). intros r H.
  apply resolveChart_then_Ok in H
    as (error' & meta & quote' & timestamp' & _ & _ & _ & _ & Ht' & H).
  rewrite Ht in Ht'. injection Ht' as <-.
  apply chart_record_Ok in H
    as (? & ? & ? & ? & ? & ? & ? & ? & ? & ? & ? & ? & ? & bars & _ & _
        & _ & _ & _ & _ & _ & _ & _ & _ & _ & _ & _ & Hb & _).
  destruct timestamp; try discriminate. now elim (Hna elems).
Qed.

End Shapes.

Lemma empty_result_rejected_witness :
  @resolveChart (serving (no_result "chart")) "ACME" "1d" "1m"
  = Throw TypeError
  /\ @resolveQuote (serving (no_result "quoteSummary")) "ACME"
     = Throw TypeError
  /\ @resolveProfile (serving (no_result "quoteSummary")) "ACME"
     = Throw TypeError.
Proof.
  split; [| split].
  - exact (proj1 (@empty_result_rejected (serving (no_result "chart"))
                    "ACME" "1d" "1m" (no_result "chart") VNull (VArr [])
                    eq_refl (or_introl eq_refl))
             eq_refl eq_refl eq_refl).
  - exact (proj1 (proj2 (@empty_result_rejected
                           (serving (no_result "quoteSummary"))
                           "ACME" "1d" "1m" (no_result "quoteSummary")
                           VNull (VArr []) eq_refl (or_introl eq_refl)))
             eq_refl eq_refl eq_refl).
  - exact (proj2 (proj2 (@empty_result_rejected
                           (serving (no_result "quoteSummary"))
                           "ACME" "1d" "1m" (no_result "quoteSummary")
                           VNull (VArr []) eq_refl (or_introl eq_refl)))
             eq_refl eq_refl eq_refl).
Defined.

Lemma resolveChart_no_timestamps_witness :
  exists r,
    @resolveChart
      (serving (chart_from (sample_meta 105%float 100%float) (VArr []) []))
      "ACME" "1d" "1m" = Ok r
    /\ get r "timeseries" = Ok (VArr []).
Proof.
  exact (@resolveChart_no_timestamps
           (serving (chart_from (sample_meta 105%float 100%float) (VArr []) []))
           "ACME" "1d" "1m" _ VNull (sample_meta 105%float 100%float)
           sample_regular VUndefined
           eq_refl eq_refl eq_refl eq_refl eq_refl eq_refl eq_refl eq_refl
           eq_refl eq_refl eq_refl).
Defined.

Lemma resolveChart_absent_sequence_witness :
  @resolveChart
    (serving (chart_from (sample_meta 105%float 100%float)
                (VArr sample_timestamps) [ open_only ]))
    "ACME" "1d" "1m" = Throw TypeError.
Proof.
  apply (@resolveChart_absent_sequence
           (serving (chart_from (sample_meta 105%float 100%float)
                       (VArr sample_timestamps) [ open_only ]))
           "ACME" "1d" "1m" "close" _ VNull open_only
           (VNum 1599831000%float)
           (map VNum [ 1599831060; 1599831120 ]%float)
           eq_refl eq_refl eq_refl eq_refl eq_refl).
  - simpl. auto.
  - right. reflexivity.
Defined.

Lemma resolveChart_timestamp_not_array_witness :
  @resolveChart
    (serving (chart_from (sample_meta 105%float 100%float) VNull
                [ sample_indicators ]))
    "ACME" "1d" "1m" = Throw TypeError.
Proof.
  apply (@resolveChart_timestamp_not_array
           (serving (chart_from (sample_meta 105%float 100%float) VNull
                       [ sample_indicators ]))
           "ACME" "1d" "1m" _ VNull VNull eq_refl eq_refl eq_refl eq_refl).
  intros elems. discriminate.
Defined.

Section ChartEdges.
Context {host : Host}.

(** X11. A chart whose [meta] lacks [currentTradingPeriod], or whose
    trading period lacks [regular], is rejected with a [TypeError]. *)
Theorem resolveChart_no_trading_period
  (symbol range interval : string) (resp error meta : value) :
  response (chart_url symbol range interval) = Ok resp ->
  error_envelope "chart" resp = Ok error ->
  ToBoolean error = false ->
  chart_part "meta" resp = Ok meta ->
  nullish (prop meta "currentTradingPeriod") = true
  \/ nullish (prop (prop meta "currentTradingPeriod") "regular") = true ->
  resolveChart symbol range interval = Throw TypeError.
Proof.
  intros Hresp He Hf Hm Habs.
  rewrite resolveChart_response, Hresp. cbn [bind].
  apply (resolveChart_then_TypeError _ _ He Hf). intros r H.
  apply resolveChart_then_Ok in H
    as (error' & meta' & quote & timestamp & _ & _ & Hm' & _ & _ & H).
  rewrite Hm in Hm'. injection Hm' as <-.
  apply chart_record_Ok in H
    as (? & ? & ? & ? & ? & ? & ? & ? & ? & period & regular & ? & ? & ?
        & _ & _ & _ & _ & _ & _ & _ & _ & _ & Hp & Hr & Hs & _).
  apply prop_get in Hp as Hp'. rewrite Hp' in Habs.
  apply prop_get in Hr as Hr'. rewrite Hr' in Habs.
  apply get_Ok_nullish in Hr. apply get_Ok_nullish in Hs.
  destruct Habs; congruence.
Qed.

(** X12. [updatedDateTime] is the date of [regularMarketTime * 1000]
    milliseconds, in a chart and in a quote.  A missing time does not
    make the resolver fail: the date is then invalid (its time value is
    NaN), and a [null] time gives the epoch. *)
Theorem updatedDateTime_of_time
  (symbol range interval : string) (resp r holder : value) :
  let time := prop holder "regularMarketTime" in
  (response (chart_url symbol range interval) = Ok resp
   /\ resolveChart symbol range interval = Ok r
   /\ chart_part "meta" resp = Ok holder)
  \/ (response (quote_url symbol) = Ok resp
      /\ resolveQuote symbol = Ok r
      /\ module_of "price" resp = Ok holder) ->
  get r "updatedDateTime" = Ok (new_Date (times time (VNum 1000%float)))
  /\ (time = VUndefined -> get r "updatedDateTime" = Ok (VDate Num.nan))
  /\ (time = VNull -> get r "updatedDateTime" = Ok (VDate 0%float)).
Proof.
  intros time H.
  assert (Hd : get r "updatedDateTime"
               = Ok (new_Date (times time (VNum 1000%float)))).
  { destruct H as [(Hresp & H & Hm) | (Hresp & H & Hp)].
    - rewrite resolveChart_response, Hresp in H. cbn [bind] in H.
      apply resolveChart_then_Ok in H
        as (error' & meta' & quote & timestamp & _ & _ & Hm' & _ & _ & H).
      rewrite Hm in Hm'. injection Hm' as <-.
      apply chart_record_Ok in H
        as (? & ? & ? & ? & ? & ? & tm & ? & ? & ? & ? & ? & ? & ?
            & _ & _ & _ & _ & _ & _ & Ht & _ & _ & _ & _ & _ & _ & _ & ->).
      unfold time. now rewrite (prop_get _ _ _ Ht).
    - destruct (resolveQuote_Ok _ _ _ _ Hresp H Hp) as [Ht Hk].
      apply resolveQuote_then_Ok in Ht
        as (p' & decimals & ? & ? & ? & ? & ? & ? & ? & ? & ? & Hp' & _ & _
            & _ & _ & _ & _ & _ & _ & _ & _ & ->).
      rewrite Hp in Hp'. injection Hp' as <-. reflexivity. }
  split; [exact Hd |]. rewrite Hd.
  split; intros ->; reflexivity.
Qed.

Lemma toFixed_not_number (x : float) (p : nat) :
  Num.is_finite x = false -> Num.toFixed x p = Num.toString x.
Proof.
  unfold Num.is_finite, Num.toFixed.
  now destruct (Prim2SF x).
Qed.

(** The percentage over a previous close of zero. *)
Lemma percentage_over_zero (price previous : float) :
  is_zero previous = true -> Num.is_finite price = true ->
  Prim2SF (((price - previous) / previous) * 100)%float
  = if is_zero price then S754_nan
    else S754_infinity (xorb (negative price) (negative previous)).
Proof.
  unfold is_zero, Num.is_finite, negative.
  rewrite FloatAxioms.mul_spec, FloatAxioms.div_spec, FloatAxioms.sub_spec.
  destruct (Prim2SF previous) as [sp | | |]; try discriminate. intros _.
  destruct (Prim2SF price) as [s | | | s m e]; try discriminate; intros _.
  - now destruct s, sp.
  - now destruct s, sp.
Qed.

(** X13. A previous close of zero does not make [resolveChart] fail:
    the division is carried out, and [priceChangePercentage] is the
    text ["Infinity"] or ["-Infinity"], or ["NaN"] when the price is
    zero as well. *)
Theorem resolveChart_zero_previousClose
  (symbol range interval : string) (resp r meta : value)
  (price previous : float) :
  response (chart_url symbol range interval) = Ok resp ->
  resolveChart symbol range interval = Ok r ->
  chart_part "meta" resp = Ok meta ->
  get meta "regularMarketPrice" = Ok (VNum price) ->
  get meta "previousClose" = Ok (VNum previous) ->
  is_zero previous = true ->
  Num.is_finite price = true ->
  get r "priceChangePercentage"
  = Ok (VStr (if is_zero price then "NaN"
              else if xorb (negative price) (negative previous)
                   then "-Infinity" else "Infinity")).
Proof.
  intros Hresp H Hm Hp Hc Hz Hfin.
  rewrite resolveChart_response, Hresp in H. cbn [bind] in H.
  apply resolveChart_then_Ok in H
    as (error' & meta' & quote & timestamp & _ & _ & Hm' & _ & _ & H).
  rewrite Hm in Hm'. injection Hm' as <-.
  apply chart_record_Ok in H
    as (? & ? & ? & ? & price' & previous' & ? & ? & ? & ? & ? & ? & ? & ?
        & _ & _ & _ & _ & Hp' & Hc' & _ & _ & _ & _ & _ & _ & _ & _ & ->).
  rewrite Hp in Hp'. injection Hp' as <-.
  rewrite Hc in Hc'. injection Hc' as <-.
  cbn [ToNumber]. unfold get, chart_fields, object_literal. cbn.
  do 2 f_equal.
  pose proof (percentage_over_zero price previous Hz Hfin) as Hs.
  rewrite toFixed_not_number.
  - unfold Num.toString. rewrite Hs.
    destruct (is_zero price); [reflexivity |].
    now destruct (xorb (negative price) (negative previous)).
  - unfold Num.is_finite. rewrite Hs. now destruct (is_zero price).
Qed.

(** The change and the percentage when the price or the previous close
    is no number. *)
Lemma change_of_nan (price previous : float) :
  Prim2SF price = S754_nan \/ Prim2SF previous = S754_nan ->
  (price - previous)%float = Num.nan
  /\ Prim2SF (((price - previous) / previous) * 100)%float = S754_nan.
Proof.
  intros H. split.
  - apply Prim2SF_inj. rewrite FloatAxioms.sub_spec.
    destruct H as [-> | ->]; [reflexivity |].
    now destruct (Prim2SF price).
  - rewrite FloatAxioms.mul_spec, FloatAxioms.div_spec, FloatAxioms.sub_spec.
    destruct H as [-> | ->]; [reflexivity |].
    now destruct (Prim2SF price).
Qed.

(** X21. A chart whose [meta] lacks [regularMarketPrice] or
    [previousClose] is still fulfilled as far as the prices go:
    [priceChange] is NaN and [priceChangePercentage] the text ["NaN"]. *)
Theorem resolveChart_missing_price
  (symbol range interval : string) (resp r meta : value) :
  response (chart_url symbol range interval) = Ok resp ->
  resolveChart symbol range interval = Ok r ->
  chart_part "meta" resp = Ok meta ->
  prop meta "regularMarketPrice" = VUndefined
  \/ prop meta "previousClose" = VUndefined ->
  get r "priceChange" = Ok (VNum Num.nan)
  /\ get r "priceChangePercentage" = Ok (VStr "NaN").
Proof.
  intros Hresp H Hm Habs.
  rewrite resolveChart_response, Hresp in H. cbn [bind] in H.
  apply resolveChart_then_Ok in H
    as (error' & meta' & quote & timestamp & _ & _ & Hm' & _ & _ & H).
  rewrite Hm in Hm'. injection Hm' as <-.
  apply chart_record_Ok in H
    as (? & ? & ? & ? & price & previous & ? & ? & ? & ? & ? & ? & ? & ?
        & _ & _ & _ & _ & Hp & Hc & _ & _ & _ & _ & _ & _ & _ & _ & ->).
  apply prop_get in Hp. apply prop_get in Hc. rewrite Hp, Hc in Habs.
  destruct (change_of_nan (ToNumber price) (ToNumber previous))
    as [Hn Hs].
  { destruct Habs as [-> | ->]; [left | right]; reflexivity. }
  split.
  - transitivity
      (Ok (VNum (PrimFloat.sub (ToNumber price) (ToNumber previous))));
      [reflexivity | now rewrite Hn].
  - transitivity
      (Ok (VStr (Num.toFixed
                   (PrimFloat.mul
                      (PrimFloat.div
                         (PrimFloat.sub (ToNumber price) (ToNumber previous))
                         (ToNumber previous))
                      100%float)
                   2)));
      [reflexivity |].
    do 2 f_equal. rewrite toFixed_not_number.
    + unfold Num.toString. now rewrite Hs.
    + unfold Num.is_finite. now rewrite Hs.
Qed.

(** The values that a fulfilled chart has computed with convert. *)
Lemma chart_record_converts (meta quote timestamp r : value) :
  chart_record meta quote timestamp = Ok r ->
  convertible (prop meta "regularMarketPrice") = true
  /\ convertible (prop meta "previousClose") = true
  /\ convertible (prop meta "regularMarketTime") = true.
Proof.
  unfold chart_record. intros H. pops H.
  repeat match goal with
    | E : get meta _ = Ok ?x |- _ => apply prop_get in E; subst x
    end.
  repeat match goal with
    | E : op_minus _ _ = Ok _ |- _ => apply op_minus_Ok in E as (_ & ? & ?)
    | E : op_times (prop meta _) _ = Ok _ |- _ =>
        apply op_times_Ok in E as (_ & ? & _)
    end.
  auto.
Qed.

(** X22. A chart without error whose [regularMarketPrice],
    [previousClose] or [regularMarketTime] does not convert to a
    number (an object with a [toString] of its own, as [JSON.parse] can
    build) is rejected with a [TypeError]: the arithmetic of lines 65
    to 67 throws. *)
Theorem resolveChart_not_convertible
  (symbol range interval : string) (resp error meta : value) :
  response (chart_url symbol range interval) = Ok resp ->
  error_envelope "chart" resp = Ok error ->
  ToBoolean error = false ->
  chart_part "meta" resp = Ok meta ->
  convertible (prop meta "regularMarketPrice") = false
  \/ convertible (prop meta "previousClose") = false
  \/ convertible (prop meta "regularMarketTime") = false ->
  resolveChart symbol range interval = Throw TypeError.
Proof.
  intros Hresp He Hf Hm Hno.
  rewrite resolveChart_response, Hresp. cbn [bind].
  apply (resolveChart_then_TypeError _ _ He Hf). intros r H.
  apply resolveChart_then_Ok in H
    as (error' & meta' & quote & timestamp & _ & _ & Hm' & _ & _ & H).
  rewrite Hm in Hm'. injection Hm' as <-.
  apply chart_record_converts in H as (H1 & H2 & H3).
  destruct Hno as [Hno | [Hno | Hno]]; congruence.
Qed.

End ChartEdges.

Lemma resolveChart_no_trading_period_witness :
  @resolveChart (serving (chart_from bare_meta (VArr []) []))
    "ACME" "1d" "1m" = Throw TypeError.
Proof.
  exact (@resolveChart_no_trading_period
           (serving (chart_from bare_meta (VArr []) []))
           "ACME" "1d" "1m" _ VNull bare_meta
           eq_refl eq_refl eq_refl eq_refl (or_introl eq_refl)).
Defined.

Lemma updatedDateTime_of_time_witness :
  exists r,
    @resolveChart (serving (chart_from untimed_meta (VArr []) []))
      "ACME" "1d" "1m" = Ok r
    /\ get r "updatedDateTime" = Ok (VDate Num.nan).
Proof.
  eexists. split; [reflexivity |].
  apply (@updatedDateTime_of_time
           (serving (chart_from untimed_meta (VArr []) []))
           "ACME" "1d" "1m" (chart_from untimed_meta (VArr []) []) _
           untimed_meta (or_introl (conj eq_refl (conj eq_refl eq_refl)))).
  reflexivity.
Defined.

Lemma resolveChart_zero_previousClose_witness :
  exists r,
    @resolveChart
      (serving (chart_from (sample_meta 105%float 0%float) (VArr []) []))
      "ACME" "1d" "1m" = Ok r
    /\ get r "priceChangePercentage" = Ok (VStr "Infinity").
Proof.
  eexists. split; [reflexivity |].
  exact (@resolveChart_zero_previousClose
           (serving (chart_from (sample_meta 105%float 0%float) (VArr []) []))
           "ACME" "1d" "1m" _ _ (sample_meta 105%float 0%float)
           105%float 0%float
           eq_refl eq_refl eq_refl eq_refl eq_refl eq_refl eq_refl).
Defined.

Lemma resolveChart_missing_price_witness :
  exists r,
    @resolveChart
      (serving (chart_from (VObj [ ("currentTradingPeriod",
                                    VObj [ ("regular", sample_regular) ]) ])
                  (VArr []) []))
      "ACME" "1d" "1m" = Ok r
    /\ get r "priceChange" = Ok (VNum Num.nan)
    /\ get r "priceChangePercentage" = Ok (VStr "NaN").
Proof.
  eexists. split; [reflexivity |].
  exact (@resolveChart_missing_price
           (serving (chart_from (VObj [ ("currentTradingPeriod",
                                         VObj [ ("regular", sample_regular) ]) ])
                       (VArr []) []))
           "ACME" "1d" "1m" _ _ _ eq_refl eq_refl eq_refl
           (or_introl eq_refl)).
Defined.

Lemma resolveChart_not_convertible_witness :
  @resolveChart (serving (chart_from odd_meta (VArr []) []))
    "ACME" "1d" "1m" = Throw TypeError.
Proof.
  exact (@resolveChart_not_convertible
           (serving (chart_from odd_meta (VArr []) []))
           "ACME" "1d" "1m" _ VNull odd_meta
           eq_refl eq_refl eq_refl eq_refl (or_introl eq_refl)).
Defined.

Section QuoteShapes.
Context {host : Host}.

(** X14. A fulfilled [resolveQuote] passes [symbol], [currency],
    [shortName], [quoteType] and [exchange] on as sent, [undefined]
    when absent; [exchangeName] is the provider's when that is truthy
    and [null] whenever it is not, so it is [null] or truthy, never
    [undefined] nor the empty text. *)
Theorem resolveQuote_identity (symbol : string) (resp r p : value) :
  response (quote_url symbol) = Ok resp ->
  resolveQuote symbol = Ok r ->
  module_of "price" resp = Ok p ->
  get r "symbol" = get p "symbol"
  /\ get r "currency" = get p "currency"
  /\ get r "shortName" = get p "shortName"
  /\ get r "instrument" = get p "quoteType"
  /\ get r "exchange" = get p "exchange"
  /\ get r "exchangeName"
     = Ok (if ToBoolean (prop p "exchangeName")
           then prop p "exchangeName" else VNull)
  /\ (ToBoolean (prop p "exchangeName") = false ->
      get r "exchangeName" = Ok VNull)
  /\ (exists name,
        get r "exchangeName" = Ok name
        /\ (name = VNull \/ ToBoolean name = true)
        /\ (ToBoolean (prop p "exchangeName") = true ->
            get p "exchangeName" = Ok name)).
Proof.
  intros Hr H Hp. destruct (resolveQuote_Ok _ _ _ _ Hr H Hp) as [Ht Hk].
  apply resolveQuote_then_Ok in Ht
    as (p' & decimals & ? & ? & ? & ? & ? & ? & ? & ? & ? & Hp' & _ & _ & _
        & _ & _ & _ & _ & _ & _ & _ & ->).
  rewrite Hp in Hp'. injection Hp' as <-. rewrite !Hk.
  repeat (split; [reflexivity |]).
  split.
  { intros Hfalse.
    change (Ok (if ToBoolean (prop p "exchangeName")
                then prop p "exchangeName" else VNull) = Ok VNull).
    now rewrite Hfalse. }
  exists (if ToBoolean (prop p "exchangeName")
          then prop p "exchangeName" else VNull).
  split; [reflexivity |].
  destruct (ToBoolean (prop p "exchangeName")) eqn:Ht; auto.
  split; [auto | discriminate].
Qed.

(** X15. A fulfilled [resolveQuote] returns as [volume] and [marketCap]
    what the provider holds under [raw], unformatted and unchecked, and
    [null] when the field is absent. *)
Theorem resolveQuote_volume (symbol : string) (resp r p : value) :
  response (quote_url symbol) = Ok resp ->
  resolveQuote symbol = Ok r ->
  module_of "price" resp = Ok p ->
  get r "volume"
  = Ok (if ToBoolean (prop p "regularMarketVolume")
        then prop (prop p "regularMarketVolume") "raw" else VNull)
  /\ get r "marketCap"
     = Ok (if ToBoolean (prop p "marketCap")
           then prop (prop p "marketCap") "raw" else VNull).
Proof.
  intros Hr H Hp.
  destruct (resolveQuote_price_fields _ _ _ _ Hr H Hp)
    as (decimals & _ & _ & _ & _ & _ & _ & _ & _ & _ & Hv & Hm).
  now rewrite Hv, Hm, !field_if_eq.
Qed.

Lemma fixed_if_numeric (v d : value) :
  numeric_or_absent v = true ->
  convertible d = true -> ~ out_of_range d ->
  exists r, fixed_if v v d = Ok r.
Proof.
  unfold numeric_or_absent, fixed_if. intros Hv Hc Hd.
  destruct (ToBoolean v) eqn:Ht; [| eauto]. simpl in Hv.
  rewrite (get_truthy _ "raw" Ht). cbn [bind].
  destruct (prop v "raw"); try discriminate. simpl.
  destruct (Number_toFixed_accepted n d Hc Hd) as [s ->]. eauto.
Qed.

Lemma default_in_range : ~ out_of_range (VNum 2%float).
Proof. intros H. specialize (H 0%float). discriminate. Qed.

(** X16. [resolveQuote] is fulfilled on every response without error
    whose price module is an object, whose price hint resolves to a
    decimal count that converts to a number in range, whose price
    fields are each absent or hold a number under [raw], which holds a
    day low whenever it holds a day high, and whose market time and
    percentage of change, if present, convert to numbers. *)
Theorem resolveQuote_fulfilled
  (symbol : string) (resp error p decimals : value) :
  response (quote_url symbol) = Ok resp ->
  error_envelope "quoteSummary" resp = Ok error ->
  ToBoolean error = false ->
  module_of "price" resp = Ok p ->
  priceHint_decimals p = Ok decimals ->
  convertible decimals = true ->
  ~ out_of_range decimals ->
  (forall name, In name price_fields ->
     numeric_or_absent (prop p name) = true) ->
  (ToBoolean (prop p "regularMarketDayHigh") = true ->
   typeof (prop (prop p "regularMarketDayLow") "raw") = "number") ->
  convertible (prop p "regularMarketTime") = true ->
  (ToBoolean (prop p "regularMarketChangePercent") = true ->
   convertible (prop (prop p "regularMarketChangePercent") "raw") = true) ->
  exists r, resolveQuote symbol = Ok r.
Proof.
  intros Hresp He Hf Hp Hd Hconv Hin Hfields Hlow Htime Hpercent.
  rewrite resolveQuote_response, Hresp. cbn [bind].
  unfold resolveQuote_then. open_paths. replay.
  apply priceHint_decimals_Ok in Hd as Hh. destruct Hh as (Hh & _ & _).
  pose proof (get_Ok_nullish _ _ _ Hh) as Hn.
  rewrite !(get_Ok p _ Hn). cbn [bind].
  destruct (fixed_if_numeric (prop p "regularMarketPrice") decimals)
    as [r1 H1]; [apply Hfields; simpl; auto | exact Hconv | exact Hin |].
  destruct (fixed_if_numeric (prop p "regularMarketDayHigh") decimals)
    as [r2 H2]; [apply Hfields; simpl; auto | exact Hconv | exact Hin |].
  destruct (fixed_if_numeric (prop p "regularMarketOpen") decimals)
    as [r3 H3]; [apply Hfields; simpl; auto | exact Hconv | exact Hin |].
  destruct (fixed_if_numeric (prop p "regularMarketChange") decimals)
    as [r4 H4]; [apply Hfields; simpl; auto 6 | exact Hconv | exact Hin |].
  destruct (fixed_if_numeric (prop p "regularMarketPreviousClose") decimals)
    as [r5 H5]; [apply Hfields; simpl; auto 6 | exact Hconv | exact Hin |].
  assert (H6 : exists r6,
             fixed_if (prop p "regularMarketDayHigh")
               (prop p "regularMarketDayLow") decimals = Ok r6).
  { unfold fixed_if.
    destruct (ToBoolean (prop p "regularMarketDayHigh")) eqn:Ht; [| eauto].
    specialize (Hlow eq_refl).
    destruct (get (prop p "regularMarketDayLow") "raw") as [raw|] eqn:Hraw.
    - cbn [bind]. apply prop_get in Hraw. rewrite Hraw in Hlow.
      destruct raw; try discriminate. simpl.
      destruct (Number_toFixed_accepted n decimals Hconv Hin) as [s ->].
      eauto.
    - unfold prop at 1 in Hlow. rewrite Hraw in Hlow. discriminate. }
  destruct H6 as [r6 H6].
  unfold fixed_if in *.
  rewrite H1. cbn [bind]. rewrite H2. cbn [bind]. rewrite H6. cbn [bind].
  rewrite H3. cbn [bind].
  fold (field_if (prop p "regularMarketVolume") "raw").
  rewrite field_if_eq. cbn [bind].
  rewrite op_times_convertible by (assumption || reflexivity).
  cbn [bind]. rewrite H4. cbn [bind].
  fold (percent_if (prop p "regularMarketChangePercent")).
  rewrite (percent_if_eq _ Hpercent). cbn [bind]. rewrite H5. cbn [bind].
  fold (field_if (prop p "marketCap") "raw").
  rewrite field_if_eq. cbn [bind]. eauto.
Qed.

(** X17. A price field that the provider sends without a number under
    [raw] (an empty object, say) makes [resolveQuote] reject, with a
    [TypeError] or, when the decimal count is out of range, a
    [RangeError]; [getRawValText] reads the same field as [null]. *)
Theorem resolveQuote_field_without_raw
  (symbol name : string) (resp error p : value) :
  response (quote_url symbol) = Ok resp ->
  error_envelope "quoteSummary" resp = Ok error ->
  ToBoolean error = false ->
  module_of "price" resp = Ok p ->
  In name price_fields ->
  ToBoolean (prop p name) = true ->
  typeof (prop (prop p name) "raw") <> "number" ->
  (resolveQuote symbol = Throw TypeError
   \/ resolveQuote symbol = Throw RangeError)
  /\ forall decimals, getRawValText (prop p name) decimals = Ok VNull.
Proof.
  intros Hresp He Hf Hp Hin Ht Hraw.
  destruct (fixed_if_no_number (prop p name) (prop (prop p name) "raw")
              VNull Ht (get_truthy _ _ Ht) Hraw) as [_ Hnull].
  split.
  2: { intros decimals.
       apply (fixed_if_no_number (prop p name) (prop (prop p name) "raw")
                decimals Ht (get_truthy _ _ Ht) Hraw). }
  rewrite resolveQuote_response, Hresp. cbn [bind].
  destruct (resolveQuote_then resp) as [r|e] eqn:H.
  - exfalso.
    apply resolveQuote_then_Ok in H
      as (p' & decimals & ? & ? & ? & ? & ? & ? & ? & ? & ? & Hp' & _ & H1
          & H2 & _ & H4 & _ & H6 & _ & H8 & _).
    rewrite Hp in Hp'. injection Hp' as <-.
    pose proof (fun d => proj1 (fixed_if_no_number (prop p name)
                  (prop (prop p name) "raw") d Ht (get_truthy _ _ Ht) Hraw))
      as Hthrow.
    simpl in Hin.
    repeat (destruct Hin as [<- | Hin]; [congruence |]). destruct Hin.
  - apply resolveQuote_then_Throw in H as [H | [-> | [-> _]]]; auto.
    now elim (not_provider_error _ _ _ _ He Hf H).
Qed.

End QuoteShapes.

Lemma resolveQuote_identity_witness :
  exists r,
    @resolveQuote (serving sample_quote) "ACME" = Ok r
    /\ get r "symbol" = Ok (VStr "ACME")
    /\ get r "exchange" = Ok VUndefined
    /\ get r "exchangeName" = Ok VNull.
Proof.
  eexists. split; [reflexivity |].
  destruct (@resolveQuote_identity (serving sample_quote) "ACME"
              sample_quote _ (VObj sample_fields) eq_refl eq_refl eq_refl)
    as (Hs & _ & _ & _ & He & _ & Hnull & _).
  split; [exact Hs |]. split; [exact He |]. exact (Hnull eq_refl).
Defined.

Lemma resolveQuote_volume_witness :
  exists r,
    @resolveQuote (serving sample_quote) "ACME" = Ok r
    /\ get r "volume" = Ok (VNum 1000000%float)
    /\ get r "marketCap" = Ok VNull.
Proof.
  eexists. split; [reflexivity |].
  exact (@resolveQuote_volume (serving sample_quote) "ACME"
           sample_quote _ (VObj sample_fields) eq_refl eq_refl eq_refl).
Defined.

Lemma resolveQuote_fulfilled_witness :
  exists r, @resolveQuote (serving sample_quote) "ACME" = Ok r.
Proof.
  apply (@resolveQuote_fulfilled (serving sample_quote) "ACME"
           sample_quote VNull (VObj sample_fields) (VNum 2%float)
           eq_refl eq_refl eq_refl eq_refl eq_refl eq_refl).
  - intros H. specialize (H 0%float). discriminate H.
  - intros name Hin. simpl in Hin.
    repeat (destruct Hin as [<- | Hin]; [reflexivity |]). destruct Hin.
  - reflexivity.
  - reflexivity.
  - reflexivity.
Defined.

Lemma resolveQuote_field_without_raw_witness :
  (@resolveQuote (serving (sample_price hollow_price)) "ACME"
   = Throw TypeError
   \/ @resolveQuote (serving (sample_price hollow_price)) "ACME"
      = Throw RangeError)
  /\ @getRawValText (serving (sample_price hollow_price))
       (VObj []) (VNum 2%float) = Ok VNull.
Proof.
  destruct (@resolveQuote_field_without_raw
              (serving (sample_price hollow_price)) "ACME"
              "regularMarketPrice" (sample_price hollow_price) VNull
              (VObj hollow_price) eq_refl eq_refl eq_refl eq_refl
              (or_introl eq_refl) eq_refl)
    as [H Hn].
  - discriminate.
  - split; [exact H | exact (Hn (VNum 2%float))].
Defined.

Section ProfileShapes.
Context {host : Host}.

Lemma getRawValText_in_range (val decimals : value) :
  ~ out_of_range decimals -> exists r, getRawValText val decimals = Ok r.
Proof.
  intros Hd. destruct (getRawValText val decimals) as [r|e] eqn:H; [eauto |].
  apply getRawValText_Throw in H as [_ H]. now elim Hd.
Qed.

Lemma summaryDetail_of_total (d decimals : value) :
  priceHint_decimals d = Ok decimals -> ~ out_of_range decimals ->
  (forall k, In k yield_fields ->
     convertible (prop (prop d k) "raw") = true) ->
  exists sd, summaryDetail_of d = Ok sd.
Proof.
  intros Hd Hin Hy. unfold summaryDetail_of. rewrite Hd. cbn [bind].
  apply priceHint_decimals_Ok in Hd as (Hh & _ & _).
  pose proof (get_Ok_nullish _ _ _ Hh) as Hn.
  rewrite !(get_Ok d _ Hn). cbn [bind].
  fold (percent_if (prop d "dividendYield")).
  fold (percent_if (prop d "trailingAnnualDividendYield")).
  fold (field_if (prop d "exDividendDate") "fmt").
  rewrite !percent_if_eq, field_if_eq
    by (intros _; apply Hy; simpl; auto).
  destruct (getRawValText_in_range (prop d "beta") _ Hin) as [? ->].
  destruct (getRawValText_in_range (prop d "fiftyTwoWeekLow") _ Hin)
    as [? ->].
  destruct (getRawValText_in_range (prop d "fiftyTwoWeekHigh") _ Hin)
    as [? ->].
  destruct (getRawValText_in_range (prop d "fiftyDayAverage") _ Hin)
    as [? ->].
  destruct (getRawValText_in_range (prop d "twoHundredDayAverage") _ Hin)
    as [? ->].
  destruct (getRawValText_in_range (prop d "dividendRate") _ Hin) as [? ->].
  destruct (getRawValText_in_range (prop d "trailingAnnualDividendRate")
              _ Hin) as [? ->].
  cbn [bind]. eauto.
Qed.

Lemma summaryProfile_of_total (p : value) :
  nullish p = false ->
  (forall k, In k address_fields -> convertible (prop p k) = true) ->
  exists sp, summaryProfile_of p = Ok sp.
Proof.
  intros Hn Hc. unfold summaryProfile_of.
  rewrite !(get_Ok p _ Hn). cbn [bind].
  rewrite !coerce_convertible by (apply Hc; simpl; auto 6). cbn [bind].
  destruct (ToBoolean (prop p "address2")); [| cbn [bind]; eauto].
  rewrite op_plus_string_convertible by (apply Hc; simpl; auto).
  cbn [bind]. eauto.
Qed.

(** The profile callback once the envelope is read and the
    [summaryDetail] module found. *)
Lemma resolveProfile_then_modules (symbol : string) (resp error d : value) :
  error_envelope "quoteSummary" resp = Ok error ->
  ToBoolean error = false ->
  module_of "summaryDetail" resp = Ok d ->
  resolveProfile_then symbol resp
  = (summaryDetail <- summaryDetail_of d ;;
     pc <- (if isIndex symbol then
              components_ <- module_of "components" resp ;;
              components <- get components_ "components" ;;
              Ok (VNull, components)
            else
              profileResult <- module_of "summaryProfile" resp ;;
              summaryProfile <- summaryProfile_of profileResult ;;
              Ok (summaryProfile, VNull)) ;;
     Ok (object_literal
           [ ("summaryProfile", fst pc);
             ("summaryDetail", summaryDetail);
             ("components", snd pc) ]))%js.
Proof.
  intros He Hf Hd. unfold resolveProfile_then.
  unfold module_of, first_result. open_paths. replay. reflexivity.
Qed.

(** X18. [resolveProfile] is fulfilled on every response without error
    that holds the [summaryDetail] module with a decimal count that
    [toFixed] does not refuse and the module asked for, [components] for
    an index and [summaryProfile] otherwise, as long as the values it
    computes with convert: what the two yields hold under [raw] and,
    for a symbol that is no index, the five parts of the address.  No
    field inside the modules needs to be present. *)
Theorem resolveProfile_fulfilled
  (symbol : string) (resp error d decimals m : value) :
  response (profile_url symbol) = Ok resp ->
  error_envelope "quoteSummary" resp = Ok error ->
  ToBoolean error = false ->
  module_of "summaryDetail" resp = Ok d ->
  priceHint_decimals d = Ok decimals ->
  ~ out_of_range decimals ->
  (forall k, In k yield_fields ->
     convertible (prop (prop d k) "raw") = true) ->
  module_of (if isIndex symbol then "components" else "summaryProfile") resp
  = Ok m ->
  nullish m = false ->
  (isIndex symbol = false ->
   forall k, In k address_fields -> convertible (prop m k) = true) ->
  exists r, resolveProfile symbol = Ok r.
Proof.
  intros Hresp He Hf Hd Hh Hin Hy Hm Hn Ha.
  rewrite resolveProfile_response, Hresp. cbn [bind].
  rewrite (resolveProfile_then_modules _ _ _ _ He Hf Hd).
  destruct (summaryDetail_of_total _ _ Hh Hin Hy) as [sd ->]. cbn [bind].
  destruct (isIndex symbol); rewrite Hm; cbn [bind].
  - rewrite (get_Ok m _ Hn). cbn [bind]. eauto.
  - destruct (summaryProfile_of_total m Hn (Ha eq_refl)) as [sp ->].
    cbn [bind]. eauto.
Qed.

(** X19. A response without the [summaryDetail] module, or without the
    module asked for once [summaryDetail] is assembled, makes
    [resolveProfile] reject with a [TypeError]. *)
Theorem resolveProfile_missing_module
  (symbol : string) (resp error payload : value) :
  response (profile_url symbol) = Ok resp ->
  error_envelope "quoteSummary" resp = Ok error ->
  ToBoolean error = false ->
  first_result "quoteSummary" resp = Ok payload ->
  nullish (prop payload "summaryDetail") = true
  \/ ((exists sd, summaryDetail_of (prop payload "summaryDetail") = Ok sd)
      /\ nullish
           (prop payload
              (if isIndex symbol then "components" else "summaryProfile"))
         = true) ->
  resolveProfile symbol = Throw TypeError.
Proof.
  intros Hresp He Hf Hp Hmiss.
  rewrite resolveProfile_response, Hresp. cbn [bind].
  unfold resolveProfile_then. open_paths. replay.
  destruct (nullish payload) eqn:Hpn;
    [now rewrite (get_nullish_Throw _ "summaryDetail" Hpn) |].
  rewrite !(get_Ok _ _ Hpn). cbn [bind].
  destruct Hmiss as [Hm | [[sd Hsd] Hm]].
  - unfold summaryDetail_of, priceHint_decimals.
    now rewrite (get_nullish_Throw _ "priceHint" Hm).
  - rewrite Hsd. cbn [bind].
    destruct (isIndex symbol).
    + now rewrite (get_nullish_Throw _ "components" Hm).
    + unfold summaryProfile_of.
      now rewrite (get_nullish_Throw _ "address2" Hm).
Qed.

(** X20. The outcome of the profile callback depends on the response
    through the error entry, the [summaryDetail] module and the one
    module asked for only: for an index [summaryProfile] is never read,
    for another symbol [components] is never read. *)
Theorem resolveProfile_reads_requested
  (symbol : string) (resp resp' error d : value) :
  error_envelope "quoteSummary" resp = Ok error ->
  error_envelope "quoteSummary" resp' = Ok error ->
  module_of "summaryDetail" resp = Ok d ->
  module_of "summaryDetail" resp' = Ok d ->
  module_of (if isIndex symbol then "components" else "summaryProfile") resp
  = module_of (if isIndex symbol then "components" else "summaryProfile")
      resp' ->
  resolveProfile_then symbol resp = resolveProfile_then symbol resp'.
Proof.
  intros He He' Hd Hd' Hm.
  destruct (ToBoolean error) eqn:Hf.
  - unfold resolveProfile_then. unfold error_envelope in He, He'.
    pops He. pops He'. rewrite E, E0. cbn [bind]. rewrite He, He'.
    cbn [bind]. now rewrite Hf.
  - rewrite (resolveProfile_then_modules _ _ _ _ He Hf Hd),
      (resolveProfile_then_modules _ _ _ _ He' Hf Hd').
    destruct (isIndex symbol); now rewrite Hm.
Qed.

End ProfileShapes.

Lemma resolveProfile_fulfilled_witness :
  exists r, @resolveProfile (serving sample_company) "ACME" = Ok r.
Proof.
  apply (@resolveProfile_fulfilled (serving sample_company) "ACME"
           sample_company VNull sample_detail (VNum 4%float) sample_address
           eq_refl eq_refl eq_refl eq_refl eq_refl).
  - intros H. specialize (H 0%float). discriminate H.
  - intros k Hin. simpl in Hin.
    repeat (destruct Hin as [<- | Hin]; [reflexivity |]). destruct Hin.
  - reflexivity.
  - reflexivity.
  - intros _ k Hin. simpl in Hin.
    repeat (destruct Hin as [<- | Hin]; [reflexivity |]). destruct Hin.
Defined.

Lemma resolveProfile_missing_module_witness :
  @resolveProfile (serving profile_only) "ACME" = Throw TypeError.
Proof.
  exact (@resolveProfile_missing_module (serving profile_only) "ACME"
           profile_only VNull _ eq_refl eq_refl eq_refl eq_refl
           (or_introl eq_refl)).
Defined.

Lemma resolveProfile_reads_requested_witness :
  @resolveProfile_then (serving VNull) "^GSPC" sample_index
  = @resolveProfile_then (serving VNull) "^GSPC" sample_index_with_profile.
Proof.
  exact (@resolveProfile_reads_requested (serving VNull) "^GSPC"
           sample_index sample_index_with_profile VNull sample_detail
           eq_refl eq_refl eq_refl eq_refl eq_refl).
Defined.

Section Unconvertible.
Context {host : Host}.

(** The values that a fulfilled quote has computed with convert. *)
Lemma resolveQuote_then_converts (resp r p : value) :
  resolveQuote_then resp = Ok r ->
  module_of "price" resp = Ok p ->
  convertible (prop p "regularMarketTime") = true
  /\ (ToBoolean (prop p "regularMarketChangePercent") = true ->
      convertible (prop (prop p "regularMarketChangePercent") "raw") = true).
Proof.
  intros H Hp. pose proof H as H'.
  apply resolveQuote_then_Ok in H'
    as (p' & decimals & ? & ? & ? & ? & ? & ? & y & ? & ? & Hp' & _ & _ & _
        & _ & _ & _ & _ & Hy & _).
  rewrite Hp in Hp'. injection Hp' as <-.
  split; [| exact (proj2 (percent_if_Ok _ _ Hy))].
  unfold module_of, first_result in Hp. pops Hp.
  repeat match goal with
    | E : bind _ _ = Ok _ |- _ => pop E
    end.
  unfold resolveQuote_then in H.
  apply fulfilled_no_error in H as (summary & error & Hs & _ & _ & H).
  match goal with
  | E : get resp "quoteSummary" = Ok ?a |- _ =>
      lazymatch a with
      | summary => fail
      | _ => rewrite Hs in E; injection E as <-
      end
  end.
  repeat match goal with
    | E : ?e = Ok _ |- _ =>
        match type of H with
        | bind e _ = Ok _ => rewrite E in H; cbn [bind] in H
        end
    end.
  pops H.
  repeat match goal with
    | E : get p _ = Ok ?x |- _ => apply prop_get in E; subst x
    end.
  match goal with
  | E : op_times (prop p "regularMarketTime") _ = Ok _ |- _ =>
      now apply op_times_Ok in E as (_ & ? & _)
  end.
Qed.

(** X23. A quote without error whose [regularMarketTime] does not
    convert to a number, or whose [regularMarketChangePercent] holds
    under [raw] a value that does not, is rejected, with a [TypeError]
    or, when an earlier field met a refused decimal count, a
    [RangeError]. *)
Theorem resolveQuote_not_convertible
  (symbol : string) (resp error p : value) :
  response (quote_url symbol) = Ok resp ->
  error_envelope "quoteSummary" resp = Ok error ->
  ToBoolean error = false ->
  module_of "price" resp = Ok p ->
  convertible (prop p "regularMarketTime") = false
  \/ (ToBoolean (prop p "regularMarketChangePercent") = true
      /\ convertible (prop (prop p "regularMarketChangePercent") "raw")
         = false) ->
  resolveQuote symbol = Throw TypeError
  \/ resolveQuote symbol = Throw RangeError.
Proof.
  intros Hresp He Hf Hp Hno.
  rewrite resolveQuote_response, Hresp. cbn [bind].
  destruct (resolveQuote_then resp) as [r|e] eqn:H.
  - exfalso.
    destruct (resolveQuote_then_converts _ _ _ H Hp) as [Ht Hc].
    destruct Hno as [Hno | [Hy Hno]]; [congruence |].
    specialize (Hc Hy). congruence.
  - apply resolveQuote_then_Throw in H as [H | [-> | [-> _]]]; auto.
    now elim (not_provider_error _ _ _ _ He Hf H).
Qed.

(** The values that [summaryDetail_of] and [summaryProfile_of] have
    computed with convert. *)
Lemma summaryDetail_of_converts (d sd : value) :
  summaryDetail_of d = Ok sd ->
  forall k, In k yield_fields -> ToBoolean (prop d k) = true ->
    convertible (prop (prop d k) "raw") = true.
Proof.
  unfold summaryDetail_of. intros H. pops H.
  repeat match goal with
    | E : get d _ = Ok ?x |- _ => apply prop_get in E; subst x
    end.
  repeat match goal with
    | E : (if ToBoolean (prop d ?k) then _ else Ok VNull) = Ok _ |- _ =>
        lazymatch k with
        | "exDividendDate" => clear E
        | _ => apply percent_if_Ok in E as [_ E]
        end
    end.
  intros k Hin. simpl in Hin.
  repeat (destruct Hin as [<- | Hin]; [assumption |]). destruct Hin.
Qed.

Lemma summaryProfile_of_converts (p sp : value) :
  summaryProfile_of p = Ok sp ->
  forall k, In k address_fields -> convertible (prop p k) = true.
Proof.
  unfold summaryProfile_of. intros H. pops H.
  repeat match goal with
    | E : get p _ = Ok ?x |- _ => apply prop_get in E; subst x
    end.
  repeat match goal with
    | E : coerce _ = Ok _ |- _ => apply coerce_Ok in E as [_ E]
    end.
  assert (H2 : convertible (prop p "address2") = true).
  { destruct (ToBoolean (prop p "address2")) eqn:Hb.
    - match goal with
      | E : op_plus_string _ _ = Ok _ |- _ =>
          now apply op_plus_string_Ok in E as [_ E]
      end.
    - destruct (prop p "address2"); try discriminate; reflexivity. }
  intros k Hin. simpl in Hin.
  repeat (destruct Hin as [<- | Hin]; [assumption |]). destruct Hin.
Qed.

(** X24. [resolveProfile] rejects a response without error in which a
    yield of [summaryDetail] holds under [raw] a value that does not
    convert to a number (with a [TypeError] or, when an earlier field
    met a refused decimal count, a [RangeError]), and, for a symbol
    that is no index and once [summaryDetail] is assembled, a response
    in which a part of the address does not convert to a string (with
    a [TypeError]). *)
Theorem resolveProfile_not_convertible
  (symbol : string) (resp error d : value) :
  response (profile_url symbol) = Ok resp ->
  error_envelope "quoteSummary" resp = Ok error ->
  ToBoolean error = false ->
  module_of "summaryDetail" resp = Ok d ->
  (forall k, In k yield_fields -> ToBoolean (prop d k) = true ->
     convertible (prop (prop d k) "raw") = false ->
     resolveProfile symbol = Throw TypeError
     \/ resolveProfile symbol = Throw RangeError)
  /\ (forall sd m k,
        summaryDetail_of d = Ok sd -> isIndex symbol = false ->
        module_of "summaryProfile" resp = Ok m ->
        In k address_fields -> convertible (prop m k) = false ->
        resolveProfile symbol = Throw TypeError).
Proof.
  intros Hresp He Hf Hd.
  rewrite resolveProfile_response, Hresp. cbn [bind].
  rewrite (resolveProfile_then_modules _ _ _ _ He Hf Hd). split.
  - intros k Hin Hb Hno.
    destruct (summaryDetail_of d) as [sd|e] eqn:H.
    + pose proof (summaryDetail_of_converts _ _ H k Hin Hb). congruence.
    + cbn [bind].
      apply summaryDetail_of_Throw in H as [-> | [-> _]]; auto.
  - intros sd m k Hsd Hi Hm Hin Hno. rewrite Hsd, Hi, Hm. cbn [bind].
    destruct (summaryProfile_of m) as [sp|e] eqn:H.
    + pose proof (summaryProfile_of_converts _ _ H k Hin). congruence.
    + cbn [bind]. now apply summaryProfile_of_Throw in H as ->.
Qed.

End Unconvertible.

Lemma resolveQuote_not_convertible_witness :
  @resolveQuote (serving (sample_price odd_time)) "ACME" = Throw TypeError
  \/ @resolveQuote (serving (sample_price odd_time)) "ACME"
     = Throw RangeError.
Proof.
  exact (@resolveQuote_not_convertible (serving (sample_price odd_time))
           "ACME" (sample_price odd_time) VNull (VObj odd_time)
           eq_refl eq_refl eq_refl eq_refl (or_introl eq_refl)).
Defined.

Lemma resolveProfile_not_convertible_witness :
  @resolveProfile (serving (company odd_address)) "ACME" = Throw TypeError.
Proof.
  destruct (@resolveProfile_not_convertible (serving (company odd_address))
              "ACME" (company odd_address) VNull sample_detail
              eq_refl eq_refl eq_refl eq_refl)
    as [_ H].
  apply (H _ odd_address "city" eq_refl eq_refl eq_refl).
  - simpl. auto.
  - reflexivity.
Defined.
